(** * social-lite: the real-time messaging core and the history read path

    A shallow embedding of [server/src/socket.ts] (connection authentication,
    presence registry, conversation rooms, send / react / delete handlers)
    and of the [GET /conversation/:id] handler of [server/routes/messages.ts],
    together with the properties stated about them.

    Conventions of the embedding:
    - every identifier of the database and of the channel is a [string], as
      in the source; an [ObjectId] is kept in its canonical hexadecimal form;
    - a MongoDB collection is a [list] of documents in natural order:
      [findOne] returns the first match, [updateOne] rewrites the first match
      and, with [upsert], appends a new document when there is none;
    - the Socket.IO server is the list of connected sockets, each with the
      set of rooms it has joined; an emission is the list of deliveries it
      produces, one per receiving socket;
    - an [async] handler is run to completion on the state it starts from;
    - a call on the store may fail: each run is told at which of its round
      trips, if any, the driver throws;
    - each [new Date()] of a run is a reading of its own of the clock;
    - a rejected promise that nothing catches is recorded in the state of
      the server: Node ends the process on it. *)

From stdpp Require Import gmap strings list sorting.

Set Default Proof Using "Type".

(** ** Collaborators that are libraries, not code of the repository *)

(** What the handlers need from [mongodb] and [jsonwebtoken]. Both calls
    throw in the source; a thrown call is [None]. *)
Class Driver := {
  (** [new ObjectId(s)]: the canonical hexadecimal form of the identifier. *)
  new_ObjectId : string -> option string;
  (** [jwt.verify(token, JWT_SECRET)]: the [userId] of the decoded payload. *)
  jwt_verify : string -> option string;
}.

Definition Date := nat.

(** ** Documents of the persistent store *)

(** [nickname] is absent until [PUT /conversation/:id/nickname] sets it. *)
Record Participant := {
  cp_conversation_id : string;
  cp_user_id : string;
  cp_is_admin : bool;
  cp_is_muted : bool;
  cp_joined_at : Date;
  cp_nickname : option string;
}.

Record User := {
  user_id : string;
  first_name : string;
  last_name : string;
  avatar_url : option string;
}.

Record Message := {
  msg_id : string;
  msg_conversation_id : string;
  msg_sender_id : string;
  msg_content : string;
  msg_created_at : Date;
}.

Record Reaction := {
  r_message_id : string;
  r_user_id : string;
  r_reaction : string;
  r_created_at : Date;
}.

Record Deletion := {
  d_message_id : string;
  d_user_id : string;
  deleted_for_everyone : bool;
}.

Record Db := {
  conversation_participants : list Participant;
  users : list User;
  messages : list Message;
  message_reactions : list Reaction;
  message_deletions : list Deletion;
}.

(** ** Collection operations *)

Module Collection.
Section Ops.
Context {A : Type}.

(** [findOne(filter)]: the first document that matches. *)
Definition findOne (q : A -> bool) (c : list A) : option A := List.find q c.

(** [find(filter).toArray()] *)
Definition find (q : A -> bool) (c : list A) : list A := List.filter q c.

(** [updateOne(filter, {$set}, {upsert: true})]: [set] rewrites the first
    match in place; without a match [fresh] is appended. *)
Fixpoint updateOne_upsert (q : A -> bool) (set : A -> A) (fresh : A)
    (c : list A) : list A :=
  match c with
  | [] => [fresh]
  | d :: c' =>
      if q d then set d :: c' else d :: updateOne_upsert q set fresh c'
  end.

(** [deleteOne(filter)]: the first match is removed. *)
Fixpoint deleteOne (q : A -> bool) (c : list A) : list A :=
  match c with
  | [] => []
  | d :: c' => if q d then c' else d :: deleteOne q c'
  end.

(** [insertOne(doc)] *)
Definition insertOne (d : A) (c : list A) : list A := c ++ [d].
End Ops.
End Collection.

(** ** The channel: sockets, rooms, events *)

Record Socket := {
  socket_id : string;
  data_userId : string;
  rooms : gset string;
}.

Record Profile := {
  p_id : string;
  p_first_name : string;
  p_last_name : string;
  p_avatar_url : option string;
}.

Record NewMessage := {
  nm_id : string;
  nm_conversation_id : string;
  nm_sender_id : string;
  nm_content : string;
  nm_created_at : Date;
  nm_sender : option Profile;
  nm_reactions : list (string * string);
}.

Inductive Event :=
  | user_online (userId : string)
  | user_offline (userId : string)
  | new_message (m : NewMessage)
  | message_reaction_updated (messageId : string)
      (reactions : list (string * string))
  | message_deleted (messageId : string) (deletedForEveryone : bool)
  | user_typing (userId conversationId : string).

(** One event arriving at one connection. *)
Record Delivery := {
  dl_to : string;
  dl_event : Event;
}.

(** The process and the store behind it. [unhandledRejection] is the
    rejection of a promise that no handler caught, once there is one: the
    default of Node (since version 15; nothing under [server/] listens for
    [unhandledRejection] or changes the mode) is to end the process on it. *)
Record Server := {
  db : Db;
  onlineUsers : gmap string string;
  sockets : list Socket;
  unhandledRejection : option string;
}.

(** [io.emit(ev)]: every connected socket receives the event. *)
Definition io_emit (ev : Event) (ss : list Socket) : list Delivery :=
  map (fun s => {| dl_to := socket_id s; dl_event := ev |}) ss.

(** [io.to(room).emit(ev)]: every socket that has joined [room]. *)
Definition io_to_emit (room : string) (ev : Event) (ss : list Socket)
    : list Delivery :=
  io_emit ev (filter (fun s => room ∈ rooms s) ss).

(** [socket.emit(ev)]: the socket itself, nobody else. *)
Definition socket_emit (sid : string) (ev : Event) : list Delivery :=
  [{| dl_to := sid; dl_event := ev |}].

(** [socket.to(room).emit(ev)]: the room without the socket itself. *)
Definition socket_to_emit (sid : string) (room : string) (ev : Event)
    (ss : list Socket) : list Delivery :=
  io_emit ev (filter (fun s => room ∈ rooms s /\ socket_id s <> sid) ss).

(** [socket.join(room)] *)
Definition socket_join (sid : string) (room : string) (ss : list Socket)
    : list Socket :=
  map (fun s =>
         if bool_decide (socket_id s = sid)
         then {| socket_id := socket_id s; data_userId := data_userId s;
                 rooms := {[room]} ∪ rooms s |}
         else s) ss.

Definition conversation_room (conversationId : string) : string :=
  "conversation_" +:+ conversationId.

Definition set_db (d : Db) (s : Server) : Server :=
  {| db := d; onlineUsers := onlineUsers s; sockets := sockets s;
     unhandledRejection := unhandledRejection s |}.

Definition set_onlineUsers (o : gmap string string) (s : Server) : Server :=
  {| db := db s; onlineUsers := o; sockets := sockets s;
     unhandledRejection := unhandledRejection s |}.

Definition set_sockets (ss : list Socket) (s : Server) : Server :=
  {| db := db s; onlineUsers := onlineUsers s; sockets := ss;
     unhandledRejection := unhandledRejection s |}.

Definition set_unhandledRejection (err : option string) (s : Server)
    : Server :=
  {| db := db s; onlineUsers := onlineUsers s; sockets := sockets s;
     unhandledRejection := err |}.

(** ** Handlers as computations

    A handler reads its environment, changes the server, emits, and may
    throw. The environment carries what the outside world decides during one
    run: the clock, the identifier the driver generates for an inserted
    document, and the store round trip (counted from 0) at which the driver
    fails, if any. [clock e n] is what the [n]-th [new Date()] of the run
    reads, counted from 0; nothing relates one reading to the next. *)

Record Env := {
  fault : option nat;
  clock : nat -> Date;
  insertedId : string;
}.

(** The first [new Date()] of a run. *)
Definition now (e : Env) : Date := clock e 0.
Arguments now : simpl never.

Record Run := {
  server : Server;
  trips : nat;
  outbox : list Delivery;
}.

Inductive Res (A : Type) :=
  | Ok (a : A)
  | Throw (err : string).
Arguments Ok {A} a.
Arguments Throw {A} err.

Definition M (A : Type) : Type := Env -> Run -> Res A * Run.

Definition ret {A} (a : A) : M A := fun _ r => (Ok a, r).

Definition bind {A B} (m : M A) (k : A -> M B) : M B := fun e r =>
  match m e r with
  | (Ok a, r') => k a e r'
  | (Throw err, r') => (Throw err, r')
  end.

Notation "'let*' x ':=' m 'in' k" := (bind m (fun x => k))
  (at level 10, x name, m at level 100, k at level 200,
   format "'[v' 'let*'  x  ':='  m  'in' '/' k ']'").

Notation "'do' m 'then' k" := (bind m (fun _ => k))
  (at level 10, m at level 100, k at level 200,
   format "'[v' 'do'  m  'then' '/' k ']'").

Definition throw {A} (err : string) : M A := fun _ r => (Throw err, r).

Definition ask : M Env := fun e r => (Ok e, r).

(** One awaited call on the store: it counts as a round trip and throws when
    the driver fails there, leaving the store as it was. *)
Definition await_db {A} (op : Db -> A * Db) : M A := fun e r =>
  let r' (s : Server) :=
    {| server := s; trips := S (trips r); outbox := outbox r |} in
  if bool_decide (fault e = Some (trips r))
  then (Throw "MongoError", r' (server r))
  else let '(a, d) := op (db (server r)) in (Ok a, r' (set_db d (server r))).

Definition query {A} (f : Db -> A) : Db -> A * Db := fun d => (f d, d).

Definition write (f : Db -> Db) : Db -> unit * Db := fun d => (tt, f d).

(** An emission: the deliveries are computed from the sockets connected at
    that moment. *)
Definition emit (f : list Socket -> list Delivery) : M unit := fun _ r =>
  (Ok tt, {| server := server r; trips := trips r;
             outbox := outbox r ++ f (sockets (server r)) |}).

Definition update_server (f : Server -> Server) : M unit := fun _ r =>
  (Ok tt, {| server := f (server r); trips := trips r; outbox := outbox r |}).

(** [try { ... } catch (err) { console.error(...) }]: what was written and
    emitted before the exception stays, the exception goes no further. *)
Definition run {A} (h : M A) (e : Env) (s : Server) : Server * list Delivery :=
  let r := (h e {| server := s; trips := 0; outbox := [] |}).2 in
  (server r, outbox r).

(** A handler without [try]: when its promise rejects nothing catches the
    rejection. What was written and emitted before stays. *)
Definition run_unguarded {A} (h : M A) (e : Env) (s : Server)
    : Server * list Delivery :=
  let '(res, r) := h e {| server := s; trips := 0; outbox := [] |} in
  (match res with
   | Ok _ => server r
   | Throw err => set_unhandledRejection (Some err) (server r)
   end,
   outbox r).

Definition set_messages (c : list Message) (d : Db) : Db :=
  {| conversation_participants := conversation_participants d;
     users := users d; messages := c;
     message_reactions := message_reactions d;
     message_deletions := message_deletions d |}.

Definition set_message_reactions (c : list Reaction) (d : Db) : Db :=
  {| conversation_participants := conversation_participants d;
     users := users d; messages := messages d; message_reactions := c;
     message_deletions := message_deletions d |}.

Definition set_message_deletions (c : list Deletion) (d : Db) : Db :=
  {| conversation_participants := conversation_participants d;
     users := users d; messages := messages d;
     message_reactions := message_reactions d; message_deletions := c |}.

(** ** Payloads of the client events *)

Record SendMessage := {
  sm_conversationId : string;
  sm_content : string;
}.

(** [reaction: string | null] *)
Record ReactMessage := {
  rm_messageId : string;
  rm_conversationId : string;
  rm_reaction : option string;
}.

Record DeleteMessage := {
  dm_messageId : string;
  dm_conversationId : string;
  dm_forEveryone : bool;
}.

Inductive ClientEvent :=
  | join_conversation (conversationId : string)
  | send_message (data : SendMessage)
  | react_message (data : ReactMessage)
  | delete_message (data : DeleteMessage)
  | typing (conversationId : string)
  | disconnect.

(** JavaScript truthiness of a [string | null] value: [null] and the empty
    string are falsy. *)
Definition truthy (v : option string) : option string :=
  match v with
  | Some k => if bool_decide (k = "") then None else Some k
  | None => None
  end.

(** ** Queries *)

Definition participant_q (conversationId userId : string) (p : Participant)
    : bool :=
  bool_decide (cp_conversation_id p = conversationId)
  && bool_decide (cp_user_id p = userId).

Definition user_q (oid : string) (u : User) : bool :=
  bool_decide (user_id u = oid).

Definition message_q (oid : string) (m : Message) : bool :=
  bool_decide (msg_id m = oid).

Definition reaction_q (messageId userId : string) (r : Reaction) : bool :=
  bool_decide (r_message_id r = messageId)
  && bool_decide (r_user_id r = userId).

Definition reactions_of_q (messageId : string) (r : Reaction) : bool :=
  bool_decide (r_message_id r = messageId).

Definition deletion_q (messageId userId : string) (x : Deletion) : bool :=
  bool_decide (d_message_id x = messageId)
  && bool_decide (d_user_id x = userId).

Definition profile_of (u : User) : Profile :=
  {| p_id := user_id u; p_first_name := first_name u;
     p_last_name := last_name u; p_avatar_url := avatar_url u |}.

(** [reactions.map(r => ({ user_id: r.user_id, reaction: r.reaction }))] *)
Definition reaction_list (rs : list Reaction) : list (string * string) :=
  map (fun r => (r_user_id r, r_reaction r)) rs.

Section Handlers.
Context `{Driver}.

Definition ObjectId (s : string) : M string :=
  match new_ObjectId s with
  | Some oid => ret oid
  | None => throw "BSONError"
  end.

(** ** [socket.ts] *)

Definition isConversationParticipant (userId conversationId : string)
    : M bool :=
  let* result := await_db (query (fun d =>
    Collection.findOne (participant_q conversationId userId)
      (conversation_participants d))) in
  ret (match result with Some _ => true | None => false end).

(** [io.use]: the handshake middleware. [Throw] is [next(new Error(..))]. *)
Definition io_use (token : option string) : Res string :=
  match truthy token with
  | None => Throw "Authentication required"
  | Some t =>
      match jwt_verify t with
      | Some userId => Ok userId
      | None => Throw "Invalid token"
      end
  end.

(** The body of [io.on('connection', ...)] before the handlers are
    registered. *)
Definition on_connection (sid userId : string) : M unit :=
  do update_server (fun s =>
       set_onlineUsers (<[userId := sid]> (onlineUsers s)) s) then
  emit (io_emit (user_online userId)).

(** This handler has no [try]: a failed query rejects its promise (see
    [dispatch]), and the handler has then joined no room. *)
Definition on_join_conversation (sid userId conversationId : string)
    : M unit :=
  let* isParticipant := isConversationParticipant userId conversationId in
  if isParticipant
  then update_server (fun s =>
         set_sockets
           (socket_join sid (conversation_room conversationId) (sockets s)) s)
  else ret tt.

Definition on_send_message (userId : string) (data : SendMessage) : M unit :=
  let* isParticipant :=
    isConversationParticipant userId (sm_conversationId data) in
  if negb isParticipant then ret tt else
  let* e := ask in
  let* result := await_db (fun d =>
    (insertedId e,
     set_messages
       (Collection.insertOne
          {| msg_id := insertedId e;
             msg_conversation_id := sm_conversationId data;
             msg_sender_id := userId;
             msg_content := sm_content data;
             msg_created_at := now e |} (messages d)) d)) in
  let* oid := ObjectId userId in
  let* sender := await_db (query (fun d =>
    Collection.findOne (user_q oid) (users d))) in
  emit (io_to_emit (conversation_room (sm_conversationId data))
    (new_message
       {| nm_id := result;
          nm_conversation_id := sm_conversationId data;
          nm_sender_id := userId;
          nm_content := sm_content data;
          nm_created_at := clock e 1;
          nm_sender := profile_of <$> sender;
          nm_reactions := [] |})).

Definition on_react_message (userId : string) (data : ReactMessage) : M unit :=
  let* isParticipant :=
    isConversationParticipant userId (rm_conversationId data) in
  if negb isParticipant then ret tt else
  let* e := ask in
  do match truthy (rm_reaction data) with
  | None =>
      await_db (write (fun d =>
        set_message_reactions
          (Collection.deleteOne (reaction_q (rm_messageId data) userId)
             (message_reactions d)) d))
  | Some k =>
      await_db (write (fun d =>
        set_message_reactions
          (Collection.updateOne_upsert (reaction_q (rm_messageId data) userId)
             (fun r => {| r_message_id := r_message_id r;
                          r_user_id := r_user_id r;
                          r_reaction := k; r_created_at := now e |})
             {| r_message_id := rm_messageId data; r_user_id := userId;
                r_reaction := k; r_created_at := now e |}
             (message_reactions d)) d))
  end then
  let* reactions := await_db (query (fun d =>
    Collection.find (reactions_of_q (rm_messageId data))
      (message_reactions d))) in
  emit (io_to_emit (conversation_room (rm_conversationId data))
    (message_reaction_updated (rm_messageId data) (reaction_list reactions))).

(** [updateOne({message_id, user_id}, {$set: {message_id, user_id,
    deleted_for_everyone}}, {upsert: true})] on [message_deletions]. *)
Definition upsert_deletion (messageId userId : string) (forEveryone : bool)
    : M unit :=
  let marker := {| d_message_id := messageId; d_user_id := userId;
                   deleted_for_everyone := forEveryone |} in
  await_db (write (fun d =>
    set_message_deletions
      (Collection.updateOne_upsert (deletion_q messageId userId)
         (fun _ => marker) marker (message_deletions d)) d)).

Definition on_delete_message (sid userId : string) (data : DeleteMessage)
    : M unit :=
  let* isParticipant :=
    isConversationParticipant userId (dm_conversationId data) in
  if negb isParticipant then ret tt else
  if dm_forEveryone data then
    let* oid := ObjectId (dm_messageId data) in
    let* msg := await_db (query (fun d =>
      Collection.findOne (message_q oid) (messages d))) in
    (* msg?.sender_id !== userId *)
    if negb (bool_decide (msg_sender_id <$> msg = Some userId)) then ret tt
    else
      do upsert_deletion (dm_messageId data) userId true then
      emit (io_to_emit (conversation_room (dm_conversationId data))
        (message_deleted (dm_messageId data) true))
  else
    do upsert_deletion (dm_messageId data) userId false then
    emit (fun _ => socket_emit sid (message_deleted (dm_messageId data) false)).

Definition on_typing (sid userId conversationId : string) : M unit :=
  emit (socket_to_emit sid (conversation_room conversationId)
    (user_typing userId conversationId)).

Definition on_disconnect (userId : string) : M unit :=
  do update_server (fun s =>
       set_onlineUsers (delete userId (onlineUsers s)) s) then
  emit (io_emit (user_offline userId)).

(** The handlers registered for one connection; [sid] and [userId] are the
    [socket.id] and [socket.data.userId] captured by the closure. *)
Definition handler (sid userId : string) (ev : ClientEvent) : M unit :=
  match ev with
  | join_conversation conversationId =>
      on_join_conversation sid userId conversationId
  | send_message data => on_send_message userId data
  | react_message data => on_react_message userId data
  | delete_message data => on_delete_message sid userId data
  | typing conversationId => on_typing sid userId conversationId
  | disconnect => on_disconnect userId
  end.

(** A handshake. A refused handshake never reaches [io.on('connection')].
    For an accepted one Socket.IO first registers the socket with the
    server, in the room named after its own id, and then runs the
    connection callback: [io.emit] in the callback already reaches it. *)
Definition connect (e : Env) (sid : string) (token : option string)
    (s : Server) : Res unit * (Server * list Delivery) :=
  match io_use token with
  | Throw err => (Throw err, (s, []))
  | Ok userId =>
      let sock := {| socket_id := sid; data_userId := userId;
                     rooms := {[sid]} |} in
      (Ok tt,
       run (on_connection sid userId) e (set_sockets (sockets s ++ [sock]) s))
  end.

Definition socket_of (sid : string) (ss : list Socket) : option Socket :=
  List.find (fun c => bool_decide (socket_id c = sid)) ss.

(** An event arriving from connection [sid]. Only a connected socket has
    handlers. Socket.IO takes a closing socket out of the server, and so
    out of all its rooms, before its [disconnect] handlers run. The handlers
    of [send_message], [react_message] and [delete_message] are one [try]
    block each; the one of [join_conversation] has none. ([typing] and
    [disconnect] have none either, and call nothing that throws.) *)
Definition dispatch (e : Env) (sid : string) (ev : ClientEvent) (s : Server)
    : Server * list Delivery :=
  match socket_of sid (sockets s) with
  | None => (s, [])
  | Some c =>
      let s0 :=
        match ev with
        | disconnect =>
            set_sockets (filter (fun c' => socket_id c' <> sid) (sockets s)) s
        | _ => s
        end in
      match ev with
      | join_conversation _ =>
          run_unguarded (handler sid (data_userId c) ev) e s0
      | _ => run (handler sid (data_userId c) ev) e s0
      end
  end.

End Handlers.

(** ** [routes/messages.ts]: [GET /conversation/:id] *)

Record HistoryMessage := {
  hm_id : string;
  hm_conversation_id : string;
  hm_content : string;
  hm_created_at : Date;
  hm_sender : option Profile;
  hm_reactions : list (string * string);
  hm_deleted_for_everyone : bool;
}.

Inductive Response :=
  | res_json (body : list HistoryMessage)
  | res_status (code : nat) (error : string).

Definition placeholder : string := "[Message deleted]".

(** [{ message_id, $or: [{ user_id: userId }, { deleted_for_everyone: true }] }] *)
Definition visible_deletion_q (messageId userId : string) (x : Deletion)
    : bool :=
  bool_decide (d_message_id x = messageId)
  && (bool_decide (d_user_id x = userId) || deleted_for_everyone x).

(** The part of the [map] callback that follows its three queries: [None]
    is the [null] that [filter(Boolean)] drops. *)
Definition materialize (userId : string) (m : Message) (sender : option User)
    (reactions : list Reaction) (deletion : option Deletion)
    : option HistoryMessage :=
  let everyone :=
    match deletion with
    | Some x => deleted_for_everyone x
    | None => false
    end in
  if match deletion with
     | Some x => negb (deleted_for_everyone x)
                 && bool_decide (d_user_id x = userId)
     | None => false
     end
  then None
  else Some {| hm_id := msg_id m;
               hm_conversation_id := msg_conversation_id m;
               hm_content := if everyone then placeholder else msg_content m;
               hm_created_at := msg_created_at m;
               hm_sender := profile_of <$> sender;
               hm_reactions := reaction_list reactions;
               hm_deleted_for_everyone := everyone |}.

(** [.sort({ created_at: 1 })] *)
Definition created_at_le (a b : Message) : Prop :=
  msg_created_at a <= msg_created_at b.

#[export] Instance created_at_le_dec a b : Decision (created_at_le a b).
Proof. unfold created_at_le. apply _. Defined.

(** [Promise.all(xs.map(f))], the callbacks taken in order. *)
Fixpoint mapM {A B} (f : A -> M B) (xs : list A) : M (list B) :=
  match xs with
  | [] => ret []
  | x :: xs' =>
      let* y := f x in
      let* ys := mapM f xs' in
      ret (y :: ys)
  end.

Section History.
Context `{Driver}.

Definition enrich (userId : string) (m : Message) : M (option HistoryMessage) :=
  let* oid := ObjectId (msg_sender_id m) in
  let* sender := await_db (query (fun d =>
    Collection.findOne (user_q oid) (users d))) in
  let* reactions := await_db (query (fun d =>
    Collection.find (reactions_of_q (msg_id m)) (message_reactions d))) in
  let* deletion := await_db (query (fun d =>
    Collection.findOne (visible_deletion_q (msg_id m) userId)
      (message_deletions d))) in
  ret (materialize userId m sender reactions deletion).

Definition get_conversation (userId conversationId : string) : M Response :=
  let* participant := await_db (query (fun d =>
    Collection.findOne (participant_q conversationId userId)
      (conversation_participants d))) in
  match participant with
  | None => ret (res_status 403 "Not a participant of this conversation")
  | Some _ =>
      let* msgs := await_db (query (fun d =>
        merge_sort created_at_le
          (Collection.find
             (fun m => bool_decide (msg_conversation_id m = conversationId))
             (messages d)))) in
      let* enrichedMessages := mapM (enrich userId) msgs in
      (* enrichedMessages.filter(Boolean) *)
      ret (res_json (omap (fun x => x) enrichedMessages))
  end.

(** The route with its [catch]: any exception is a 500. *)
Definition GET_conversation (e : Env) (s : Server)
    (userId conversationId : string) : Response :=
  match (get_conversation userId conversationId e
           {| server := s; trips := 0; outbox := [] |}).1 with
  | Ok r => r
  | Throw _ => res_status 500 "Failed to fetch messages"
  end.

End History.

(** No driver failure during the first [n] store round trips of a run. *)
Definition no_fault_before (n : nat) (e : Env) : bool :=
  match fault e with
  | Some i => n <=? i
  | None => true
  end.

(** ** A concrete deployment, for the scenarios *)

Module Scenario.

Definition is_upper_hex (a : Ascii.ascii) : bool :=
  let n := Ascii.nat_of_ascii a in (65 <=? n) && (n <=? 70).

Definition is_hex (a : Ascii.ascii) : bool :=
  let n := Ascii.nat_of_ascii a in
  ((48 <=? n) && (n <=? 57)) || ((97 <=? n) && (n <=? 102))
  || is_upper_hex a.

Definition lower_hex (a : Ascii.ascii) : Ascii.ascii :=
  if is_upper_hex a
  then Ascii.ascii_of_nat (Ascii.nat_of_ascii a + 32) else a.

(** A stand-in for the two libraries. An identifier is valid when it is 24
    hexadecimal digits, of either case, and its canonical form, the one
    [toString()] gives, is in lower case. (The other inputs that some
    versions of the library take, such as a string of 12 bytes, are left
    out.) A token is valid when it is ["jwt:"] followed by the user
    identifier it was signed for. *)
#[local] Instance driver : Driver := {|
  new_ObjectId s :=
    if (String.length s =? 24)
       && forallb is_hex (String.list_ascii_of_string s)
    then Some (String.string_of_list_ascii
                 (map lower_hex (String.list_ascii_of_string s)))
    else None;
  jwt_verify t :=
    if String.prefix "jwt:" t
    then Some (String.substring 4 (String.length t - 4) t) else None;
|}.

Definition alice : string := "64b7f0a1c2d3e4f5a6b7c8d1".
Definition bob : string := "64b7f0a1c2d3e4f5a6b7c8d2".
Definition c1 : string := "64b7f0a1c2d3e4f5a6b7c8e1".
Definition m1 : string := "64b7f0a1c2d3e4f5a6b7c8f1".
Definition m2 : string := "64b7f0a1c2d3e4f5a6b7c8f2".

Definition db0 : Db := {|
  conversation_participants :=
    [ {| cp_conversation_id := c1; cp_user_id := alice;
         cp_is_admin := false; cp_is_muted := false; cp_joined_at := 5;
         cp_nickname := None |};
      {| cp_conversation_id := c1; cp_user_id := bob;
         cp_is_admin := false; cp_is_muted := false; cp_joined_at := 6;
         cp_nickname := None |} ];
  users :=
    [ {| user_id := alice; first_name := "Alice"; last_name := "A";
         avatar_url := None |};
      {| user_id := bob; first_name := "Bob"; last_name := "B";
         avatar_url := None |} ];
  messages :=
    [ {| msg_id := m1; msg_conversation_id := c1; msg_sender_id := alice;
         msg_content := "hi"; msg_created_at := 10 |} ];
  message_reactions := [];
  message_deletions := [];
|}.

(** Nothing fails; the next document inserted gets the id [m2]. *)
Definition env0 : Env :=
  {| fault := None; clock := fun n => 20 + n; insertedId := m2 |}.

Definition sockA : Socket :=
  {| socket_id := "sA"; data_userId := alice;
     rooms := {[ "sA"; conversation_room c1 ]} |}.

Definition sockB : Socket :=
  {| socket_id := "sB"; data_userId := bob;
     rooms := {[ "sB"; conversation_room c1 ]} |}.

(** Alice and Bob connected, both in the room of their conversation. *)
Definition srv0 : Server := {|
  db := db0;
  onlineUsers := {[ alice := "sA"; bob := "sB" ]};
  sockets := [sockA; sockB];
  unhandledRejection := None;
|}.

(** Alice connected twice: the mapping points at her second socket. *)
Definition sockA2 : Socket :=
  {| socket_id := "sA2"; data_userId := alice; rooms := {[ "sA2" ]} |}.

Definition srv_two_devices : Server := {|
  db := db0;
  onlineUsers := {[ alice := "sA2"; bob := "sB" ]};
  sockets := [sockA; sockB; sockA2];
  unhandledRejection := None;
|}.

(** Bob has reacted to Alice's message. *)
Definition srv_reacted : Server := {|
  db := set_message_reactions
          [ {| r_message_id := m1; r_user_id := bob; r_reaction := "like";
               r_created_at := 15 |} ] db0;
  onlineUsers := onlineUsers srv0;
  sockets := sockets srv0;
  unhandledRejection := None;
|}.

Definition delete_m1 (forEveryone : bool) : DeleteMessage :=
  {| dm_messageId := m1; dm_conversationId := c1;
     dm_forEveryone := forEveryone |}.

Definition hello : SendMessage :=
  {| sm_conversationId := c1; sm_content := "hello" |}.

Definition carol_token : option string :=
  Some "jwt:64b7f0a1c2d3e4f5a6b7c8d3".

End Scenario.

(** ** Vocabulary of the statements *)

Definition is_participant (d : Db) (userId conversationId : string) : bool :=
  match Collection.findOne (participant_q conversationId userId)
          (conversation_participants d) with
  | Some _ => true
  | None => false
  end.

(** The message a [delete_message] event names, if the store has it. *)
Definition message_named `{Driver} (d : Db) (messageId : string)
    : option Message :=
  oid ← new_ObjectId messageId;
  Collection.findOne (message_q oid) (messages d).

(** The unique index [{ message_id: 1, user_id: 1 }] that [mongodb.ts]
    creates on [message_reactions]. *)
Definition reaction_key (r : Reaction) : string * string :=
  (r_message_id r, r_user_id r).

Definition reactions_unique (d : Db) : Prop :=
  NoDup (map reaction_key (message_reactions d)).

Definition react (messageId conversationId : string) (kind : option string)
    : ClientEvent :=
  react_message {| rm_messageId := messageId;
                   rm_conversationId := conversationId;
                   rm_reaction := kind |}.

(** The reactions collection after the write of a [react_message]. *)
Definition reactions_after (userId messageId : string) (kind : option string)
    (at_ : Date) (rs : list Reaction) : list Reaction :=
  match truthy kind with
  | None => Collection.deleteOne (reaction_q messageId userId) rs
  | Some k =>
      Collection.updateOne_upsert (reaction_q messageId userId)
        (fun r => {| r_message_id := r_message_id r;
                     r_user_id := r_user_id r;
                     r_reaction := k; r_created_at := at_ |})
        {| r_message_id := messageId; r_user_id := userId;
           r_reaction := k; r_created_at := at_ |} rs
  end.

Definition unique_index (s : Server) : Prop := reactions_unique (db s).

(** What the [map] callback of the history route returns for one message
    when none of its queries throws. *)
Definition history_entry `{Driver} (d : Db) (userId : string) (m : Message)
    : option HistoryMessage :=
  materialize userId m
    (oid ← new_ObjectId (msg_sender_id m);
     Collection.findOne (user_q oid) (users d))
    (Collection.find (reactions_of_q (msg_id m)) (message_reactions d))
    (Collection.findOne (visible_deletion_q (msg_id m) userId)
       (message_deletions d)).

(** The messages of a conversation in the order of the history. *)
Definition conversation_messages (d : Db) (conversationId : string)
    : list Message :=
  merge_sort created_at_le
    (Collection.find
       (fun m => bool_decide (msg_conversation_id m = conversationId))
       (messages d)).

(** What reaches the server from outside: a handshake, or an event on a
    connection; each comes with the environment of its run. *)
Inductive Input :=
  | handshake (sid : string) (token : option string)
  | event (sid : string) (ev : ClientEvent).

(** A process that an unhandled rejection has ended takes nothing more. *)
Definition step `{Driver} (e : Env) (i : Input) (s : Server)
    : Server * list Delivery :=
  match unhandledRejection s with
  | Some _ => (s, [])
  | None =>
      match i with
      | handshake sid token => (connect e sid token s).2
      | event sid ev => dispatch e sid ev s
      end
  end.

Fixpoint steps `{Driver} (trace : list (Env * Input)) (s : Server) : Server :=
  match trace with
  | [] => s
  | (e, i) :: trace' => steps trace' (step e i s).1
  end.

(** A computation keeps a property of the server, whether it returns or
    throws. *)
Definition preserves {A} (P : Server -> Prop) (m : M A) : Prop :=
  forall e r, P (server r) -> P (server (m e r).2).

(** The readings that the code does not bear out, as predicates of a run,
    to be tested on the scenarios. *)

(** The presence broadcast of a new connection reaches every other
    connection and not the new one. *)
Definition online_to_all_others `{Driver} (e : Env) (sid : string)
    (token : option string) (s : Server) : Prop :=
  forall userId, io_use token = Ok userId ->
  let '(s', out) := (connect e sid token s).2 in
  onlineUsers s' !! userId = Some sid
  /\ (forall c, c ∈ sockets s ->
        {| dl_to := socket_id c; dl_event := user_online userId |} ∈ out)
  /\ {| dl_to := sid; dl_event := user_online userId |} ∉ out.


(** A [send_message] of a participant, once the message is stored, is
    broadcast: every socket in the room of the conversation is sent a
    [new_message] with the inserted id, the content and an empty reaction
    list. *)
Definition stored_message_is_broadcast `{Driver} (e : Env) (sid : string)
    (data : SendMessage) (s : Server) : Prop :=
  forall c, socket_of sid (sockets s) = Some c ->
  is_participant (db s) (data_userId c) (sm_conversationId data) = true ->
  let '(s', out) := dispatch e sid (send_message data) s in
  messages (db s') =
    messages (db s) ++
      [{| msg_id := insertedId e;
          msg_conversation_id := sm_conversationId data;
          msg_sender_id := data_userId c;
          msg_content := sm_content data;
          msg_created_at := now e |}] ->
  forall c', c' ∈ sockets s ->
    conversation_room (sm_conversationId data) ∈ rooms c' ->
    exists m,
      {| dl_to := socket_id c'; dl_event := new_message m |} ∈ out
      /\ nm_id m = insertedId e /\ nm_content m = sm_content data
      /\ nm_reactions m = [].

(** ** [routes/messages.ts]: the routes that write what the channel writes

    [req.userId] is what the [authenticateToken] middleware has set; it is
    an input here. *)

Inductive Reply :=
  | reply_ok (message : string)
  | reply_error (code : nat) (error : string).

(** A route with its [catch]: the client is sent [failure] when anything
    throws; what was written before stays. *)
Definition route (h : M Reply) (failure : Reply) (e : Env) (s : Server)
    : Reply * Server :=
  let '(r, after) := h e {| server := s; trips := 0; outbox := [] |} in
  (match r with Ok reply => reply | Throw _ => failure end, server after).

(** What the run of a route has emitted on the channel. *)
Definition route_emits (h : M Reply) (e : Env) (s : Server)
    : list Delivery :=
  outbox (h e {| server := s; trips := 0; outbox := [] |}).2.

(** A participant record as the routes insert it: not muted, no nickname. *)
Definition new_participant (conversationId userId : string) (isAdmin : bool)
    (joinedAt : Date) : Participant :=
  {| cp_conversation_id := conversationId; cp_user_id := userId;
     cp_is_admin := isAdmin; cp_is_muted := false; cp_joined_at := joinedAt;
     cp_nickname := None |}.

Definition set_conversation_participants (c : list Participant) (d : Db)
    : Db :=
  {| conversation_participants := c; users := users d;
     messages := messages d; message_reactions := message_reactions d;
     message_deletions := message_deletions d |}.

Section Routes.
Context `{Driver}.

(** [POST /message/:id/reaction] *)
Definition post_message_reaction (userId id : string)
    (reaction : option string) : M Reply :=
  let* e := ask in
  do match truthy reaction with
  | None =>
      await_db (write (fun d =>
        set_message_reactions
          (Collection.deleteOne (reaction_q id userId)
             (message_reactions d)) d))
  | Some k =>
      await_db (write (fun d =>
        set_message_reactions
          (Collection.updateOne_upsert (reaction_q id userId)
             (fun r => {| r_message_id := r_message_id r;
                          r_user_id := r_user_id r;
                          r_reaction := k; r_created_at := now e |})
             {| r_message_id := id; r_user_id := userId;
                r_reaction := k; r_created_at := now e |}
             (message_reactions d)) d))
  end then
  ret (reply_ok "Reaction updated").

Definition POST_message_reaction (e : Env) (s : Server) (userId id : string)
    (reaction : option string) : Reply * Server :=
  route (post_message_reaction userId id reaction)
    (reply_error 500 "Failed to react to message") e s.

(** [DELETE /message/:id] *)
Definition delete_message_route (userId id : string) (forEveryone : bool)
    : M Reply :=
  if forEveryone then
    let* oid := ObjectId id in
    let* msg := await_db (query (fun d =>
      Collection.findOne (message_q oid) (messages d))) in
    if negb (bool_decide (msg_sender_id <$> msg = Some userId))
    then ret (reply_error 403 "Can only delete your own messages for everyone")
    else
      do upsert_deletion id userId true then
      ret (reply_ok "Message deleted")
  else
    do upsert_deletion id userId false then
    ret (reply_ok "Message deleted").

Definition DELETE_message (e : Env) (s : Server) (userId id : string)
    (forEveryone : bool) : Reply * Server :=
  route (delete_message_route userId id forEveryone)
    (reply_error 500 "Failed to delete message") e s.

(** [POST /conversation/:id/members], [userId] from the body:
    [updateOne({conversation_id, user_id}, {$set: {conversation_id, user_id,
    is_admin: false, is_muted: false, joined_at: new Date()}},
    {upsert: true})]. [$set] leaves the [nickname] of a record it finds. *)
Definition post_members (id userId : string) : M Reply :=
  let* e := ask in
  do await_db (write (fun d =>
       set_conversation_participants
         (Collection.updateOne_upsert (participant_q id userId)
            (fun p =>
               {| cp_conversation_id := id; cp_user_id := userId;
                  cp_is_admin := false; cp_is_muted := false;
                  cp_joined_at := now e; cp_nickname := cp_nickname p |})
            (new_participant id userId false (now e))
            (conversation_participants d)) d)) then
  ret (reply_ok "Member added").

Definition POST_members (e : Env) (s : Server) (id userId : string)
    : Reply * Server :=
  route (post_members id userId) (reply_error 500 "Failed to add member") e s.

(** [DELETE /conversation/:id/members/:userId] *)
Definition delete_member (id userId : string) : M Reply :=
  do await_db (write (fun d =>
       set_conversation_participants
         (Collection.deleteOne (participant_q id userId)
            (conversation_participants d)) d)) then
  ret (reply_ok "Member removed").

Definition DELETE_member (e : Env) (s : Server) (id userId : string)
    : Reply * Server :=
  route (delete_member id userId) (reply_error 500 "Failed to remove member")
    e s.

(** [POST /conversation/:id/leave] *)
Definition post_leave (userId id : string) : M Reply :=
  do await_db (write (fun d =>
       set_conversation_participants
         (Collection.deleteOne (participant_q id userId)
            (conversation_participants d)) d)) then
  ret (reply_ok "Left group").

Definition POST_leave (e : Env) (s : Server) (userId id : string)
    : Reply * Server :=
  route (post_leave userId id) (reply_error 500 "Failed to leave group") e s.

End Routes.

(** ** [routes/messages.ts]: starting conversations

    These routes also write the [conversations] collection. Their store is
    the one of the channel with that collection beside it. *)

Record Conversation := {
  conv_id : string;
  is_group : bool;
  conv_name : option string;
  conv_photo_url : option string;
  conv_created_at : Date;
}.

Record Chats := {
  chat_db : Db;
  conversations : list Conversation;
}.

Record Visit := {
  chats : Chats;
  calls : nat;
}.

Inductive StartReply :=
  | start_ok (conversationId : string)
  | start_error (code : nat) (error : string).

Definition R (A : Type) : Type := Env -> Visit -> Res A * Visit.

Definition rret {A} (a : A) : R A := fun _ v => (Ok a, v).

Definition rbind {A B} (m : R A) (k : A -> R B) : R B := fun e v =>
  match m e v with
  | (Ok a, v') => k a e v'
  | (Throw err, v') => (Throw err, v')
  end.

Notation "'let+' x ':=' m 'in' k" := (rbind m (fun x => k))
  (at level 10, x name, m at level 100, k at level 200,
   format "'[v' 'let+'  x  ':='  m  'in' '/' k ']'").


Definition rask : R Env := fun e v => (Ok e, v).

(** One awaited call on the store, as [await_db]. *)
Definition await_chats {A} (op : Chats -> A * Chats) : R A := fun e v =>
  if bool_decide (fault e = Some (calls v))
  then (Throw "MongoError", {| chats := chats v; calls := S (calls v) |})
  else let '(a, c) := op (chats v) in
       (Ok a, {| chats := c; calls := S (calls v) |}).


Definition add_conversation (x : Conversation) (c : Chats) : Chats :=
  {| chat_db := chat_db c;
     conversations := Collection.insertOne x (conversations c) |}.

(** [insertMany(docs)] / [insertOne(doc)] on [conversation_participants] *)
Definition add_participants (ps : list Participant) (c : Chats) : Chats :=
  {| chat_db :=
       set_conversation_participants
         (conversation_participants (chat_db c) ++ ps) (chat_db c);
     conversations := conversations c |}.

Definition start_route (h : R string) (failure : StartReply) (e : Env)
    (c : Chats) : StartReply * Chats :=
  let '(r, after) := h e {| chats := c; calls := 0 |} in
  (match r with Ok convId => start_ok convId | Throw _ => failure end,
   chats after).

Section Starting.
Context `{Driver}.







(** The [for (const userId of userIds)] loop of [POST /conversation/group];
    [n] is the number of readings of the clock so far. *)
Fixpoint add_listed (convId creator : string) (n : nat)
    (userIds : list string) : R unit :=
  match userIds with
  | [] => rret tt
  | userId :: rest =>
      if bool_decide (userId <> creator)
      then
        let+ e := rask in
        let+ _ := await_chats (fun c =>
          (tt,
           add_participants
             [ new_participant convId userId false (clock e n) ] c)) in
        add_listed convId creator (S n) rest
      else add_listed convId creator n rest
  end.

(** [POST /conversation/group]; [name || 'Group Chat'] by [truthy]. *)
Definition post_conversation_group (userId : string) (name : option string)
    (userIds : list string) : R string :=
  let+ e := rask in
  let+ convId := await_chats (fun c =>
    (insertedId e,
     add_conversation
       {| conv_id := insertedId e; is_group := true;
          conv_name := Some (default "Group Chat" (truthy name));
          conv_photo_url := None; conv_created_at := now e |} c)) in
  let+ _ := await_chats (fun c =>
    (tt,
     add_participants
       [ new_participant convId userId true (clock e 1) ] c)) in
  let+ _ := add_listed convId userId 2 userIds in
  rret convId.

Definition POST_conversation_group (e : Env) (c : Chats) (userId : string)
    (name : option string) (userIds : list string) : StartReply * Chats :=
  start_route (post_conversation_group userId name userIds)
    (start_error 500 "Failed to create group") e c.

End Starting.






(** The id the driver is about to generate is new to the store. *)
Definition fresh_id `{Driver} (c : Chats) (i : string) : Prop :=
  new_ObjectId i = Some i
  /\ (forall x, x ∈ conversations c -> conv_id x <> i)
  /\ (forall p, p ∈ conversation_participants (chat_db c) ->
        cp_conversation_id p <> i
        /\ new_ObjectId (cp_conversation_id p) <> Some i).

(** ** More vocabulary *)

(** The conversation an event names. *)
Definition conversation_of (ev : ClientEvent) : option string :=
  match ev with
  | join_conversation conversationId => Some conversationId
  | send_message data => Some (sm_conversationId data)
  | react_message data => Some (rm_conversationId data)
  | delete_message data => Some (dm_conversationId data)
  | typing _ | disconnect => None
  end.

Definition connected (sid : string) (s : Server) : Prop :=
  sid ∈ map socket_id (sockets s).

(** Every delivery is addressed to a socket that is connected. *)
Definition delivered_to_connected (s : Server) (out : list Delivery) : Prop :=
  forall d, d ∈ out -> connected (dl_to d) s.

(** A socket is in the room of a conversation only if its user is a
    participant of that conversation. (The room a socket gets at connection
    is named after its id and is not a conversation's.) *)
Definition rooms_authorized (s : Server) : Prop :=
  forall c conversationId,
    c ∈ sockets s ->
    conversation_room conversationId ∈ rooms c ->
    conversation_room conversationId <> socket_id c ->
    is_participant (db s) (data_userId c) conversationId = true.

(** What [socket.join(room)] on socket [sid] makes of a socket. *)
Definition joined (sid room : string) (c : Socket) : Socket :=
  if bool_decide (socket_id c = sid)
  then {| socket_id := socket_id c; data_userId := data_userId c;
          rooms := {[room]} ∪ rooms c |}
  else c.

(** The deletion markers after [updateOne] with [upsert] has written the
    marker of (message, user). *)
Definition marked (messageId userId : string) (forEveryone : bool)
    (ds : list Deletion) : list Deletion :=
  let marker := {| d_message_id := messageId; d_user_id := userId;
                   deleted_for_everyone := forEveryone |} in
  Collection.updateOne_upsert (deletion_q messageId userId)
    (fun _ => marker) marker ds.

(** The participants after [POST /conversation/:id/members] has written the
    record of (conversation, user) at time [t]. *)
Definition members_after (id userId : string) (t : Date)
    (ps : list Participant) : list Participant :=
  Collection.updateOne_upsert (participant_q id userId)
    (fun p =>
       {| cp_conversation_id := id; cp_user_id := userId;
          cp_is_admin := false; cp_is_muted := false;
          cp_joined_at := t; cp_nickname := cp_nickname p |})
    (new_participant id userId false t) ps.

(** A computation keeps a property of the whole run: server and outbox. *)
Definition keeps {A} (Q : Run -> Prop) (m : M A) : Prop :=
  forall e r, Q r -> Q (m e r).2.

(** The run of a handler of socket [sid]: the socket is connected and so is
    every recipient so far. *)
Definition recipients_connected (sid : string) (r : Run) : Prop :=
  connected sid (server r) /\ delivered_to_connected (server r) (outbox r).

(** A delivery of an event about conversation [conversationId], caused by
    socket [sid], is in order when it goes to a connected socket that is the
    causing one or belongs to a participant (or is named like the room). *)
Definition to_requester_or_participant (s : Server) (sid : string)
    (conversationId : string) (d : Delivery) : Prop :=
  exists c, c ∈ sockets s /\ socket_id c = dl_to d
    /\ (dl_to d = sid
        \/ is_participant (db s) (data_userId c) conversationId = true
        \/ conversation_room conversationId = socket_id c).

(** The run of a handler that leaves the sockets as they are and has made
    only deliveries that satisfy [good]. *)
Definition only_good (ss : list Socket) (good : Delivery -> Prop) (r : Run)
    : Prop :=
  sockets (server r) = ss /\ forall d, d ∈ outbox r -> good d.

(** Socket ids are unique, and rooms are authorized. *)
Definition channel_ok (s : Server) : Prop :=
  NoDup (map socket_id (sockets s)) /\ rooms_authorized s.

(** Every handshake of the trace brings a socket id that is not in use, as
    Socket.IO generates them. *)
Fixpoint fresh_handshakes `{Driver} (trace : list (Env * Input)) (s : Server)
    : Prop :=
  match trace with
  | [] => True
  | (e, i) :: trace' =>
      match i with
      | handshake sid _ => socket_of sid (sockets s) = None
      | event _ _ => True
      end
      /\ fresh_handshakes trace' (step e i s).1
  end.

(** What the channel never rewrites: participants and users stay, messages
    are only appended. *)
Definition grows_from (s0 s : Server) : Prop :=
  conversation_participants (db s) = conversation_participants (db s0)
  /\ users (db s) = users (db s0)
  /\ messages (db s0) `prefix_of` messages (db s).

(** The participant records [POST /conversation/group] writes in the run
    of environment [e]: the creator, as an admin, then the listed users other
    than the creator, each with the reading of the clock at its insert. *)
Definition group_members (e : Env) (creator : string) (userIds : list string)
    : list Participant :=
  new_participant (insertedId e) creator true (clock e 1)
  :: imap (fun k u => new_participant (insertedId e) u false (clock e (2 + k)))
       (filter (fun u => u <> creator) userIds).

Definition participant_key (p : Participant) : string * string :=
  (cp_conversation_id p, cp_user_id p).

(** ** More of the concrete deployment *)

Module Cases.
Import Scenario.

Definition carol : string := "64b7f0a1c2d3e4f5a6b7c8d3".
Definition c2 : string := "64b7f0a1c2d3e4f5a6b7c8e2".

Definition sockC : Socket :=
  {| socket_id := "sC"; data_userId := carol; rooms := {[ "sC" ]} |}.

(** Carol is connected too, and is no participant of [c1]. *)
Definition srv_carol : Server := {|
  db := db0;
  onlineUsers := {[ alice := "sA"; bob := "sB"; carol := "sC" ]};
  sockets := [sockA; sockB; sockC];
  unhandledRejection := None;
|}.

(** Another spelling of [m1]. *)
Definition m1_upper : string := "64B7F0A1C2D3E4F5A6B7C8F1".

Definition message1 : Message :=
  {| msg_id := m1; msg_conversation_id := c1; msg_sender_id := alice;
     msg_content := "hi"; msg_created_at := 10 |}.

(** The first store call of a run fails. *)
Definition env_query_fails : Env :=
  {| fault := Some 0; clock := fun n => 20 + n; insertedId := m2 |}.

(** The profile lookup of a [send_message] fails. *)
Definition env_lookup_fails : Env :=
  {| fault := Some 2; clock := fun n => 20 + n; insertedId := m2 |}.

(** The second store call of a route fails. *)
Definition env_second_call_fails : Env :=
  {| fault := Some 1; clock := fun n => 30 + n; insertedId := c2 |}.

Definition env1 : Env :=
  {| fault := None; clock := fun n => 30 + n; insertedId := c2 |}.

Definition chats0 : Chats := {|
  chat_db := db0;
  conversations :=
    [ {| conv_id := c1; is_group := false; conv_name := None;
         conv_photo_url := None; conv_created_at := 5 |} ];
|}.

Definition trace0 : list (Env * Input) :=
  [ (env0, handshake "sC" carol_token);
    (env0, event "sC" (join_conversation c1));
    (env0, event "sA" (send_message hello));
    (env0, event "sB" (react m1 c1 (Some "heart")));
    (env0, event "sB" disconnect) ].

End Cases.

(** * Properties *)

(** ** Running a handler *)

Lemma set_db_id s : set_db (db s) s = s.
Proof. by destruct s. Qed.

Lemma no_fault_before_spec n e i :
  no_fault_before n e = true -> i < n -> fault e <> Some i.
Proof.
  unfold no_fault_before. intros Hn Hi Hf. rewrite Hf in Hn.
  apply Nat.leb_le in Hn. lia.
Qed.

Lemma await_db_ok {A} (op : Db -> A * Db) n e r :
  no_fault_before n e = true -> trips r < n ->
  await_db op e r =
    (Ok (op (db (server r))).1,
     {| server := set_db (op (db (server r))).2 (server r);
        trips := S (trips r); outbox := outbox r |}).
Proof.
  intros Hn Hi. unfold await_db.
  rewrite bool_decide_eq_false_2 by eauto using no_fault_before_spec.
  by destruct (op (db (server r))).
Qed.

Lemma await_query_ok {A} (f : Db -> A) n e r :
  no_fault_before n e = true -> trips r < n ->
  await_db (query f) e r =
    (Ok (f (db (server r))),
     {| server := server r; trips := S (trips r); outbox := outbox r |}).
Proof.
  intros Hn Hi. rewrite (await_db_ok _ n) by done. simpl.
  by rewrite set_db_id.
Qed.

(** A failed round trip: the exception, and nothing written. *)
Lemma await_db_fault {A} (op : Db -> A * Db) e r :
  fault e = Some (trips r) ->
  await_db op e r =
    (Throw "MongoError",
     {| server := server r; trips := S (trips r); outbox := outbox r |}).
Proof. intros Hf. unfold await_db. by rewrite bool_decide_eq_true_2. Qed.

(** A query answers or throws; either way the server and the outbox are
    as before. *)
Lemma await_query_cases {A} (f : Db -> A) e r :
  let r' := {| server := server r; trips := S (trips r);
               outbox := outbox r |} in
  await_db (query f) e r = (Throw "MongoError", r')
  \/ await_db (query f) e r = (Ok (f (db (server r))), r').
Proof.
  unfold await_db. case_bool_decide; simpl; [by left|].
  right. by rewrite set_db_id.
Qed.

(** ** Collections *)

Section CollectionFacts.
Context {A : Type}.
Implicit Types (q : A -> bool) (c : list A).

Lemma findOne_upsert q set fresh c :
  q fresh = true -> (forall d, q d = true -> q (set d) = true) ->
  Collection.findOne q (Collection.updateOne_upsert q set fresh c) =
    Some (match Collection.findOne q c with
          | Some d => set d
          | None => fresh
          end).
Proof.
  intros Hfresh Hset. unfold Collection.findOne.
  induction c as [|d c IH]; simpl.
  - by rewrite Hfresh.
  - destruct (q d) eqn:Hd; simpl.
    + by rewrite (Hset d Hd).
    + by rewrite Hd.
Qed.


Lemma find_deleteOne q c :
  Collection.find q (Collection.deleteOne q c) = tail (Collection.find q c).
Proof.
  unfold Collection.find. induction c as [|d c IH]; simpl; [done|].
  destruct (q d) eqn:Hd; simpl; [done|]. by rewrite Hd.
Qed.

Lemma elem_of_find q c x :
  x ∈ Collection.find q c <-> x ∈ c /\ q x = true.
Proof.
  unfold Collection.find. rewrite !list_elem_of_In, List.filter_In.
  done.
Qed.

End CollectionFacts.

(** ** Connection authentication and presence *)

Section Presence.
Context `{Driver}.

Lemma io_use_refuses token :
  token = None \/ (exists t, token = Some t /\ jwt_verify t = None) ->
  exists err, io_use token = Throw err
    /\ (err = "Authentication required" \/ err = "Invalid token").
Proof.
  unfold io_use, truthy.
  intros [-> | (t & -> & Ht)]; [by eauto|].
  case_bool_decide; [by eauto|]. rewrite Ht. by eauto.
Qed.

(** C4. A handshake that presents no token, or a token that fails
    verification, is refused with an authentication error and leaves the
    server exactly as it was: presence mapping, sockets and their rooms,
    store; nothing is emitted, and no handler ever runs for that
    connection. *)
Theorem connect_refused_before_any_mutation e sid token s :
  token = None \/ (exists t, token = Some t /\ jwt_verify t = None) ->
  socket_of sid (sockets s) = None ->
  exists err,
    connect e sid token s = (Throw err, (s, []))
    /\ (err = "Authentication required" \/ err = "Invalid token")
    /\ forall e' ev, dispatch e' sid ev s = (s, []).
Proof.
  intros Htok Hsid.
  destruct (io_use_refuses token Htok) as (err & Herr & Hmsg).
  exists err. split_and!; [|done|].
  - unfold connect. by rewrite Herr.
  - intros e' ev. unfold dispatch. by rewrite Hsid.
Qed.

Lemma connect_accepted e sid token s userId :
  io_use token = Ok userId ->
  connect e sid token s =
    (Ok tt,
     (let ss := sockets s ++ [{| socket_id := sid; data_userId := userId;
                                 rooms := {[sid]} |}] in
      ({| db := db s; onlineUsers := <[userId := sid]> (onlineUsers s);
          sockets := ss; unhandledRejection := unhandledRejection s |},
       io_emit (user_online userId) ss))).
Proof. intros Hu. unfold connect. by rewrite Hu. Qed.

(** C3, as the code has it. On an accepted handshake of user [U] the
    presence mapping records [U] and [user_online U] goes to every
    connection of the server, the newly connected one included. *)
Theorem connect_broadcasts_online_to_all e sid token s userId :
  io_use token = Ok userId ->
  let '(s', out) := (connect e sid token s).2 in
  onlineUsers s' !! userId = Some sid
  /\ (forall c, c ∈ sockets s ->
        {| dl_to := socket_id c; dl_event := user_online userId |} ∈ out)
  /\ {| dl_to := sid; dl_event := user_online userId |} ∈ out.
Proof.
  intros Hu. rewrite (connect_accepted _ _ _ _ _ Hu). simpl.
  split_and!.
  - apply lookup_insert_eq.
  - intros c Hc. unfold io_emit.
    apply (list_elem_of_fmap_2 (fun s0 => _) _ c). set_solver.
  - unfold io_emit. rewrite map_app. set_solver.
Qed.

Lemma dispatch_disconnect e sid s c :
  socket_of sid (sockets s) = Some c ->
  dispatch e sid disconnect s =
    (let ss := filter (fun c' => socket_id c' <> sid) (sockets s) in
     ({| db := db s; onlineUsers := delete (data_userId c) (onlineUsers s);
         sockets := ss; unhandledRejection := unhandledRejection s |},
      io_emit (user_offline (data_userId c)) ss)).
Proof. intros Hc. unfold dispatch. by rewrite Hc. Qed.

(** C9. Disconnecting a socket authenticated as [U] removes [U] from the
    presence mapping and broadcasts [user_offline U], whatever the mapping
    held: also when it pointed at another, still connected socket [c2] of
    the same user, which stays connected and is itself told that [U] went
    offline. *)
Theorem disconnect_unconditionally_offline e sid s c :
  socket_of sid (sockets s) = Some c ->
  let '(s', out) := dispatch e sid disconnect s in
  onlineUsers s' !! data_userId c = None
  /\ out = io_emit (user_offline (data_userId c)) (sockets s')
  /\ forall c2, c2 ∈ sockets s -> socket_id c2 <> sid ->
       data_userId c2 = data_userId c ->
       onlineUsers s !! data_userId c = Some (socket_id c2) ->
       c2 ∈ sockets s'
       /\ {| dl_to := socket_id c2;
             dl_event := user_offline (data_userId c) |} ∈ out.
Proof.
  intros Hc. rewrite (dispatch_disconnect _ _ _ _ Hc). simpl.
  split_and!; [apply lookup_delete_eq|done|].
  intros c2 Hin Hne _ _.
  assert (c2 ∈ filter (fun c' => socket_id c' <> sid) (sockets s)) as Hc2
    by (apply list_elem_of_filter; done).
  split; [done|].
  unfold io_emit.
  by apply (list_elem_of_fmap_2 (fun s0 => {| dl_to := socket_id s0 |}) _ c2).
Qed.

End Presence.

(** ** Deleting a message *)

Section Delete.
Context `{Driver}.

Lemma isConversationParticipant_ok n e r userId conversationId :
  no_fault_before n e = true -> trips r < n ->
  isConversationParticipant userId conversationId e r =
    (Ok (is_participant (db (server r)) userId conversationId),
     {| server := server r; trips := S (trips r); outbox := outbox r |}).
Proof.
  intros Hn Hi. unfold isConversationParticipant, bind.
  by rewrite (await_query_ok _ n).
Qed.

Lemma delete_for_everyone_dropped e sid s c data :
  socket_of sid (sockets s) = Some c ->
  dm_forEveryone data = true ->
  msg_sender_id <$> message_named (db s) (dm_messageId data)
    <> Some (data_userId c) ->
  dispatch e sid (delete_message data) s = (s, []).
Proof.
  intros Hc Hall Hmsg. unfold dispatch. rewrite Hc.
  cbv [run handler on_delete_message bind isConversationParticipant ret].
  rewrite Hall.
  destruct (await_query_cases
    (fun d => Collection.findOne
       (participant_q (dm_conversationId data) (data_userId c))
       (conversation_participants d)) e
    {| server := s; trips := 0; outbox := [] |}) as [-> | ->]; [done|].
  simpl. destruct (Collection.findOne _ _); [|done]. simpl.
  unfold message_named in Hmsg. unfold ObjectId.
  destruct (new_ObjectId (dm_messageId data)) as [oid|]; [|done].
  cbv [ret]. simpl.
  destruct (await_query_cases
    (fun d => Collection.findOne (message_q oid) (messages d)) e
    {| server := s; trips := 1; outbox := [] |}) as [-> | ->]; [done|].
  simpl in *. by rewrite bool_decide_eq_false_2.
Qed.

(** C2. A [delete_message] with [forEveryone = true] from a participant
    who is not the sender of the message does nothing: the server, and with
    it every deletion marker, is as before, nobody receives an event, and
    every history fetch answers as it did. *)
Theorem delete_for_everyone_by_non_sender_is_noop e sid s c data m :
  socket_of sid (sockets s) = Some c ->
  is_participant (db s) (data_userId c) (dm_conversationId data) = true ->
  dm_forEveryone data = true ->
  message_named (db s) (dm_messageId data) = Some m ->
  msg_sender_id m <> data_userId c ->
  let '(s', out) := dispatch e sid (delete_message data) s in
  s' = s /\ out = []
  /\ message_deletions (db s') = message_deletions (db s)
  /\ forall e' viewer conversationId,
       GET_conversation e' s' viewer conversationId =
       GET_conversation e' s viewer conversationId.
Proof.
  intros Hc _ Hall Hm Hne.
  rewrite (delete_for_everyone_dropped e sid s c data Hc Hall).
  - done.
  - rewrite Hm. simpl. congruence.
Qed.

(** C10. A [delete_message] with [forEveryone = true] from a participant,
    naming a message the store does not have, is dropped: no deletion
    marker is written and nothing is emitted. *)
Theorem delete_for_everyone_of_missing_message_is_dropped e sid s c data :
  socket_of sid (sockets s) = Some c ->
  is_participant (db s) (data_userId c) (dm_conversationId data) = true ->
  dm_forEveryone data = true ->
  message_named (db s) (dm_messageId data) = None ->
  let '(s', out) := dispatch e sid (delete_message data) s in
  s' = s /\ out = []
  /\ message_deletions (db s') = message_deletions (db s).
Proof.
  intros Hc _ Hall Hm.
  rewrite (delete_for_everyone_dropped e sid s c data Hc Hall).
  - done.
  - by rewrite Hm.
Qed.

Lemma upsert_deletion_ok n e r messageId userId forEveryone :
  no_fault_before n e = true -> trips r < n ->
  upsert_deletion messageId userId forEveryone e r =
    (let marker := {| d_message_id := messageId; d_user_id := userId;
                      deleted_for_everyone := forEveryone |} in
     (Ok tt,
      {| server :=
           set_db
             (set_message_deletions
                (Collection.updateOne_upsert (deletion_q messageId userId)
                   (fun _ => marker) marker
                   (message_deletions (db (server r))))
                (db (server r)))
             (server r);
         trips := S (trips r); outbox := outbox r |})).
Proof.
  intros Hn Hi. unfold upsert_deletion.
  by rewrite (await_db_ok _ n).
Qed.

Lemma deletion_q_marker messageId userId b :
  deletion_q messageId userId
    {| d_message_id := messageId; d_user_id := userId;
       deleted_for_everyone := b |} = true.
Proof. unfold deletion_q. simpl. by rewrite !bool_decide_eq_true_2. Qed.

(** C8. A [delete_message] with [forEveryone = false] from a participant
    upserts the marker keyed by (message, requester) with the flag false,
    and the one [message_deleted] event it produces goes to the requester's
    own connection: no other connection receives anything. *)
Theorem delete_for_me_is_local e sid s c data :
  socket_of sid (sockets s) = Some c ->
  is_participant (db s) (data_userId c) (dm_conversationId data) = true ->
  dm_forEveryone data = false ->
  no_fault_before 2 e = true ->
  let marker := {| d_message_id := dm_messageId data;
                   d_user_id := data_userId c;
                   deleted_for_everyone := false |} in
  let '(s', out) := dispatch e sid (delete_message data) s in
  message_deletions (db s') =
    Collection.updateOne_upsert
      (deletion_q (dm_messageId data) (data_userId c))
      (fun _ => marker) marker (message_deletions (db s))
  /\ Collection.findOne (deletion_q (dm_messageId data) (data_userId c))
       (message_deletions (db s')) = Some marker
  /\ out = [{| dl_to := sid;
               dl_event := message_deleted (dm_messageId data) false |}]
  /\ forall d, d ∈ out -> dl_to d = sid.
Proof.
  intros Hc Hp Hme Hn. unfold dispatch. rewrite Hc.
  cbv [run handler on_delete_message bind].
  rewrite (isConversationParticipant_ok 2) by (done || simpl; lia).
  simpl. rewrite Hp, Hme. simpl.
  rewrite (upsert_deletion_ok 2) by (done || simpl; lia).
  simpl. split_and!; [done| |done|].
  - rewrite findOne_upsert; [|apply deletion_q_marker|].
    + by destruct (Collection.findOne _ _).
    + intros. apply deletion_q_marker.
  - intros d Hd. apply list_elem_of_singleton in Hd. by subst.
Qed.

End Delete.

(** ** Sending a message *)

Section Send.
Context `{Driver}.

Lemma socket_of_Some sid ss c :
  socket_of sid ss = Some c -> c ∈ ss /\ socket_id c = sid.
Proof.
  unfold socket_of. intros Hc. apply List.find_some in Hc as [Hin Hid].
  split; [by apply list_elem_of_In|]. by apply bool_decide_eq_true_1 in Hid.
Qed.

Lemma elem_of_io_to_emit room ev ss c :
  c ∈ ss -> room ∈ rooms c ->
  {| dl_to := socket_id c; dl_event := ev |} ∈ io_to_emit room ev ss.
Proof.
  intros Hin Hroom. unfold io_to_emit, io_emit.
  apply (list_elem_of_fmap_2 (fun s => {| dl_to := socket_id s |}) _ c).
  by apply list_elem_of_filter.
Qed.

Lemma io_to_emit_elem_of room ev ss d :
  d ∈ io_to_emit room ev ss ->
  exists c, c ∈ ss /\ room ∈ rooms c
    /\ d = {| dl_to := socket_id c; dl_event := ev |}.
Proof.
  unfold io_to_emit, io_emit. intros Hd.
  apply list_elem_of_fmap in Hd as (c & -> & Hc).
  apply list_elem_of_filter in Hc as [Hroom Hin]. by eauto.
Qed.

(** C5, as the code has it. A [send_message] from a participant whose
    identifier is an [ObjectId], when none of the three store round trips of
    the handler fails (the membership query, the insert, and the lookup of
    the sender's profile that follows the insert), appends the message and
    broadcasts one [new_message] event, carrying the inserted id, the
    content, the sender's profile as looked up, an empty reaction list and a
    [created_at] read from the clock after the insert, to exactly the
    connections that have joined the room of the conversation; the sender's
    own connection is not left out. *)
Theorem send_message_reaches_the_room e sid s c data oid :
  socket_of sid (sockets s) = Some c ->
  is_participant (db s) (data_userId c) (sm_conversationId data) = true ->
  no_fault_before 3 e = true ->
  new_ObjectId (data_userId c) = Some oid ->
  let room := conversation_room (sm_conversationId data) in
  let ev :=
    new_message
      {| nm_id := insertedId e;
         nm_conversation_id := sm_conversationId data;
         nm_sender_id := data_userId c;
         nm_content := sm_content data;
         nm_created_at := clock e 1;
         nm_sender :=
           profile_of <$> Collection.findOne (user_q oid) (users (db s));
         nm_reactions := [] |} in
  let '(s', out) := dispatch e sid (send_message data) s in
  messages (db s') =
    messages (db s) ++
      [{| msg_id := insertedId e;
          msg_conversation_id := sm_conversationId data;
          msg_sender_id := data_userId c;
          msg_content := sm_content data;
          msg_created_at := now e |}]
  /\ out = io_to_emit room ev (sockets s)
  /\ (forall c', c' ∈ sockets s -> room ∈ rooms c' ->
        {| dl_to := socket_id c'; dl_event := ev |} ∈ out)
  /\ (forall d, d ∈ out ->
        exists c', c' ∈ sockets s /\ room ∈ rooms c' /\ dl_to d = socket_id c')
  /\ (room ∈ rooms c -> {| dl_to := sid; dl_event := ev |} ∈ out).
Proof.
  intros Hc Hp Hn Hoid. unfold dispatch. rewrite Hc.
  cbv [run handler on_send_message bind ask].
  rewrite (isConversationParticipant_ok 3) by (done || simpl; lia).
  simpl. rewrite Hp. simpl.
  rewrite (await_db_ok _ 3) by (done || simpl; lia).
  unfold ObjectId. rewrite Hoid. cbv [ret]. simpl.
  rewrite (await_query_ok _ 3) by (done || simpl; lia).
  simpl. split_and!; [done|done| | |].
  - intros c' Hin Hroom. by apply elem_of_io_to_emit.
  - intros d Hd. apply io_to_emit_elem_of in Hd as (c' & ? & ? & ->).
    by eauto.
  - intros Hroom. destruct (socket_of_Some _ _ _ Hc) as [Hin <-].
    by apply elem_of_io_to_emit.
Qed.

(** The failure mode of the same handler: when the insert fails nothing is
    stored and nothing is emitted, and the sender is not told. *)
Lemma send_message_insert_failure_is_silent e sid s c data :
  socket_of sid (sockets s) = Some c ->
  fault e = Some 1 ->
  dispatch e sid (send_message data) s = (s, []).
Proof.
  intros Hc He. unfold dispatch. rewrite Hc.
  cbv [run handler on_send_message bind ask].
  rewrite (isConversationParticipant_ok 1);
    [|unfold no_fault_before; by rewrite He|simpl; lia].
  simpl. destruct (is_participant _ _ _); simpl; [|done].
  by rewrite await_db_fault.
Qed.

(** A user identifier that is not an [ObjectId] would stop the handler
    between the insert and the broadcast, the message stored and nobody
    told. [auth.ts] signs tokens for [_id.toString()] only, so the
    identifier of an authenticated socket is well formed. *)
Lemma send_message_malformed_sender_is_not_broadcast e sid s c data :
  socket_of sid (sockets s) = Some c ->
  is_participant (db s) (data_userId c) (sm_conversationId data) = true ->
  no_fault_before 2 e = true ->
  new_ObjectId (data_userId c) = None ->
  let '(s', out) := dispatch e sid (send_message data) s in
  length (messages (db s')) = S (length (messages (db s))) /\ out = [].
Proof.
  intros Hc Hp Hn Hoid. unfold dispatch. rewrite Hc.
  cbv [run handler on_send_message bind ask].
  rewrite (isConversationParticipant_ok 2) by (done || simpl; lia).
  simpl. rewrite Hp. simpl.
  rewrite (await_db_ok _ 2) by (done || simpl; lia).
  unfold ObjectId. rewrite Hoid. simpl. split; [|done].
  unfold Collection.insertOne. rewrite length_app. simpl. lia.
Qed.

End Send.

(** ** Reactions *)

Section React.
Context `{Driver}.

Lemma dispatch_react e sid s c messageId conversationId kind :
  socket_of sid (sockets s) = Some c ->
  is_participant (db s) (data_userId c) conversationId = true ->
  no_fault_before 3 e = true ->
  dispatch e sid (react messageId conversationId kind) s =
    (let rs' := reactions_after (data_userId c) messageId kind (now e)
                  (message_reactions (db s)) in
     (set_db (set_message_reactions rs' (db s)) s,
      io_to_emit (conversation_room conversationId)
        (message_reaction_updated messageId
           (reaction_list
              (Collection.find (reactions_of_q messageId) rs')))
        (sockets s))).
Proof.
  intros Hc Hp Hn. unfold dispatch, react. rewrite Hc.
  cbv [run handler on_react_message bind ask].
  rewrite (isConversationParticipant_ok 3) by (done || simpl; lia).
  simpl. rewrite Hp. simpl. unfold reactions_after.
  destruct (truthy kind) as [k|].
  - rewrite (await_db_ok _ 3) by (done || simpl; lia). simpl.
    by rewrite (await_query_ok _ 3) by (done || simpl; lia).
  - rewrite (await_db_ok _ 3) by (done || simpl; lia). simpl.
    by rewrite (await_query_ok _ 3) by (done || simpl; lia).
Qed.

Lemma reactions_unique_at_most_one d messageId userId :
  reactions_unique d ->
  length (Collection.find (reaction_q messageId userId)
            (message_reactions d)) <= 1.
Proof.
  unfold reactions_unique, Collection.find.
  induction (message_reactions d) as [|r rs IH]; simpl; [lia|].
  intros Hnd. apply NoDup_cons in Hnd as [Hr Hnd].
  destruct (reaction_q messageId userId r) eqn:Hq; [|by apply IH].
  simpl. enough (List.filter (reaction_q messageId userId) rs = []) as ->
    by (simpl; lia).
  destruct (List.filter _ rs) as [|r' ?] eqn:Hf; [done|].
  exfalso. apply Hr.
  assert (List.In r' (List.filter (reaction_q messageId userId) rs)) as Hin
    by (rewrite Hf; by left).
  apply List.filter_In in Hin as [Hin Hq'].
  unfold reaction_q in Hq, Hq'.
  apply andb_true_iff in Hq as [?%bool_decide_eq_true_1 ?%bool_decide_eq_true_1].
  apply andb_true_iff in Hq' as [?%bool_decide_eq_true_1 ?%bool_decide_eq_true_1].
  apply list_elem_of_fmap. exists r'. split.
  - unfold reaction_key. congruence.
  - by apply list_elem_of_In.
Qed.


Lemma find_reaction_after_clear userId messageId at_ rs :
  length (Collection.find (reaction_q messageId userId) rs) <= 1 ->
  Collection.find (reaction_q messageId userId)
    (reactions_after userId messageId None at_ rs) = [].
Proof.
  intros Hlen. unfold reactions_after. simpl. rewrite find_deleteOne.
  destruct (Collection.find _ rs) as [|? [|? ?]]; simpl in *; [done|done|lia].
Qed.


(** C7. A [react_message] with a null reaction kind from a participant
    removes the (message, user) record, and the reaction list it broadcasts
    for the message has no entry for that user. *)
Theorem react_null_removes_the_record e sid s c messageId conversationId :
  socket_of sid (sockets s) = Some c ->
  is_participant (db s) (data_userId c) conversationId = true ->
  reactions_unique (db s) ->
  no_fault_before 3 e = true ->
  let '(s', out) := dispatch e sid (react messageId conversationId None) s in
  Collection.find (reaction_q messageId (data_userId c))
    (message_reactions (db s')) = []
  /\ exists reactions,
       out = io_to_emit (conversation_room conversationId)
               (message_reaction_updated messageId reactions) (sockets s)
       /\ reactions =
            reaction_list
              (Collection.find (reactions_of_q messageId)
                 (message_reactions (db s')))
       /\ forall k, (data_userId c, k) ∉ reactions.
Proof.
  intros Hc Hp Hu Hn.
  rewrite (dispatch_react e sid s c) by done. simpl.
  pose proof (find_reaction_after_clear (data_userId c) messageId (now e)
    (message_reactions (db s))
    (reactions_unique_at_most_one _ _ _ Hu)) as Hclear.
  split; [done|]. eexists. split_and!; [done|done|].
  intros k Hin. unfold reaction_list in Hin.
  apply list_elem_of_fmap in Hin as (r & Hr & Hin).
  apply elem_of_find in Hin as [Hin Hq].
  assert (r ∈ Collection.find (reaction_q messageId (data_userId c))
            (reactions_after (data_userId c) messageId None (now e)
               (message_reactions (db s)))) as Hbad.
  { apply elem_of_find. split; [done|].
    unfold reactions_of_q in Hq. apply bool_decide_eq_true_1 in Hq.
    unfold reaction_q. rewrite !bool_decide_eq_true_2; [done| |done].
    by inversion Hr. }
  rewrite Hclear in Hbad. by apply not_elem_of_nil in Hbad.
Qed.

End React.

(** ** The unique index is an invariant of the channel *)

Section Invariant.
Context `{Driver}.
Variable P : Server -> Prop.

Lemma preserves_ret {A} (a : A) : preserves P (ret a).
Proof. by intros e r. Qed.

Lemma preserves_throw {A} err : preserves P (@throw A err).
Proof. by intros e r. Qed.

Lemma preserves_ask : preserves P ask.
Proof. by intros e r. Qed.

Lemma preserves_emit f : preserves P (emit f).
Proof. by intros e r. Qed.

Lemma preserves_bind {A B} (m : M A) (k : A -> M B) :
  preserves P m -> (forall a, preserves P (k a)) -> preserves P (bind m k).
Proof.
  intros Hm Hk e r Hr. unfold bind. specialize (Hm e r Hr).
  destruct (m e r) as [[a|err] r']; simpl in *; [by apply Hk|done].
Qed.

Lemma preserves_update_server f :
  (forall s, P s -> P (f s)) -> preserves P (update_server f).
Proof. intros Hf e r Hr. by apply Hf. Qed.

Lemma preserves_await_db {A} (op : Db -> A * Db) :
  (forall s, P s -> P (set_db (op (db s)).2 s)) -> preserves P (await_db op).
Proof.
  intros Hop e r Hr. unfold await_db. case_bool_decide; simpl; [done|].
  specialize (Hop _ Hr). by destruct (op (db (server r))).
Qed.

Lemma preserves_query {A} (f : Db -> A) : preserves P (await_db (query f)).
Proof. apply preserves_await_db. intros s Hs. simpl. by rewrite set_db_id. Qed.

Lemma preserves_ObjectId id : preserves P (ObjectId id).
Proof.
  unfold ObjectId. destruct (new_ObjectId id);
    [apply preserves_ret|apply preserves_throw].
Qed.

Lemma preserves_isConversationParticipant userId conversationId :
  preserves P (isConversationParticipant userId conversationId).
Proof.
  apply preserves_bind; [apply preserves_query|].
  intros. apply preserves_ret.
Qed.

Lemma preserves_run {A} (m : M A) e s :
  preserves P m -> P s -> P (run m e s).1.
Proof. intros Hm Hs. by apply Hm. Qed.

Lemma preserves_run_unguarded {A} (m : M A) e s :
  (forall err s', P s' -> P (set_unhandledRejection err s')) ->
  preserves P m -> P s -> P (run_unguarded m e s).1.
Proof.
  intros Herr Hm Hs. unfold run_unguarded.
  specialize (Hm e {| server := s; trips := 0; outbox := [] |} Hs).
  destruct (m e _) as [[a|err] r]; simpl in *; [done|by apply Herr].
Qed.

End Invariant.

Create HintDb preserves.

#[local] Hint Resolve preserves_ret preserves_throw preserves_ask
  preserves_emit preserves_query preserves_ObjectId
  preserves_isConversationParticipant : preserves.

Section UniqueIndex.

Lemma updateOne_upsert_keys q set fresh (rs : list Reaction) :
  (forall r, reaction_key (set r) = reaction_key r) ->
  map reaction_key (Collection.updateOne_upsert q set fresh rs) =
    if existsb q rs then map reaction_key rs
    else map reaction_key rs ++ [reaction_key fresh].
Proof.
  intros Hset. induction rs as [|r rs IH]; simpl; [done|].
  destruct (q r); simpl; [by rewrite Hset|].
  rewrite IH. by destruct (existsb q rs).
Qed.

Lemma updateOne_upsert_unique q set fresh (rs : list Reaction) :
  (forall r, reaction_key (set r) = reaction_key r) ->
  (forall r, reaction_key r = reaction_key fresh -> q r = true) ->
  NoDup (map reaction_key rs) ->
  NoDup (map reaction_key (Collection.updateOne_upsert q set fresh rs)).
Proof.
  intros Hset Hq Hnd. rewrite updateOne_upsert_keys by done.
  destruct (existsb q rs) eqn:Hex; [done|].
  apply NoDup_app. split_and!; [done| |apply NoDup_singleton].
  intros k Hk Hfresh. apply list_elem_of_singleton in Hfresh as ->.
  apply list_elem_of_fmap in Hk as (r & Hk & Hin).
  assert (existsb q rs = true) as Hex'; [|congruence].
  apply existsb_exists. exists r. split; [by apply list_elem_of_In|].
  by apply Hq.
Qed.

Lemma elem_of_deleteOne {A} (q : A -> bool) (c : list A) x :
  x ∈ Collection.deleteOne q c -> x ∈ c.
Proof.
  induction c as [|d c IH]; simpl; [done|].
  destruct (q d); rewrite !elem_of_cons; [by right|].
  intros [-> | Hin]; [by left|right; by apply IH].
Qed.

Lemma deleteOne_unique q (rs : list Reaction) :
  NoDup (map reaction_key rs) ->
  NoDup (map reaction_key (Collection.deleteOne q rs)).
Proof.
  induction rs as [|r rs IH]; simpl; [done|]. intros Hnd.
  apply NoDup_cons in Hnd as [Hr Hnd]. destruct (q r); [done|].
  simpl. apply NoDup_cons. split; [|by apply IH].
  intros Hin. apply Hr.
  apply list_elem_of_fmap in Hin as (r' & Hk & Hin).
  apply list_elem_of_fmap. exists r'. split; [done|].
  by apply elem_of_deleteOne in Hin.
Qed.

End UniqueIndex.

Section ChannelInvariant.
Context `{Driver}.

Ltac preserve :=
  repeat first
    [ apply preserves_bind; [|intros ?]
    | solve [auto with preserves]
    | match goal with
      | |- preserves _ (if ?b then _ else _) => destruct b
      | |- preserves _ (match ?x with _ => _ end) => destruct x
      end
    | apply preserves_await_db; intros ? ?; simpl
    | apply preserves_update_server; intros ? ? ].

Lemma handler_keeps_reactions_unique sid userId ev :
  preserves unique_index (handler sid userId ev).
Proof.
  destruct ev as [conversationId|data|data|data|conversationId|]; simpl.
  - unfold on_join_conversation. preserve.
  - unfold on_send_message. preserve.
  - unfold on_react_message. preserve.
    + apply updateOne_upsert_unique; [done| |done].
      intros r Hk. unfold reaction_key in Hk. simpl in Hk.
      unfold reaction_q. inversion Hk. by rewrite !bool_decide_eq_true_2.
    + by apply deleteOne_unique.
  - unfold on_delete_message, upsert_deletion. preserve.
  - unfold on_typing. preserve.
  - unfold on_disconnect. preserve.
Qed.

Lemma step_keeps_reactions_unique e i s :
  unique_index s -> unique_index (step e i s).1.
Proof.
  intros Hs. unfold step. destruct (unhandledRejection s); [done|].
  destruct i as [sid token|sid ev]; simpl.
  - unfold connect. destruct (io_use token) as [userId|err]; [|done].
    apply (preserves_run unique_index); [|done].
    unfold on_connection. preserve.
  - unfold dispatch. destruct (socket_of sid (sockets s)); [|done].
    destruct ev;
      first [ apply (preserves_run_unguarded unique_index);
                [done|apply handler_keeps_reactions_unique|done]
            | apply (preserves_run unique_index);
                [apply handler_keeps_reactions_unique|done] ].
Qed.

(** The uniqueness of (message, user) among the reactions, which the index
    of [mongodb.ts] enforces, is kept by every run of the channel, whatever
    arrives and whatever fails. *)
Lemma steps_keep_reactions_unique trace s :
  reactions_unique (db s) -> reactions_unique (db (steps trace s)).
Proof.
  revert s. induction trace as [|[e i] trace IH]; intros s Hs; simpl; [done|].
  apply IH. by apply step_keeps_reactions_unique.
Qed.

End ChannelInvariant.


(** ** The history read path *)

Section HistoryFacts.
Implicit Types (ds : list Deletion) (m : Message).

Lemma visible_deletion_found userId m ds x :
  x ∈ ds -> visible_deletion_q (msg_id m) userId x = true ->
  exists y, Collection.findOne (visible_deletion_q (msg_id m) userId) ds
            = Some y
    /\ y ∈ ds /\ visible_deletion_q (msg_id m) userId y = true.
Proof.
  intros Hin Hq. unfold Collection.findOne.
  destruct (List.find _ ds) as [y|] eqn:Hf.
  - apply List.find_some in Hf as [Hy Hqy]. exists y.
    by rewrite list_elem_of_In.
  - apply list_elem_of_In in Hin.
    pose proof (List.find_none _ _ Hf x Hin). congruence.
Qed.

Lemma materialize_id userId m sender reactions deletion h :
  materialize userId m sender reactions deletion = Some h ->
  hm_id h = msg_id m.
Proof.
  unfold materialize. intros Hh.
  destruct deletion as [x|]; [destruct (negb _ && _)|]; by simplify_eq.
Qed.

(** With a personal marker of the viewer and no "everyone" marker on the
    message, the message is dropped from the history. *)
Lemma personal_marker_alone_excludes userId m sender reactions ds :
  {| d_message_id := msg_id m; d_user_id := userId;
     deleted_for_everyone := false |} ∈ ds ->
  (forall x, x ∈ ds -> d_message_id x = msg_id m ->
     deleted_for_everyone x = false) ->
  materialize userId m sender reactions
    (Collection.findOne (visible_deletion_q (msg_id m) userId) ds) = None.
Proof.
  intros Hin Hnone.
  destruct (visible_deletion_found userId m ds _ Hin) as (y & -> & Hy & Hq).
  { unfold visible_deletion_q. simpl. by rewrite !bool_decide_eq_true_2. }
  unfold visible_deletion_q in Hq.
  apply andb_true_iff in Hq as [Hm%bool_decide_eq_true_1 Hq].
  rewrite (Hnone y Hy Hm), orb_false_r in Hq.
  unfold materialize. by rewrite (Hnone y Hy Hm), Hq.
Qed.

(** With an "everyone" marker on the message and no personal marker of the
    viewer, the message is kept and its content is the placeholder. *)
Lemma everyone_marker_alone_replaces userId m sender reactions ds x :
  x ∈ ds -> d_message_id x = msg_id m -> deleted_for_everyone x = true ->
  {| d_message_id := msg_id m; d_user_id := userId;
     deleted_for_everyone := false |} ∉ ds ->
  exists h,
    materialize userId m sender reactions
      (Collection.findOne (visible_deletion_q (msg_id m) userId) ds) = Some h
    /\ hm_id h = msg_id m /\ hm_content h = placeholder
    /\ hm_deleted_for_everyone h = true.
Proof.
  intros Hin Hm Hall Hnone.
  destruct (visible_deletion_found userId m ds _ Hin) as (y & -> & Hy & Hq).
  { unfold visible_deletion_q. rewrite Hall, orb_true_r.
    by rewrite bool_decide_eq_true_2. }
  unfold visible_deletion_q in Hq.
  apply andb_true_iff in Hq as [Hmy%bool_decide_eq_true_1 Hq].
  destruct (deleted_for_everyone y) eqn:Hy_all.
  - unfold materialize. rewrite Hy_all. simpl. eexists. by split_and!.
  - rewrite orb_false_r in Hq. apply bool_decide_eq_true_1 in Hq.
    exfalso. apply Hnone. by destruct y; simpl in *; subst.
Qed.

(** With both, the store order decides: whichever marker [findOne] meets
    first. *)
Lemma first_marker_decides userId m sender reactions ds x :
  Collection.findOne (visible_deletion_q (msg_id m) userId) ds = Some x ->
  materialize userId m sender reactions
    (Collection.findOne (visible_deletion_q (msg_id m) userId) ds) =
  if deleted_for_everyone x
  then Some {| hm_id := msg_id m;
               hm_conversation_id := msg_conversation_id m;
               hm_content := placeholder;
               hm_created_at := msg_created_at m;
               hm_sender := profile_of <$> sender;
               hm_reactions := reaction_list reactions;
               hm_deleted_for_everyone := true |}
  else None.
Proof.
  intros Hx. rewrite Hx. unfold materialize.
  pose proof Hx as Hq. unfold Collection.findOne in Hq.
  apply List.find_some in Hq as [_ Hq]. unfold visible_deletion_q in Hq.
  destruct (deleted_for_everyone x); simpl; [done|].
  rewrite orb_false_r in Hq. apply andb_true_iff in Hq as [_ ->]. done.
Qed.

End HistoryFacts.

Section HistoryRoute.
Context `{Driver}.

Lemma no_fault_before_None n e : fault e = None -> no_fault_before n e = true.
Proof. unfold no_fault_before. by intros ->. Qed.

Lemma await_query_None {A} (f : Db -> A) e r :
  fault e = None ->
  await_db (query f) e r =
    (Ok (f (db (server r))),
     {| server := server r; trips := S (trips r); outbox := outbox r |}).
Proof.
  intros He. apply (await_query_ok _ (S (trips r))); [|lia].
  by apply no_fault_before_None.
Qed.

Lemma enrich_ok e r userId m :
  fault e = None -> is_Some (new_ObjectId (msg_sender_id m)) ->
  enrich userId m e r =
    (Ok (history_entry (db (server r)) userId m),
     {| server := server r; trips := 3 + trips r; outbox := outbox r |}).
Proof.
  intros He [oid Hoid]. unfold enrich, history_entry, ObjectId, bind.
  rewrite Hoid. cbv [ret].
  by rewrite !await_query_None.
Qed.

Lemma mapM_enrich_ok e r userId msgs :
  fault e = None ->
  (forall m, m ∈ msgs -> is_Some (new_ObjectId (msg_sender_id m))) ->
  mapM (enrich userId) msgs e r =
    (Ok (map (history_entry (db (server r)) userId) msgs),
     {| server := server r; trips := 3 * length msgs + trips r;
        outbox := outbox r |}).
Proof.
  intros He. revert r. induction msgs as [|m msgs IH]; intros r Hvalid.
  - simpl. unfold ret. by destruct r.
  - simpl. unfold bind. rewrite enrich_ok; [|done|apply Hvalid; by left].
    rewrite IH; [|intros m' Hm'; apply Hvalid; by right].
    cbv [ret]. simpl. do 3 f_equal. lia.
Qed.

Lemma omap_id_map {A B} (f : A -> option B) (l : list A) :
  omap (fun x => x) (map f l) = omap f l.
Proof.
  induction l as [|a l IH]; [done|].
  csimpl. destruct (f a); csimpl; by rewrite <- IH.
Qed.

(** The history a participant is sent when nothing throws. *)
Lemma GET_conversation_ok e s userId conversationId :
  fault e = None ->
  is_participant (db s) userId conversationId = true ->
  (forall m, m ∈ messages (db s) ->
     msg_conversation_id m = conversationId ->
     is_Some (new_ObjectId (msg_sender_id m))) ->
  GET_conversation e s userId conversationId =
    res_json (omap (history_entry (db s) userId)
                (conversation_messages (db s) conversationId)).
Proof.
  intros He Hp Hvalid. unfold GET_conversation, get_conversation, bind.
  rewrite await_query_None by done.
  unfold is_participant in Hp. simpl.
  destruct (Collection.findOne _ _) as [p|]; [|done].
  rewrite await_query_None by done.
  rewrite mapM_enrich_ok; [|done|].
  - cbv [ret]. simpl. f_equal. apply omap_id_map.
  - simpl. intros m Hm. rewrite merge_sort_Permutation in Hm.
    apply elem_of_find in Hm as [Hm Hc].
    apply bool_decide_eq_true_1 in Hc. by apply Hvalid.
Qed.

(** A message of the conversation is listed under its identifier exactly
    when its entry is not dropped. *)
Lemma history_lists d userId conversationId h :
  h ∈ omap (history_entry d userId) (conversation_messages d conversationId)
  <-> exists m, m ∈ messages d /\ msg_conversation_id m = conversationId
        /\ history_entry d userId m = Some h.
Proof.
  rewrite list_elem_of_omap. unfold conversation_messages.
  split; intros (m & Hm & Hh).
  - rewrite merge_sort_Permutation in Hm.
    apply elem_of_find in Hm as [Hm Hc].
    apply bool_decide_eq_true_1 in Hc. by eauto.
  - destruct Hh as [Hc Hh]. exists m. split; [|done].
    rewrite merge_sort_Permutation. apply elem_of_find.
    by rewrite bool_decide_eq_true_2.
Qed.

(** A personal marker of the viewer, on a message without an "everyone"
    marker, keeps the message out of the viewer's history. *)
Lemma history_excludes_personally_deleted d userId conversationId messageId h :
  {| d_message_id := messageId; d_user_id := userId;
     deleted_for_everyone := false |} ∈ message_deletions d ->
  (forall x, x ∈ message_deletions d -> d_message_id x = messageId ->
     deleted_for_everyone x = false) ->
  h ∈ omap (history_entry d userId) (conversation_messages d conversationId) ->
  hm_id h <> messageId.
Proof.
  intros Hmine Hnone Hh Hid. subst messageId.
  apply history_lists in Hh as (m & _ & _ & Hentry).
  pose proof (materialize_id _ _ _ _ _ _ Hentry) as Hm.
  rewrite Hm in Hmine, Hnone. unfold history_entry in Hentry.
  by rewrite personal_marker_alone_excludes in Hentry.
Qed.

(** An "everyone" marker, on a message the viewer has not deleted for
    himself, leaves the message in the history with the placeholder. *)
Lemma history_replaces_deleted_for_everyone d userId conversationId m x :
  m ∈ messages d -> msg_conversation_id m = conversationId ->
  x ∈ message_deletions d -> d_message_id x = msg_id m ->
  deleted_for_everyone x = true ->
  {| d_message_id := msg_id m; d_user_id := userId;
     deleted_for_everyone := false |} ∉ message_deletions d ->
  exists h,
    h ∈ omap (history_entry d userId) (conversation_messages d conversationId)
    /\ hm_id h = msg_id m /\ hm_content h = placeholder.
Proof.
  intros Hm Hc Hx Hxm Hall Hnone.
  destruct (everyone_marker_alone_replaces userId m
    (oid ← new_ObjectId (msg_sender_id m);
     Collection.findOne (user_q oid) (users d))
    (Collection.find (reactions_of_q (msg_id m)) (message_reactions d))
    (message_deletions d) x Hx Hxm Hall Hnone) as (h & Hentry & Hid & Hcontent & _).
  exists h. split_and!; [|done|done].
  apply history_lists. by eauto.
Qed.

End HistoryRoute.


(** ** Scenarios *)

Section Scenarios.
Import Scenario.
#[local] Existing Instance driver.

(** C1, where the code departs from it. Alice deletes her message for
    everyone, then Bob deletes it for himself. Bob's personal marker is in
    the store, yet his history still lists the message, with the
    placeholder: [findOne] met Alice's marker first. *)
Theorem history_everyone_marker_first_keeps_message :
  let s1 := (dispatch env0 "sA" (delete_message (delete_m1 true)) srv0).1 in
  let s2 := (dispatch env0 "sB" (delete_message (delete_m1 false)) s1).1 in
  message_deletions (db s2) =
    [ {| d_message_id := m1; d_user_id := alice;
         deleted_for_everyone := true |};
      {| d_message_id := m1; d_user_id := bob;
         deleted_for_everyone := false |} ]
  /\ exists h,
       GET_conversation env0 s2 bob c1 = res_json [h]
       /\ hm_id h = m1 /\ hm_content h = placeholder.
Proof. split; [by vm_compute|]. eexists. by vm_compute. Qed.

(** The other order gives the other answer. *)
Lemma history_personal_marker_first_drops_message :
  let s1 := (dispatch env0 "sB" (delete_message (delete_m1 false)) srv0).1 in
  let s2 := (dispatch env0 "sA" (delete_message (delete_m1 true)) s1).1 in
  GET_conversation env0 s2 bob c1 = res_json [].
Proof. by vm_compute. Qed.

(** C3, the reading that leaves the new connection out, fails: the new
    socket ["sC"] is itself sent [user_online]. *)
Lemma online_to_all_others_fails :
  ~ online_to_all_others env0 "sC" carol_token srv0.
Proof.
  intros Hread.
  specialize (Hread "64b7f0a1c2d3e4f5a6b7c8d3" eq_refl).
  rewrite (connect_accepted _ _ _ _ "64b7f0a1c2d3e4f5a6b7c8d3") in Hread
    by done.
  simpl in Hread. destruct Hread as (_ & _ & Hnot). apply Hnot.
  set_solver.
Qed.


(** C5, read for every message that is stored, fails: when the lookup of
    the sender's profile fails after the insert, Alice's message is in the
    store and nobody in the room is sent a [new_message]. *)
Lemma stored_message_is_broadcast_fails :
  ~ stored_message_is_broadcast Cases.env_lookup_fails "sA" hello srv0.
Proof.
  intros Hread. specialize (Hread sockA eq_refl eq_refl).
  destruct (dispatch Cases.env_lookup_fails "sA" (send_message hello) srv0)
    as [s' out] eqn:Hrun.
  vm_compute in Hrun. injection Hrun as <- <-.
  destruct (Hread eq_refl sockB) as (m & Hm & _).
  - simpl. rewrite !elem_of_cons. auto.
  - vm_compute. set_solver.
  - by apply elem_of_nil in Hm.
Qed.

(** *** The theorems at work on the scenarios *)

Lemma connect_refused_before_any_mutation_witness :
  exists err,
    connect env0 "sC" (Some "garbage") srv0 = (Throw err, (srv0, []))
    /\ (err = "Authentication required" \/ err = "Invalid token")
    /\ forall e' ev, dispatch e' "sC" ev srv0 = (srv0, []).
Proof.
  apply (connect_refused_before_any_mutation env0 "sC" (Some "garbage") srv0).
  - right. exists "garbage". split; reflexivity.
  - reflexivity.
Defined.

Lemma connect_broadcasts_online_to_all_witness :
  let '(s', out) := (connect env0 "sC" carol_token srv0).2 in
  onlineUsers s' !! "64b7f0a1c2d3e4f5a6b7c8d3" = Some "sC"
  /\ (forall c, c ∈ sockets srv0 ->
        {| dl_to := socket_id c;
           dl_event := user_online "64b7f0a1c2d3e4f5a6b7c8d3" |} ∈ out)
  /\ {| dl_to := "sC";
        dl_event := user_online "64b7f0a1c2d3e4f5a6b7c8d3" |} ∈ out.
Proof.
  apply (connect_broadcasts_online_to_all env0 "sC" carol_token srv0
           "64b7f0a1c2d3e4f5a6b7c8d3").
  reflexivity.
Defined.

Lemma disconnect_unconditionally_offline_witness :
  let '(s', out) := dispatch env0 "sA" disconnect srv_two_devices in
  onlineUsers s' !! alice = None
  /\ sockA2 ∈ sockets s'
  /\ {| dl_to := "sA2"; dl_event := user_offline alice |} ∈ out.
Proof.
  pose proof (disconnect_unconditionally_offline env0 "sA" srv_two_devices
                sockA eq_refl) as Hthm.
  destruct (dispatch env0 "sA" disconnect srv_two_devices) as [s' out].
  destruct Hthm as (Hgone & _ & Hstale).
  assert (sockA2 ∈ sockets srv_two_devices) as Hin
    by (simpl; rewrite !elem_of_cons; auto).
  assert (socket_id sockA2 <> "sA") as Hne by (vm_compute; discriminate).
  specialize (Hstale sockA2 Hin Hne eq_refl eq_refl).
  destruct Hstale as [Hlive Hmsg]. split_and!; assumption.
Defined.

Lemma delete_for_everyone_by_non_sender_is_noop_witness :
  dispatch env0 "sB" (delete_message (delete_m1 true)) srv0 = (srv0, []).
Proof.
  pose proof (delete_for_everyone_by_non_sender_is_noop env0 "sB" srv0 sockB
                (delete_m1 true)
                {| msg_id := m1; msg_conversation_id := c1;
                   msg_sender_id := alice; msg_content := "hi";
                   msg_created_at := 10 |}
                eq_refl eq_refl eq_refl eq_refl) as Hthm.
  destruct (dispatch env0 "sB" (delete_message (delete_m1 true)) srv0)
    as [s' out].
  destruct Hthm as (-> & -> & _); [vm_compute; discriminate|reflexivity].
Defined.

Lemma delete_for_everyone_of_missing_message_is_dropped_witness :
  dispatch env0 "sA"
    (delete_message {| dm_messageId := "64b7f0a1c2d3e4f5a6b7c8ff";
                       dm_conversationId := c1; dm_forEveryone := true |})
    srv0 = (srv0, []).
Proof.
  pose proof (delete_for_everyone_of_missing_message_is_dropped env0 "sA" srv0
                sockA
                {| dm_messageId := "64b7f0a1c2d3e4f5a6b7c8ff";
                   dm_conversationId := c1; dm_forEveryone := true |}
                eq_refl eq_refl eq_refl eq_refl) as Hthm.
  destruct (dispatch env0 "sA" _ srv0) as [s' out].
  destruct Hthm as (-> & -> & _). reflexivity.
Defined.

Lemma delete_for_me_is_local_witness :
  let '(s', out) :=
    dispatch env0 "sB" (delete_message (delete_m1 false)) srv0 in
  Collection.findOne (deletion_q m1 bob) (message_deletions (db s')) =
    Some {| d_message_id := m1; d_user_id := bob;
            deleted_for_everyone := false |}
  /\ out = [{| dl_to := "sB"; dl_event := message_deleted m1 false |}].
Proof.
  pose proof (delete_for_me_is_local env0 "sB" srv0 sockB (delete_m1 false)
                eq_refl eq_refl eq_refl eq_refl) as Hthm.
  destruct (dispatch env0 "sB" (delete_message (delete_m1 false)) srv0)
    as [s' out].
  cbv zeta in Hthm. destruct Hthm as (_ & Hmarker & Hout & _).
  split; assumption.
Defined.

Lemma send_message_reaches_the_room_witness :
  let ev :=
    new_message
      {| nm_id := m2; nm_conversation_id := c1; nm_sender_id := alice;
         nm_content := "hello"; nm_created_at := 21;
         nm_sender :=
           Some {| p_id := alice; p_first_name := "Alice";
                   p_last_name := "A"; p_avatar_url := None |};
         nm_reactions := [] |} in
  (dispatch env0 "sA" (send_message hello) srv0).2 =
    [ {| dl_to := "sA"; dl_event := ev |};
      {| dl_to := "sB"; dl_event := ev |} ].
Proof.
  pose proof (send_message_reaches_the_room env0 "sA" srv0 sockA hello alice
                eq_refl eq_refl eq_refl eq_refl) as Hthm.
  destruct (dispatch env0 "sA" (send_message hello) srv0) as [s' out].
  cbv zeta in Hthm. destruct Hthm as (_ & -> & _). reflexivity.
Defined.

Lemma srv_reacted_unique : reactions_unique (db srv_reacted).
Proof. apply NoDup_singleton. Defined.


Lemma react_null_removes_the_record_witness :
  let '(s', out) := dispatch env0 "sB" (react m1 c1 None) srv_reacted in
  Collection.find (reaction_q m1 bob) (message_reactions (db s')) = []
  /\ out = io_to_emit (conversation_room c1)
             (message_reaction_updated m1 []) (sockets srv_reacted).
Proof.
  pose proof (react_null_removes_the_record env0 "sB" srv_reacted sockB m1 c1
                eq_refl eq_refl srv_reacted_unique eq_refl) as Hthm.
  destruct (dispatch env0 "sB" (react m1 c1 None) srv_reacted)
    as [s' out] eqn:Hrun.
  destruct Hthm as (Hgone & reactions & -> & -> & _).
  split; [assumption|].
  vm_compute in Hrun. injection Hrun as <- _. reflexivity.
Defined.

End Scenarios.

(** * Further properties of the channel *)

Section Membership.
Context `{Driver}.

Lemma is_participant_false d userId conversationId :
  is_participant d userId conversationId = false ->
  Collection.findOne (participant_q conversationId userId)
    (conversation_participants d) = None.
Proof. unfold is_participant. by destruct (Collection.findOne _ _). Qed.

Lemma participant_check_cases userId conversationId e s :
  let r' := {| server := s; trips := 1; outbox := [] |} in
  isConversationParticipant userId conversationId e
    {| server := s; trips := 0; outbox := [] |} = (Throw "MongoError", r')
  \/ isConversationParticipant userId conversationId e
       {| server := s; trips := 0; outbox := [] |} =
     (Ok (is_participant (db s) userId conversationId), r').
Proof.
  unfold isConversationParticipant, bind, is_participant.
  destruct (await_query_cases
    (fun d => Collection.findOne (participant_q conversationId userId)
                (conversation_participants d)) e
    {| server := s; trips := 0; outbox := [] |}) as [-> | ->];
    [by left|by right].
Qed.

(** X1. An event that names a conversation and comes from a socket whose
    user is not a participant of it is dropped. For [send_message],
    [react_message] and [delete_message] the server is as before and nothing
    is emitted, whatever the driver does. For [join_conversation] this holds
    when the membership query answers; when the query fails, the rejection
    is left unhandled, no room is joined and nothing is emitted. *)
Theorem non_participant_event_is_dropped e sid s c ev conversationId :
  socket_of sid (sockets s) = Some c ->
  conversation_of ev = Some conversationId ->
  is_participant (db s) (data_userId c) conversationId = false ->
  ((forall C, ev <> join_conversation C) \/ fault e <> Some 0 ->
   dispatch e sid ev s = (s, []))
  /\ ((exists C, ev = join_conversation C) -> fault e = Some 0 ->
      dispatch e sid ev s =
        (set_unhandledRejection (Some "MongoError") s, [])).
Proof.
  intros Hc Hev Hp. unfold dispatch. rewrite Hc.
  destruct ev as [C|data|data|data|C|]; simpl in Hev; [| | | |done|done];
    injection Hev as <-; cbv [handler];
    (split; [intros Hcase|intros [C' HC'] He; try discriminate HC']).
  - destruct Hcase as [Hno|He]; [by destruct (Hno C)|].
    cbv [run_unguarded on_join_conversation bind].
    rewrite (isConversationParticipant_ok 1);
      [|unfold no_fault_before; destruct (fault e) as [[|i]|]; done
       |simpl; lia].
    simpl. by rewrite Hp.
  - cbv [run_unguarded on_join_conversation bind isConversationParticipant].
    by rewrite await_db_fault.
  - cbv [run on_send_message bind].
    destruct (participant_check_cases (data_userId c)
                (sm_conversationId data) e s) as [-> | ->]; [done|].
    by rewrite Hp.
  - cbv [run on_react_message bind].
    destruct (participant_check_cases (data_userId c)
                (rm_conversationId data) e s) as [-> | ->]; [done|].
    by rewrite Hp.
  - cbv [run on_delete_message bind].
    destruct (participant_check_cases (data_userId c)
                (dm_conversationId data) e s) as [-> | ->]; [done|].
    by rewrite Hp.
Qed.

Lemma dispatch_join e sid s c conversationId :
  socket_of sid (sockets s) = Some c ->
  is_participant (db s) (data_userId c) conversationId = true ->
  no_fault_before 1 e = true ->
  dispatch e sid (join_conversation conversationId) s =
    (set_sockets
       (socket_join sid (conversation_room conversationId) (sockets s)) s,
     []).
Proof.
  intros Hc Hp Hn. unfold dispatch. rewrite Hc.
  cbv [run_unguarded handler on_join_conversation bind].
  rewrite (isConversationParticipant_ok 1) by (done || simpl; lia).
  simpl. by rewrite Hp.
Qed.

Lemma elem_of_socket_join sid room ss c' :
  c' ∈ socket_join sid room ss <->
  exists c, c ∈ ss
    /\ socket_id c' = socket_id c /\ data_userId c' = data_userId c
    /\ rooms c' = (if bool_decide (socket_id c = sid)
                   then {[room]} ∪ rooms c else rooms c).
Proof.
  unfold socket_join. rewrite list_elem_of_fmap. split.
  - intros (c & -> & Hin). exists c. by case_bool_decide.
  - intros (c & Hin & Hid & Hu & Hr). exists c. split; [|done].
    destruct c', c; simpl in *; subst. by case_bool_decide.
Qed.

Lemma socket_join_idemp sid room ss :
  socket_join sid room (socket_join sid room ss) = socket_join sid room ss.
Proof.
  unfold socket_join. induction ss as [|c ss IH]; simpl; [done|].
  rewrite IH. f_equal.
  destruct (bool_decide (socket_id c = sid)) eqn:Hid; simpl; rewrite Hid;
    [|done].
  f_equal. by rewrite (assoc_L (∪)), union_idemp_L.
Qed.

Lemma socket_of_socket_join sid sid' room ss :
  socket_of sid (socket_join sid' room ss) =
    joined sid' room <$> socket_of sid ss.
Proof.
  unfold socket_of, socket_join.
  induction ss as [|c ss IH]; simpl; [done|].
  replace (socket_id (if bool_decide (socket_id c = sid') then _ else c))
    with (socket_id c) by (by case_bool_decide).
  destruct (bool_decide (socket_id c = sid)); [done|]. apply IH.
Qed.

Lemma joined_id sid room c : socket_id (joined sid room c) = socket_id c.
Proof. unfold joined. by case_bool_decide. Qed.

Lemma joined_room sid room c :
  socket_id c = sid -> room ∈ rooms (joined sid room c).
Proof.
  intros Hid. unfold joined. rewrite bool_decide_eq_true_2 by done. simpl.
  apply elem_of_union_l. by apply elem_of_singleton.
Qed.

Lemma joined_elem_of sid room ss c :
  c ∈ ss -> joined sid room c ∈ socket_join sid room ss.
Proof.
  intros Hin. unfold socket_join.
  by apply (list_elem_of_fmap_2 (joined sid room) ss c).
Qed.

Lemma joined_userId sid room c : data_userId (joined sid room c) = data_userId c.
Proof. unfold joined. by case_bool_decide. Qed.

(** X2. A [join_conversation] from a participant emits nothing and leaves
    the store and the presence mapping alone; the sockets are the same, with
    the room of the conversation added to the rooms of the joining one only.
    Joining a second time changes nothing. *)
Theorem join_adds_only_the_room e sid s c conversationId :
  socket_of sid (sockets s) = Some c ->
  is_participant (db s) (data_userId c) conversationId = true ->
  no_fault_before 1 e = true ->
  let room := conversation_room conversationId in
  let '(s', out) := dispatch e sid (join_conversation conversationId) s in
  out = [] /\ db s' = db s /\ onlineUsers s' = onlineUsers s
  /\ (forall c', c' ∈ sockets s' <->
        exists c0, c0 ∈ sockets s
          /\ socket_id c' = socket_id c0 /\ data_userId c' = data_userId c0
          /\ rooms c' = (if bool_decide (socket_id c0 = sid)
                         then {[room]} ∪ rooms c0 else rooms c0))
  /\ dispatch e sid (join_conversation conversationId) s' = (s', []).
Proof.
  intros Hc Hp Hn. rewrite (dispatch_join e sid s c) by done. simpl.
  split_and!; [done|done|done|apply elem_of_socket_join|].
  rewrite (dispatch_join e sid _ (joined sid (conversation_room conversationId) c)).
  - simpl. unfold set_sockets. simpl. by rewrite socket_join_idemp.
  - simpl. by rewrite socket_of_socket_join, Hc.
  - simpl. by rewrite joined_userId.
  - done.
Qed.

Lemma dispatch_send e sid s c data oid :
  socket_of sid (sockets s) = Some c ->
  is_participant (db s) (data_userId c) (sm_conversationId data) = true ->
  no_fault_before 3 e = true ->
  new_ObjectId (data_userId c) = Some oid ->
  dispatch e sid (send_message data) s =
    (set_db
       (set_messages
          (Collection.insertOne
             {| msg_id := insertedId e;
                msg_conversation_id := sm_conversationId data;
                msg_sender_id := data_userId c;
                msg_content := sm_content data;
                msg_created_at := now e |} (messages (db s))) (db s)) s,
     io_to_emit (conversation_room (sm_conversationId data))
       (new_message
          {| nm_id := insertedId e;
             nm_conversation_id := sm_conversationId data;
             nm_sender_id := data_userId c;
             nm_content := sm_content data;
             nm_created_at := clock e 1;
             nm_sender :=
               profile_of <$> Collection.findOne (user_q oid) (users (db s));
             nm_reactions := [] |}) (sockets s)).
Proof.
  intros Hc Hp Hn Hoid. unfold dispatch. rewrite Hc.
  cbv [run handler on_send_message bind ask].
  rewrite (isConversationParticipant_ok 3) by (done || simpl; lia).
  simpl. rewrite Hp. simpl.
  rewrite (await_db_ok _ 3) by (done || simpl; lia).
  unfold ObjectId. rewrite Hoid. cbv [ret]. simpl.
  by rewrite (await_query_ok _ 3) by (done || simpl; lia).
Qed.

(** X3. Once a participant's socket has joined a conversation, a
    [send_message] of any participant in that conversation is delivered to
    it as a [new_message] with the content sent and the sender's
    identity. *)
Theorem joined_socket_receives_new_message eJ eS s sidA cA sidB cB data oid :
  socket_of sidA (sockets s) = Some cA ->
  socket_of sidB (sockets s) = Some cB ->
  is_participant (db s) (data_userId cA) (sm_conversationId data) = true ->
  is_participant (db s) (data_userId cB) (sm_conversationId data) = true ->
  no_fault_before 1 eJ = true -> no_fault_before 3 eS = true ->
  new_ObjectId (data_userId cA) = Some oid ->
  let s1 :=
    (dispatch eJ sidB (join_conversation (sm_conversationId data)) s).1 in
  exists m,
    {| dl_to := sidB; dl_event := new_message m |}
      ∈ (dispatch eS sidA (send_message data) s1).2
    /\ nm_content m = sm_content data
    /\ nm_sender_id m = data_userId cA
    /\ nm_reactions m = [].
Proof.
  intros HcA HcB HpA HpB HnJ HnS Hoid. cbv zeta.
  rewrite (dispatch_join eJ sidB s cB) by done. cbn [fst].
  set (room := conversation_room (sm_conversationId data)).
  assert (socket_of sidA (sockets (set_sockets
            (socket_join sidB room (sockets s)) s))
          = Some (joined sidB room cA)) as HcA'.
  { simpl. by rewrite socket_of_socket_join, HcA. }
  rewrite (dispatch_send eS sidA _ _ data oid HcA');
    [|by rewrite joined_userId|done|by rewrite joined_userId].
  cbn [snd]. eexists. split.
  - destruct (socket_of_Some _ _ _ HcB) as [Hin Hid].
    rewrite <- Hid at 1.
    rewrite <- (joined_id sidB room cB) at 1.
    apply elem_of_io_to_emit; [by apply joined_elem_of|by apply joined_room].
  - simpl. by rewrite joined_userId.
Qed.

(** X4. [typing] needs no membership and no store: it leaves the server as
    it is and sends [user_typing] to every socket that has joined the room
    except the one it came from. *)
Theorem typing_goes_to_the_others_in_the_room e sid s c conversationId :
  socket_of sid (sockets s) = Some c ->
  let ev := user_typing (data_userId c) conversationId in
  let '(s', out) := dispatch e sid (typing conversationId) s in
  s' = s
  /\ (forall c', c' ∈ sockets s ->
        conversation_room conversationId ∈ rooms c' -> socket_id c' <> sid ->
        {| dl_to := socket_id c'; dl_event := ev |} ∈ out)
  /\ (forall d, d ∈ out ->
        dl_to d <> sid /\ dl_event d = ev
        /\ exists c', c' ∈ sockets s /\ socket_id c' = dl_to d
             /\ conversation_room conversationId ∈ rooms c').
Proof.
  intros Hc. unfold dispatch. rewrite Hc. simpl.
  split_and!; [by destruct s| |].
  - intros c' Hin Hroom Hne. unfold socket_to_emit, io_emit.
    apply (list_elem_of_fmap_2 (fun s0 => {| dl_to := socket_id s0 |}) _ c').
    by apply list_elem_of_filter.
  - intros d Hd. unfold socket_to_emit, io_emit in Hd.
    apply list_elem_of_fmap in Hd as (c' & -> & Hin).
    apply list_elem_of_filter in Hin as [[Hroom Hne] Hin]. simpl.
    split_and!; [done|done|]. by exists c'.
Qed.

End Membership.

(** ** Tombstones *)

Section Tombstones.
Context `{Driver}.

Lemma dispatch_delete_everyone e sid s c data m :
  socket_of sid (sockets s) = Some c ->
  is_participant (db s) (data_userId c) (dm_conversationId data) = true ->
  dm_forEveryone data = true ->
  message_named (db s) (dm_messageId data) = Some m ->
  msg_sender_id m = data_userId c ->
  no_fault_before 3 e = true ->
  dispatch e sid (delete_message data) s =
    (set_db
       (set_message_deletions
          (marked (dm_messageId data) (data_userId c) true
             (message_deletions (db s))) (db s)) s,
     io_to_emit (conversation_room (dm_conversationId data))
       (message_deleted (dm_messageId data) true) (sockets s)).
Proof.
  intros Hc Hp Hall Hm Hsender Hn. unfold dispatch. rewrite Hc.
  cbv [run handler on_delete_message bind].
  rewrite (isConversationParticipant_ok 3) by (done || simpl; lia).
  simpl. rewrite Hp, Hall. simpl.
  unfold message_named in Hm. unfold ObjectId.
  destruct (new_ObjectId (dm_messageId data)) as [oid|]; [|done].
  cbv [ret]. simpl in *.
  rewrite (await_query_ok _ 3) by (done || simpl; lia).
  simpl. rewrite Hm. simpl. rewrite Hsender.
  rewrite bool_decide_eq_true_2 by done. simpl.
  by rewrite (upsert_deletion_ok 3) by (done || simpl; lia).
Qed.

Lemma dispatch_delete_me e sid s c data :
  socket_of sid (sockets s) = Some c ->
  is_participant (db s) (data_userId c) (dm_conversationId data) = true ->
  dm_forEveryone data = false ->
  no_fault_before 2 e = true ->
  dispatch e sid (delete_message data) s =
    (set_db
       (set_message_deletions
          (marked (dm_messageId data) (data_userId c) false
             (message_deletions (db s))) (db s)) s,
     socket_emit sid (message_deleted (dm_messageId data) false)).
Proof.
  intros Hc Hp Hme Hn. unfold dispatch. rewrite Hc.
  cbv [run handler on_delete_message bind].
  rewrite (isConversationParticipant_ok 2) by (done || simpl; lia).
  simpl. rewrite Hp, Hme. simpl.
  by rewrite (upsert_deletion_ok 2) by (done || simpl; lia).
Qed.

Lemma elem_of_marked messageId userId b ds x :
  x ∈ marked messageId userId b ds ->
  x ∈ ds \/ x = {| d_message_id := messageId; d_user_id := userId;
                   deleted_for_everyone := b |}.
Proof.
  unfold marked. induction ds as [|d ds IH]; simpl.
  - rewrite list_elem_of_singleton. by right.
  - destruct (deletion_q messageId userId d); rewrite !elem_of_cons.
    + intros [-> | Hin]; [by right|by left; right].
    + intros [-> | Hin]; [by left; left|].
      destruct (IH Hin) as [?|?]; [by left; right|by right].
Qed.

Lemma marker_elem_of_marked messageId userId b ds :
  {| d_message_id := messageId; d_user_id := userId;
     deleted_for_everyone := b |} ∈ marked messageId userId b ds.
Proof.
  unfold marked. induction ds as [|d ds IH]; simpl.
  - by apply list_elem_of_singleton.
  - destruct (deletion_q messageId userId d); rewrite elem_of_cons;
      [by left|by right].
Qed.

Lemma message_named_Some d messageId m :
  message_named d messageId = Some m ->
  m ∈ messages d
  /\ exists oid, new_ObjectId messageId = Some oid /\ msg_id m = oid.
Proof.
  unfold message_named. destruct (new_ObjectId messageId) as [oid|]; [|done].
  simpl. unfold Collection.findOne. intros Hm.
  apply List.find_some in Hm as [Hin Hq]. split; [by apply list_elem_of_In|].
  exists oid. split; [done|]. by apply bool_decide_eq_true_1 in Hq.
Qed.

(** X5. A [delete_message] with [forEveryone = true] from the sender of the
    message upserts the marker of (message, sender) with the flag true and
    broadcasts [message_deleted] with [deletedForEveryone = true] to every
    socket that has joined the room of the conversation, and to no other. *)
Theorem sender_tombstone_reaches_the_room e sid s c data m :
  socket_of sid (sockets s) = Some c ->
  is_participant (db s) (data_userId c) (dm_conversationId data) = true ->
  dm_forEveryone data = true ->
  message_named (db s) (dm_messageId data) = Some m ->
  msg_sender_id m = data_userId c ->
  no_fault_before 3 e = true ->
  let room := conversation_room (dm_conversationId data) in
  let ev := message_deleted (dm_messageId data) true in
  let '(s', out) := dispatch e sid (delete_message data) s in
  Collection.findOne (deletion_q (dm_messageId data) (data_userId c))
    (message_deletions (db s')) =
    Some {| d_message_id := dm_messageId data; d_user_id := data_userId c;
            deleted_for_everyone := true |}
  /\ (forall c', c' ∈ sockets s -> room ∈ rooms c' ->
        {| dl_to := socket_id c'; dl_event := ev |} ∈ out)
  /\ (forall d, d ∈ out ->
        dl_event d = ev
        /\ exists c', c' ∈ sockets s /\ room ∈ rooms c'
             /\ dl_to d = socket_id c').
Proof.
  intros Hc Hp Hall Hm Hsender Hn.
  rewrite (dispatch_delete_everyone e sid s c data m) by done. simpl.
  split_and!.
  - unfold marked. rewrite findOne_upsert; [|apply deletion_q_marker|].
    + by destruct (Collection.findOne _ _).
    + intros. apply deletion_q_marker.
  - intros c' Hin Hroom. by apply elem_of_io_to_emit.
  - intros d Hd. apply io_to_emit_elem_of in Hd as (c' & ? & ? & ->).
    by eauto.
Qed.

(** X6. After the sender has deleted a message for everyone, naming it by
    the id string the store holds for it (the canonical one), the history
    of the conversation, fetched by any participant who holds no personal
    marker on the message, lists the message with the placeholder in place
    of its content. *)
Theorem tombstone_shows_in_history e e' sid s c data m viewer :
  socket_of sid (sockets s) = Some c ->
  is_participant (db s) (data_userId c) (dm_conversationId data) = true ->
  dm_forEveryone data = true ->
  message_named (db s) (dm_messageId data) = Some m ->
  msg_sender_id m = data_userId c ->
  no_fault_before 3 e = true ->
  msg_id m = dm_messageId data ->
  msg_conversation_id m = dm_conversationId data ->
  is_participant (db s) viewer (dm_conversationId data) = true ->
  {| d_message_id := dm_messageId data; d_user_id := viewer;
     deleted_for_everyone := false |} ∉ message_deletions (db s) ->
  fault e' = None ->
  (forall m', m' ∈ messages (db s) ->
     msg_conversation_id m' = dm_conversationId data ->
     is_Some (new_ObjectId (msg_sender_id m'))) ->
  let s' := (dispatch e sid (delete_message data) s).1 in
  exists body h,
    GET_conversation e' s' viewer (dm_conversationId data) = res_json body
    /\ h ∈ body /\ hm_id h = dm_messageId data
    /\ hm_content h = placeholder /\ hm_deleted_for_everyone h = true.
Proof.
  intros Hc Hp Hall Hm Hsender Hn Hid Hconv Hviewer Hnone He' Hvalid.
  cbv zeta. rewrite (dispatch_delete_everyone e sid s c data m) by done.
  cbn [fst]. rewrite GET_conversation_ok; [|done|done|done].
  destruct (message_named_Some _ _ _ Hm) as [Hin _].
  set (d' := db (set_db _ s)).
  destruct (everyone_marker_alone_replaces viewer m
    (oid ← new_ObjectId (msg_sender_id m);
     Collection.findOne (user_q oid) (users d'))
    (Collection.find (reactions_of_q (msg_id m)) (message_reactions d'))
    (message_deletions d')
    {| d_message_id := dm_messageId data; d_user_id := data_userId c;
       deleted_for_everyone := true |})
    as (h & Hentry & Hh & Hcontent & Hflag).
  - apply marker_elem_of_marked.
  - done.
  - done.
  - rewrite Hid. intros Hbad. apply elem_of_marked in Hbad as [?|?]; done.
  - eexists _, h. split; [done|]. rewrite <- Hid.
    split_and!; [|done..]. apply history_lists. exists m. by split_and!.
Qed.

Lemma upsert_no_match {A} (q : A -> bool) set fresh (c : list A) :
  (forall x, x ∈ c -> q x = false) ->
  Collection.updateOne_upsert q set fresh c = c ++ [fresh].
Proof.
  induction c as [|d c IH]; simpl; intros Hq; [done|].
  rewrite (Hq d) by apply list_elem_of_here. f_equal. apply IH.
  intros x Hx. apply Hq. by apply list_elem_of_further.
Qed.

Lemma upsert_last_match {A} (q : A -> bool) set fresh (c : list A) d :
  (forall x, x ∈ c -> q x = false) -> q d = true ->
  Collection.updateOne_upsert q set fresh (c ++ [d]) = c ++ [set d].
Proof.
  induction c as [|d0 c IH]; simpl; intros Hq Hd; [by rewrite Hd|].
  rewrite (Hq d0) by apply list_elem_of_here. f_equal. apply IH; [|done].
  intros x Hx. apply Hq. by apply list_elem_of_further.
Qed.

Lemma findOne_none {A} (q : A -> bool) (c : list A) :
  (forall x, x ∈ c -> q x = false) -> Collection.findOne q c = None.
Proof.
  unfold Collection.findOne. induction c as [|d c IH]; simpl; intros Hq;
    [done|].
  rewrite (Hq d) by apply list_elem_of_here. apply IH.
  intros x Hx. apply Hq. by apply list_elem_of_further.
Qed.

(** X30. The marker is written under the id string of the event, and the
    history looks markers up under the canonical id string of the message.
    So when the sender deletes a message that bears no marker for everyone
    and names it by another spelling of its id (one that [new ObjectId]
    accepts), the room is told [message_deleted], and the history of every
    participant still lists the message with its content, not flagged. *)
Theorem tombstone_under_another_spelling_is_not_shown e e' sid s c data m
    viewer :
  socket_of sid (sockets s) = Some c ->
  is_participant (db s) (data_userId c) (dm_conversationId data) = true ->
  dm_forEveryone data = true ->
  message_named (db s) (dm_messageId data) = Some m ->
  msg_sender_id m = data_userId c ->
  no_fault_before 3 e = true ->
  msg_id m <> dm_messageId data ->
  msg_conversation_id m = dm_conversationId data ->
  is_participant (db s) viewer (dm_conversationId data) = true ->
  (forall x, x ∈ message_deletions (db s) -> d_message_id x <> msg_id m) ->
  fault e' = None ->
  (forall m', m' ∈ messages (db s) ->
     msg_conversation_id m' = dm_conversationId data ->
     is_Some (new_ObjectId (msg_sender_id m'))) ->
  let '(s', out) := dispatch e sid (delete_message data) s in
  out = io_to_emit (conversation_room (dm_conversationId data))
          (message_deleted (dm_messageId data) true) (sockets s)
  /\ exists body h,
       GET_conversation e' s' viewer (dm_conversationId data) = res_json body
       /\ h ∈ body /\ hm_id h = msg_id m
       /\ hm_content h = msg_content m
       /\ hm_deleted_for_everyone h = false.
Proof.
  intros Hc Hp Hall Hm Hsender Hn Hid Hconv Hviewer Hnone He' Hvalid.
  rewrite (dispatch_delete_everyone e sid s c data m) by done.
  split; [done|].
  rewrite GET_conversation_ok; [|done|done|done].
  destruct (message_named_Some _ _ _ Hm) as [Hin _].
  eexists _, _. split; [done|].
  split; [apply history_lists; exists m; split_and!; [done|done|]|].
  - unfold history_entry. rewrite findOne_none; [done|].
    intros x Hx. simpl in Hx. unfold visible_deletion_q.
    apply elem_of_marked in Hx as [Hx | ->].
    + by rewrite (bool_decide_eq_false_2 _ (Hnone x Hx)).
    + simpl. rewrite bool_decide_eq_false_2; [done|]. congruence.
  - done.
Qed.

(** X7. The marker of (message, user) carries the flag of that user's last
    [delete_message]. So when the sender of a message that bears no marker
    deletes it for everyone and then for themselves, one personal marker is
    left, and the history of any other participant lists the message again
    with the content as sent. *)
Theorem sender_delete_for_me_undoes_delete_for_everyone
    e1 e2 e' sid s c m viewer :
  let M := msg_id m in
  let C := msg_conversation_id m in
  let delete b := delete_message {| dm_messageId := M; dm_conversationId := C;
                                    dm_forEveryone := b |} in
  socket_of sid (sockets s) = Some c ->
  is_participant (db s) (data_userId c) C = true ->
  message_named (db s) M = Some m ->
  msg_sender_id m = data_userId c ->
  (forall x, x ∈ message_deletions (db s) -> d_message_id x <> M) ->
  no_fault_before 3 e1 = true -> no_fault_before 2 e2 = true ->
  is_participant (db s) viewer C = true ->
  viewer <> data_userId c ->
  fault e' = None ->
  (forall m', m' ∈ messages (db s) -> msg_conversation_id m' = C ->
     is_Some (new_ObjectId (msg_sender_id m'))) ->
  let s1 := (dispatch e1 sid (delete true) s).1 in
  let s2 := (dispatch e2 sid (delete false) s1).1 in
  message_deletions (db s2) =
    message_deletions (db s) ++
      [{| d_message_id := M; d_user_id := data_userId c;
          deleted_for_everyone := false |}]
  /\ exists body h,
       GET_conversation e' s2 viewer C = res_json body
       /\ h ∈ body /\ hm_id h = M
       /\ hm_content h = msg_content m
       /\ hm_deleted_for_everyone h = false.
Proof.
  intros M C delete Hc Hp Hm Hsender Hfresh Hn1 Hn2 Hviewer Hne He' Hvalid.
  cbv zeta. unfold delete.
  rewrite (dispatch_delete_everyone e1 sid s c _ m) by done. cbn [fst].
  rewrite (dispatch_delete_me e2 sid _ c) by done. cbn [fst].
  assert (forall x, x ∈ message_deletions (db s) ->
            deletion_q M (data_userId c) x = false) as Hq.
  { intros x Hx. unfold deletion_q.
    by rewrite (bool_decide_eq_false_2 _ (Hfresh x Hx)). }
  match goal with
  | |- context [GET_conversation _ ?x _ _] => set (s2 := x)
  end.
  assert (message_deletions (db s2)
          = message_deletions (db s) ++
              [{| d_message_id := M; d_user_id := data_userId c;
                  deleted_for_everyone := false |}]) as Hds.
  { subst s2. simpl. unfold marked. rewrite (upsert_no_match _ _ _ _ Hq).
    rewrite upsert_last_match; [done|done|apply deletion_q_marker]. }
  split; [exact Hds|].
  destruct (message_named_Some _ _ _ Hm) as [Hin _].
  rewrite GET_conversation_ok; [|done|done|done].
  eexists _, _. split; [done|].
  split; [apply history_lists; exists m; split_and!; [done|done|]|].
  - unfold history_entry. fold M. rewrite Hds.
    rewrite findOne_none; [done|].
    intros x Hx. apply elem_of_app in Hx as [Hx|Hx].
    + unfold visible_deletion_q.
      by rewrite (bool_decide_eq_false_2 _ (Hfresh x Hx)).
    + apply list_elem_of_singleton in Hx as ->. unfold visible_deletion_q.
      simpl. rewrite (bool_decide_eq_false_2 (data_userId c = viewer)) by done.
      by rewrite andb_false_r.
  - done.
Qed.

End Tombstones.

(** ** Reactions of the others *)

Section ReactFrame.
Context `{Driver}.

Lemma elem_of_upsert_other {A} (q : A -> bool) set fresh (c : list A) x :
  q x = false -> q fresh = true -> (forall d, q d = true -> q (set d) = true) ->
  x ∈ Collection.updateOne_upsert q set fresh c <-> x ∈ c.
Proof.
  intros Hx Hfresh Hset. induction c as [|d c IH]; simpl.
  - rewrite list_elem_of_singleton, elem_of_nil. split; [|done].
    intros ->. congruence.
  - destruct (q d) eqn:Hd; rewrite !elem_of_cons; [|by rewrite IH].
    split; intros [-> | Hin]; [|by right| |by right].
    + rewrite (Hset d Hd) in Hx. done.
    + congruence.
Qed.

Lemma elem_of_deleteOne_other {A} (q : A -> bool) (c : list A) x :
  q x = false -> x ∈ Collection.deleteOne q c <-> x ∈ c.
Proof.
  intros Hx. induction c as [|d c IH]; simpl; [done|].
  destruct (q d) eqn:Hd; rewrite !elem_of_cons; [|by rewrite IH].
  split; [by right|]. intros [-> | Hin]; [congruence|done].
Qed.

Lemma reaction_q_false messageId userId r :
  reaction_key r <> (messageId, userId) ->
  reaction_q messageId userId r = false.
Proof.
  intros Hk. unfold reaction_q. apply andb_false_iff.
  destruct (decide (r_message_id r = messageId)) as [Hm|Hm];
    [|left; by apply bool_decide_eq_false_2].
  right. apply bool_decide_eq_false_2. intros Hu. apply Hk.
  unfold reaction_key. by rewrite Hm, Hu.
Qed.

Lemma elem_of_reactions_after_other userId messageId kind at_ rs r :
  reaction_key r <> (messageId, userId) ->
  r ∈ reactions_after userId messageId kind at_ rs <-> r ∈ rs.
Proof.
  intros Hk%reaction_q_false. unfold reactions_after.
  destruct (truthy kind) as [k|].
  - apply elem_of_upsert_other; [done| |done].
    unfold reaction_q. simpl. by rewrite !bool_decide_eq_true_2.
  - by apply elem_of_deleteOne_other.
Qed.

(** X8. A [react_message] of user [U] on message [M], whatever the kind,
    touches no reaction record of another (message, user) pair, and nothing
    else in the store. *)
Theorem react_leaves_the_other_reactions e sid s c messageId conversationId
    kind :
  socket_of sid (sockets s) = Some c ->
  is_participant (db s) (data_userId c) conversationId = true ->
  no_fault_before 3 e = true ->
  let s' := (dispatch e sid (react messageId conversationId kind) s).1 in
  (forall r, reaction_key r <> (messageId, data_userId c) ->
     r ∈ message_reactions (db s') <-> r ∈ message_reactions (db s))
  /\ messages (db s') = messages (db s)
  /\ message_deletions (db s') = message_deletions (db s)
  /\ conversation_participants (db s') = conversation_participants (db s)
  /\ users (db s') = users (db s).
Proof.
  intros Hc Hp Hn. cbv zeta. rewrite (dispatch_react e sid s c) by done.
  simpl. split_and!; [|done..].
  intros r Hk. by apply elem_of_reactions_after_other.
Qed.

Lemma elem_of_reaction_list messageId rs userId k :
  (userId, k) ∈ reaction_list (Collection.find (reactions_of_q messageId) rs)
  <-> exists r, r ∈ rs /\ r_message_id r = messageId
        /\ r_user_id r = userId /\ r_reaction r = k.
Proof.
  unfold reaction_list. rewrite list_elem_of_fmap. split.
  - intros (r & Hr & Hin). apply elem_of_find in Hin as [Hin Hq].
    apply bool_decide_eq_true_1 in Hq. injection Hr as -> ->. by exists r.
  - intros (r & Hin & Hm & <- & <-). exists r. split; [done|].
    apply elem_of_find. split; [done|]. by apply bool_decide_eq_true_2.
Qed.

Lemma set_reaction_elem_of userId messageId k at_ rs :
  k <> "" ->
  exists r, r ∈ reactions_after userId messageId (Some k) at_ rs
    /\ r_message_id r = messageId /\ r_user_id r = userId
    /\ r_reaction r = k.
Proof.
  intros Hk. unfold reactions_after, truthy.
  rewrite bool_decide_eq_false_2 by done.
  set (set := fun r => {| r_message_id := r_message_id r;
                          r_user_id := r_user_id r;
                          r_reaction := k; r_created_at := at_ |}).
  set (fresh := {| r_message_id := messageId; r_user_id := userId;
                   r_reaction := k; r_created_at := at_ |}).
  pose proof (findOne_upsert (reaction_q messageId userId) set fresh rs)
    as Hfound.
  assert (reaction_q messageId userId fresh = true) as Hfresh.
  { unfold reaction_q. simpl. by rewrite !bool_decide_eq_true_2. }
  specialize (Hfound Hfresh (fun d Hd => Hd)).
  unfold Collection.findOne in Hfound.
  apply List.find_some in Hfound as [Hin Hq].
  eexists. split; [by apply list_elem_of_In|].
  unfold reaction_q in Hq.
  apply andb_true_iff in Hq
    as [Hm%bool_decide_eq_true_1 Hu%bool_decide_eq_true_1].
  split_and!; [done|done|].
  by destruct (List.find _ rs).
Qed.

(** X9. The list a [react_message] with a non-empty kind [k] broadcasts is
    the full set for the message: it holds the pair of the reacting user
    with [k], and for every other user exactly the reactions the store held
    for the message. *)
Theorem reaction_broadcast_is_the_full_set e sid s c messageId conversationId
    k :
  socket_of sid (sockets s) = Some c ->
  is_participant (db s) (data_userId c) conversationId = true ->
  no_fault_before 3 e = true ->
  k <> "" ->
  exists reactions,
    (dispatch e sid (react messageId conversationId (Some k)) s).2 =
      io_to_emit (conversation_room conversationId)
        (message_reaction_updated messageId reactions) (sockets s)
    /\ (data_userId c, k) ∈ reactions
    /\ forall userId k', userId <> data_userId c ->
         (userId, k') ∈ reactions <->
         exists r, r ∈ message_reactions (db s)
           /\ r_message_id r = messageId /\ r_user_id r = userId
           /\ r_reaction r = k'.
Proof.
  intros Hc Hp Hn Hk. rewrite (dispatch_react e sid s c) by done.
  eexists. split; [reflexivity|]. split.
  - apply elem_of_reaction_list.
    by apply set_reaction_elem_of.
  - intros userId k' Hne. rewrite elem_of_reaction_list.
    split; intros (r & Hin & Hm & Hu & Hr); exists r; (split; [|done]).
    + apply elem_of_reactions_after_other in Hin; [done|].
      unfold reaction_key. congruence.
    + apply elem_of_reactions_after_other; [|done].
      unfold reaction_key. congruence.
Qed.

End ReactFrame.

(** ** Presence over a connection's life *)

Section PresenceLife.
Context `{Driver}.

Lemma socket_of_None sid ss :
  socket_of sid ss = None -> forall c, c ∈ ss -> socket_id c <> sid.
Proof.
  unfold socket_of. intros Hnone c Hin Hid.
  apply list_elem_of_In in Hin.
  pose proof (List.find_none _ _ Hnone c Hin) as Hq. simpl in Hq.
  by rewrite bool_decide_eq_true_2 in Hq.
Qed.

Lemma socket_of_fresh sid ss c :
  socket_of sid ss = None -> socket_id c = sid ->
  socket_of sid (ss ++ [c]) = Some c.
Proof.
  unfold socket_of. intros Hnone Hid.
  induction ss as [|c0 ss IH]; simpl in *.
  - by rewrite bool_decide_eq_true_2.
  - destruct (bool_decide (socket_id c0 = sid)); [done|]. by apply IH.
Qed.

Lemma filter_others_fresh sid ss c :
  socket_of sid ss = None -> socket_id c = sid ->
  filter (fun c' => socket_id c' <> sid) (ss ++ [c]) = ss.
Proof.
  intros Hnone Hid. pose proof (socket_of_None _ _ Hnone) as Hall.
  rewrite filter_app.
  rewrite (filter_cons_False _ c []) by (intros Hne; by apply Hne).
  rewrite filter_nil, app_nil_r.
  induction ss as [|c0 ss IH]; [done|].
  rewrite filter_cons_True by (apply Hall; apply list_elem_of_here).
  f_equal. apply IH.
  - unfold socket_of in *. simpl in Hnone.
    by destruct (bool_decide (socket_id c0 = sid)).
  - intros c' Hc'. apply Hall. by apply list_elem_of_further.
Qed.

(** X10. A connection that is accepted and then closed leaves the sockets
    and the store as they were; [user_offline] goes to the connections that
    remain; and the presence mapping is the one before the handshake without
    the user. If the user was not online before, the server is back in the
    state before the handshake; if the user was, through another connection,
    the user is now reported offline. *)
Theorem connect_then_disconnect e e' sid token s userId :
  io_use token = Ok userId ->
  socket_of sid (sockets s) = None ->
  let s1 := (connect e sid token s).2.1 in
  let '(s2, out) := dispatch e' sid disconnect s1 in
  s2 = set_onlineUsers (delete userId (onlineUsers s)) s
  /\ out = io_emit (user_offline userId) (sockets s)
  /\ (onlineUsers s !! userId = None -> s2 = s).
Proof.
  intros Hu Hfresh. cbv zeta.
  rewrite (connect_accepted _ _ _ _ _ Hu). cbn [fst snd].
  set (c := {| socket_id := sid; data_userId := userId; rooms := {[sid]} |}).
  rewrite (dispatch_disconnect e' sid _ c)
    by (simpl; by apply socket_of_fresh).
  simpl. rewrite filter_others_fresh by done.
  rewrite delete_insert_eq. split_and!; [done|done|].
  intros Hoff. rewrite delete_id by done. by destruct s.
Qed.

End PresenceLife.

(** ** Who is sent what *)

Section Keeps.
Variable Q : Run -> Prop.

Lemma keeps_ret {A} (a : A) : keeps Q (ret a).
Proof. by intros e r. Qed.

Lemma keeps_throw {A} err : keeps Q (@throw A err).
Proof. by intros e r. Qed.

Lemma keeps_ask : keeps Q ask.
Proof. by intros e r. Qed.

Lemma keeps_bind {A B} (m : M A) (k : A -> M B) :
  keeps Q m -> (forall a, keeps Q (k a)) -> keeps Q (bind m k).
Proof.
  intros Hm Hk e r Hr. unfold bind. specialize (Hm e r Hr).
  destruct (m e r) as [[a|err] r']; simpl in *; [by apply Hk|done].
Qed.

End Keeps.

Section Recipients.
Context `{Driver}.
Variable sid : string.

Lemma keeps_await_db {A} (op : Db -> A * Db) :
  keeps (recipients_connected sid) (await_db op).
Proof.
  intros e r Hr. unfold await_db. case_bool_decide; simpl; [done|].
  by destruct (op (db (server r))).
Qed.

Lemma keeps_update_server f :
  (forall s, map socket_id (sockets (f s)) = map socket_id (sockets s)) ->
  keeps (recipients_connected sid) (update_server f).
Proof.
  intros Hf e r [Hsid Hout]. split; simpl.
  - unfold connected. by rewrite Hf.
  - intros d Hd. unfold connected. rewrite Hf. by apply Hout.
Qed.

Lemma keeps_emit f :
  (forall s d, connected sid s -> d ∈ f (sockets s) -> connected (dl_to d) s) ->
  keeps (recipients_connected sid) (emit f).
Proof.
  intros Hf e r [Hsid Hout]. split; simpl; [done|].
  intros d Hd. apply elem_of_app in Hd as [Hd|Hd]; [by apply Hout|].
  by apply (Hf (server r)).
Qed.

Lemma io_emit_connected ev ss d :
  d ∈ io_emit ev ss -> dl_to d ∈ map socket_id ss.
Proof.
  unfold io_emit. intros Hd. apply list_elem_of_fmap in Hd as (c & -> & Hc).
  simpl. by apply (list_elem_of_fmap_2 socket_id ss c).
Qed.

Lemma io_emit_sub ev (P : Socket -> Prop) `{forall c, Decision (P c)} ss d :
  d ∈ io_emit ev (filter P ss) -> dl_to d ∈ map socket_id ss.
Proof.
  intros Hd. apply io_emit_connected in Hd.
  apply list_elem_of_fmap in Hd as (c & -> & Hc).
  apply list_elem_of_filter in Hc as [_ Hc].
  by apply (list_elem_of_fmap_2 socket_id ss c).
Qed.

Lemma socket_join_ids sid' room ss :
  map socket_id (socket_join sid' room ss) = map socket_id ss.
Proof.
  unfold socket_join. induction ss as [|c ss IH]; simpl; [done|].
  rewrite IH. f_equal. by case_bool_decide.
Qed.

Ltac keep :=
  repeat first
    [ apply keeps_bind; [|intros ?]
    | apply keeps_ret | apply keeps_throw | apply keeps_ask
    | apply keeps_await_db
    | match goal with
      | |- keeps _ (if ?b then _ else _) => destruct b
      | |- keeps _ (match ?x with _ => _ end) => destruct x
      end
    | apply keeps_emit; intros ? ? ? ?
    | apply keeps_update_server; intros ? ].

Lemma handler_keeps_recipients_connected userId ev :
  ev <> disconnect ->
  keeps (recipients_connected sid) (handler sid userId ev).
Proof.
  intros Hev.
  destruct ev as [conversationId|data|data|data|conversationId|];
    [| | | | |done]; simpl.
  - unfold on_join_conversation, isConversationParticipant. keep.
    simpl. apply socket_join_ids.
  - unfold on_send_message, isConversationParticipant, ObjectId. keep.
    by eapply io_emit_sub.
  - unfold on_react_message, isConversationParticipant. keep;
      by eapply io_emit_sub.
  - unfold on_delete_message, upsert_deletion, isConversationParticipant,
      ObjectId.
    keep; first [by eapply io_emit_sub | idtac].
    match goal with
    | Hd : _ ∈ socket_emit _ _ |- _ =>
        apply list_elem_of_singleton in Hd as ->
    end.
    done.
  - unfold on_typing. keep. by eapply io_emit_sub.
Qed.

End Recipients.

Section Delivery.
Context `{Driver}.

(** X11. Whatever arrives and whatever fails, every event the server emits
    in a step is addressed to a socket that is connected when the step is
    over: nothing is ever sent to a refused or a closed connection. *)
Theorem every_delivery_has_a_connected_recipient e i s :
  delivered_to_connected (step e i s).1 (step e i s).2.
Proof.
  unfold step. destruct (unhandledRejection s);
    [intros d Hd; by apply elem_of_nil in Hd|].
  destruct i as [sid token|sid ev]; simpl.
  - unfold connect. destruct (io_use token) as [userId|err]; simpl.
    + intros d Hd. by apply io_emit_connected in Hd.
    + intros d Hd. by apply elem_of_nil in Hd.
  - unfold dispatch. destruct (socket_of sid (sockets s)) as [c|] eqn:Hc;
      [|intros d Hd; by apply elem_of_nil in Hd].
    assert (recipients_connected sid
              {| server := s; trips := 0; outbox := [] |}) as Hstart.
    { split; simpl.
      - destruct (socket_of_Some _ _ _ Hc) as [Hin <-].
        by apply (list_elem_of_fmap_2 socket_id (sockets s) c).
      - intros d Hd. by apply elem_of_nil in Hd. }
    assert (forall ev', ev' <> disconnect ->
              delivered_to_connected
                (run (handler sid (data_userId c) ev') e s).1
                (run (handler sid (data_userId c) ev') e s).2) as Hrun.
    { intros ev' Hev'.
      by destruct (handler_keeps_recipients_connected sid (data_userId c)
                     ev' Hev' e _ Hstart). }
    destruct ev as [conversationId|data|data|data|conversationId|];
      try (by apply Hrun).
    + specialize (Hrun (join_conversation conversationId)).
      unfold run in Hrun. unfold run_unguarded. cbn [fst snd] in *.
      destruct (handler _ _ _ e _) as [[a|err] r]; cbn [fst snd] in *;
        [by apply Hrun|].
      intros d Hd. by apply (Hrun ltac:(done) d Hd).
    + simpl. intros d Hd. by apply io_emit_connected in Hd.
Qed.

End Delivery.

(** ** Rooms and membership *)

Section Rooms.
Context `{Driver}.

Lemma conversation_room_inj a b :
  conversation_room a = conversation_room b -> a = b.
Proof. unfold conversation_room. simpl. intros Heq. by simplify_eq. Qed.

Ltac keep_server :=
  repeat first
    [ apply preserves_bind; [|intros ?]
    | solve [auto with preserves]
    | match goal with
      | |- preserves _ (if ?b then _ else _) => destruct b
      | |- preserves _ (match ?x with _ => _ end) => destruct x
      end
    | apply preserves_await_db; intros ? ?; simpl
    | apply preserves_update_server; intros ? ? ].

Lemma handler_keeps_channel_ok sid userId ev :
  (forall conversationId, ev <> join_conversation conversationId) ->
  preserves channel_ok (handler sid userId ev).
Proof.
  intros Hev.
  destruct ev as [conversationId|data|data|data|conversationId|]; simpl.
  - by destruct (Hev conversationId).
  - unfold on_send_message. keep_server.
  - unfold on_react_message. keep_server.
  - unfold on_delete_message, upsert_deletion. keep_server.
  - unfold on_typing. keep_server.
  - unfold on_disconnect. keep_server.
Qed.

Lemma join_keeps_channel_ok e sid s c conversationId :
  socket_of sid (sockets s) = Some c ->
  channel_ok s ->
  channel_ok
    (run_unguarded (on_join_conversation sid (data_userId c) conversationId)
       e s).1.
Proof.
  intros Hc [Hids Hrooms]. cbv [run_unguarded on_join_conversation bind].
  destruct (participant_check_cases (data_userId c) conversationId e s)
    as [-> | ->]; [exact (conj Hids Hrooms)|].
  destruct (is_participant (db s) (data_userId c) conversationId) eqn:Hp;
    [|done].
  simpl. split; simpl; [by rewrite socket_join_ids|].
  intros c' C Hc' Hroom Hne. simpl.
  apply elem_of_socket_join in Hc' as (c0 & Hin & Hid & Hu & Hr).
  rewrite Hu. rewrite Hid in Hne. rewrite Hr in Hroom.
  case_bool_decide as Hsid; [|by apply Hrooms].
  apply elem_of_union in Hroom as [Hroom|Hroom]; [|by apply Hrooms].
  apply elem_of_singleton in Hroom. apply conversation_room_inj in Hroom.
  subst C.
  destruct (socket_of_Some _ _ _ Hc) as [Hcin Hcid].
  assert (c0 = c) as ->; [|done].
  apply list_elem_of_lookup in Hin as [i Hi].
  apply list_elem_of_lookup in Hcin as [j Hj].
  assert (i = j) as ->; [|congruence].
  eapply NoDup_lookup; [exact Hids| |].
  - rewrite list_lookup_fmap, Hi. simpl. by rewrite Hsid.
  - rewrite list_lookup_fmap, Hj. simpl. by rewrite Hcid.
Qed.

Lemma step_keeps_channel_ok e i s :
  channel_ok s ->
  match i with
  | handshake sid _ => socket_of sid (sockets s) = None
  | event _ _ => True
  end ->
  channel_ok (step e i s).1.
Proof.
  intros Hok Hfresh. unfold step. destruct (unhandledRejection s); [done|].
  destruct i as [sid token|sid ev]; simpl.
  - unfold connect. destruct (io_use token) as [userId|err]; [|done].
    simpl. destruct Hok as [Hids Hrooms]. split; simpl.
    + rewrite map_app. simpl. apply NoDup_app. split_and!; [done| |].
      * intros x Hx Hx'. apply list_elem_of_singleton in Hx' as ->.
        apply list_elem_of_fmap in Hx as (c & Hid & Hc).
        by apply (socket_of_None _ _ Hfresh c Hc).
      * apply NoDup_singleton.
    + intros c C Hc Hroom Hne. simpl.
      apply elem_of_app in Hc as [Hc|Hc]; [by apply Hrooms|].
      apply list_elem_of_singleton in Hc as ->. simpl in *.
      by apply elem_of_singleton in Hroom.
  - unfold dispatch. destruct (socket_of sid (sockets s)) as [c|] eqn:Hc;
      [|done].
    destruct ev as [conversationId|data|data|data|conversationId|];
      try (apply (preserves_run channel_ok);
           [by apply handler_keeps_channel_ok|done]).
    + by apply join_keeps_channel_ok.
    + apply (preserves_run channel_ok);
        [by apply handler_keeps_channel_ok|].
      destruct Hok as [Hids Hrooms]. split; simpl.
      * apply (NoDup_fmap_2_strong socket_id).
        -- intros x y Hx Hy Hxy.
           apply list_elem_of_filter in Hx as [_ Hx].
           apply list_elem_of_filter in Hy as [_ Hy].
           apply list_elem_of_lookup in Hx as [i Hi].
           apply list_elem_of_lookup in Hy as [j Hj].
           assert (i = j) as ->; [|congruence].
           eapply NoDup_lookup; [exact Hids| |].
           ++ by rewrite list_lookup_fmap, Hi.
           ++ rewrite list_lookup_fmap, Hj. simpl. by rewrite Hxy.
        -- apply NoDup_filter. by apply NoDup_fmap_1 in Hids.
      * intros c' C Hc' Hroom Hne. simpl.
        apply list_elem_of_filter in Hc' as [_ Hc']. by apply Hrooms.
Qed.

(** X12. Along every run of the channel in which each handshake brings a
    socket id not in use, socket ids stay unique and a socket is in the room
    of a conversation only if its user is a participant of it: the check of
    [join_conversation] is the only way into a room. *)
Theorem rooms_stay_authorized trace s :
  channel_ok s -> fresh_handshakes trace s -> channel_ok (steps trace s).
Proof.
  revert s. induction trace as [|[e i] trace IH]; intros s Hok Hfresh;
    simpl in *; [done|].
  destruct Hfresh as [Hi Hfresh]. apply IH; [|done].
  by apply step_keeps_channel_ok.
Qed.

End Rooms.

Section Confidential.
Context `{Driver}.
Variable ss : list Socket.
Variable good : Delivery -> Prop.

Lemma only_good_await_db {A} (op : Db -> A * Db) :
  keeps (only_good ss good) (await_db op).
Proof.
  intros e r Hr. unfold await_db. case_bool_decide; simpl; [done|].
  by destruct (op (db (server r))).
Qed.

Lemma only_good_emit f :
  (forall d, d ∈ f ss -> good d) -> keeps (only_good ss good) (emit f).
Proof.
  intros Hf e r [Hss Hout]. split; simpl; [done|].
  intros d Hd. apply elem_of_app in Hd as [Hd|Hd]; [by apply Hout|].
  rewrite Hss in Hd. by apply Hf.
Qed.

End Confidential.

Section Confidentiality.
Context `{Driver}.

Ltac keep_good :=
  repeat first
    [ apply keeps_bind; [|intros ?]
    | apply keeps_ret | apply keeps_throw | apply keeps_ask
    | apply only_good_await_db
    | match goal with
      | |- keeps _ (if ?b then _ else _) => destruct b
      | |- keeps _ (match ?x with _ => _ end) => destruct x
      end
    | apply only_good_emit; intros ? ? ].

Lemma room_broadcast_good s sid conversationId ev d :
  rooms_authorized s ->
  d ∈ io_to_emit (conversation_room conversationId) ev (sockets s) ->
  to_requester_or_participant s sid conversationId d.
Proof.
  intros Hrooms Hd. apply io_to_emit_elem_of in Hd as (c & Hin & Hroom & ->).
  exists c. split_and!; [done|done|]. right.
  destruct (decide (conversation_room conversationId = socket_id c));
    [by right|left]. by apply Hrooms.
Qed.

(** X13. In a server whose rooms are authorized, whatever the driver does,
    an event about a conversation ([new_message],
    [message_reaction_updated], [message_deleted]) is delivered only to the
    socket that caused it or to sockets whose user is a participant of that
    conversation. *)
Theorem conversation_events_stay_among_participants e sid s c ev
    conversationId :
  rooms_authorized s ->
  socket_of sid (sockets s) = Some c ->
  conversation_of ev = Some conversationId ->
  forall d, d ∈ (dispatch e sid ev s).2 ->
    to_requester_or_participant s sid conversationId d.
Proof.
  intros Hrooms Hc Hev. unfold dispatch. rewrite Hc.
  assert (only_good (sockets s)
            (to_requester_or_participant s sid conversationId)
            {| server := s; trips := 0; outbox := [] |}) as Hstart.
  { split; [done|]. intros d Hd. by apply elem_of_nil in Hd. }
  destruct (socket_of_Some _ _ _ Hc) as [Hin Hid].
  destruct ev as [C|data|data|data|C|]; simpl in Hev; [| | | |done|done];
    injection Hev as <-; cbv [handler].
  - cbv [run_unguarded on_join_conversation bind].
    destruct (participant_check_cases (data_userId c) C e s) as [-> | ->];
      [intros d Hd; by apply elem_of_nil in Hd|].
    destruct (is_participant _ _ _); intros d Hd; by apply elem_of_nil in Hd.
  - assert (keeps (only_good (sockets s)
              (to_requester_or_participant s sid (sm_conversationId data)))
              (on_send_message (data_userId c) data)) as Hk.
    { unfold on_send_message, isConversationParticipant, ObjectId.
      keep_good. by eapply room_broadcast_good. }
    by destruct (Hk e _ Hstart).
  - assert (keeps (only_good (sockets s)
              (to_requester_or_participant s sid (rm_conversationId data)))
              (on_react_message (data_userId c) data)) as Hk.
    { unfold on_react_message, isConversationParticipant.
      keep_good; by eapply room_broadcast_good. }
    by destruct (Hk e _ Hstart).
  - assert (keeps (only_good (sockets s)
              (to_requester_or_participant s sid (dm_conversationId data)))
              (on_delete_message sid (data_userId c) data)) as Hk.
    { unfold on_delete_message, upsert_deletion, isConversationParticipant,
        ObjectId.
      keep_good; first [by eapply room_broadcast_good | idtac].
      match goal with
      | Hd : _ ∈ socket_emit _ _ |- _ =>
          apply list_elem_of_singleton in Hd as ->
      end.
      exists c. split_and!; [done|done|by left]. }
    by destruct (Hk e _ Hstart).
Qed.

End Confidentiality.

(** ** What a failure leaves behind, and what the channel never rewrites *)

Ltac through_handler :=
  repeat first
    [ apply preserves_bind; [|intros ?]
    | solve [auto with preserves]
    | match goal with
      | |- preserves _ (if ?b then _ else _) => destruct b
      | |- preserves _ (match ?x with _ => _ end) => destruct x
      end
    | apply preserves_await_db; intros ? ?; simpl
    | apply preserves_update_server; intros ? ? ].

Section Failures.
Context `{Driver}.

(** X14. A driver failure during [send_message] is never followed by a
    broadcast, and the sender is told nothing. If the failure is in the
    participant check or in the insert the store is untouched; if it is in
    the lookup of the sender's profile the message is already stored. *)
Theorem send_message_failure_is_never_broadcast e sid s c data oid i :
  socket_of sid (sockets s) = Some c ->
  is_participant (db s) (data_userId c) (sm_conversationId data) = true ->
  new_ObjectId (data_userId c) = Some oid ->
  fault e = Some i -> i < 3 ->
  let '(s', out) := dispatch e sid (send_message data) s in
  out = []
  /\ (i <= 1 -> s' = s)
  /\ (i = 2 ->
      messages (db s') =
        messages (db s) ++
          [{| msg_id := insertedId e;
              msg_conversation_id := sm_conversationId data;
              msg_sender_id := data_userId c;
              msg_content := sm_content data;
              msg_created_at := now e |}]).
Proof.
  intros Hc Hp Hoid He Hi.
  destruct i as [|[|[|i]]]; [| | |lia].
  - unfold dispatch. rewrite Hc.
    cbv [run handler on_send_message bind isConversationParticipant].
    rewrite await_db_fault by done. simpl.
    split_and!; [done|done|lia].
  - rewrite (send_message_insert_failure_is_silent e sid s c data) by done.
    split_and!; [done|done|lia].
  - unfold dispatch. rewrite Hc.
    cbv [run handler on_send_message bind ask].
    assert (no_fault_before 2 e = true) as Hn
      by (unfold no_fault_before; by rewrite He).
    rewrite (isConversationParticipant_ok 2) by (done || simpl; lia).
    simpl. rewrite Hp. simpl.
    rewrite (await_db_ok _ 2) by (done || simpl; lia).
    unfold ObjectId. rewrite Hoid. cbv [ret]. simpl.
    rewrite await_db_fault by done. simpl.
    split_and!; [done|lia|done].
Qed.

Lemma grows_from_refl s : grows_from s s.
Proof. by split_and!. Qed.

Lemma handler_grows sid userId ev s0 :
  preserves (grows_from s0) (handler sid userId ev).
Proof.
  destruct ev as [conversationId|data|data|data|conversationId|]; simpl.
  - unfold on_join_conversation. through_handler.
  - unfold on_send_message. through_handler.
    match goal with Hg : grows_from _ _ |- _ => destruct Hg as (? & ? & ?) end.
    split_and!; [done|done|]. simpl. unfold Collection.insertOne.
    by apply prefix_app_r.
  - unfold on_react_message. through_handler.
  - unfold on_delete_message, upsert_deletion. through_handler.
  - unfold on_typing. through_handler.
  - unfold on_disconnect. through_handler.
Qed.

Lemma step_grows e i s0 s : grows_from s0 s -> grows_from s0 (step e i s).1.
Proof.
  intros Hs. unfold step. destruct (unhandledRejection s); [done|].
  destruct i as [sid token|sid ev]; simpl.
  - unfold connect. by destruct (io_use token).
  - unfold dispatch. destruct (socket_of sid (sockets s)); [|done].
    destruct ev;
      first [ apply (preserves_run_unguarded (grows_from s0));
                [done|apply handler_grows|done]
            | apply (preserves_run (grows_from s0));
                [apply handler_grows|done] ].
Qed.

(** X15. Whatever arrives over the channel and whatever fails, the channel
    never adds, removes or changes a participant or a user, and never
    removes or rewrites a message: the messages of the store before a run
    are a prefix of the messages after it. *)
Theorem channel_only_appends_messages trace s :
  grows_from s (steps trace s).
Proof.
  assert (forall s0 s1, grows_from s0 s1 -> grows_from s0 (steps trace s1))
    as Hgen; [|apply Hgen, grows_from_refl].
  induction trace as [|[e i] trace IH]; intros s0 s1 Hs; simpl; [done|].
  apply IH. by apply step_grows.
Qed.

End Failures.

(** ** What a history answer holds *)

Section HistoryAnswer.
Context `{Driver}.

Lemma enrich_Ok e r userId m h r' :
  enrich userId m e r = (Ok h, r') ->
  h = history_entry (db (server r)) userId m /\ server r' = server r.
Proof.
  unfold enrich, history_entry, ObjectId, bind.
  destruct (new_ObjectId (msg_sender_id m)) as [oid|]; [|done].
  cbv [ret]. simpl.
  destruct (await_query_cases
    (fun d => Collection.findOne (user_q oid) (users d)) e r) as [-> | ->];
    [done|].
  match goal with
  | |- context [await_db (query ?f) e ?r1] =>
      destruct (await_query_cases f e r1) as [-> | ->]; [done|]
  end.
  match goal with
  | |- context [await_db (query ?f) e ?r1] =>
      destruct (await_query_cases f e r1) as [-> | ->]; [done|]
  end.
  simpl. intros Heq. by simplify_eq.
Qed.

Lemma mapM_enrich_Ok e userId msgs : forall r hs r',
  mapM (enrich userId) msgs e r = (Ok hs, r') ->
  hs = map (history_entry (db (server r)) userId) msgs
  /\ server r' = server r.
Proof.
  induction msgs as [|m msgs IH]; intros r hs r'; simpl.
  - unfold ret. intros Heq. by simplify_eq.
  - unfold bind at 1.
    destruct (enrich userId m e r) as [[h|err] r1] eqn:Hm; [|done].
    apply enrich_Ok in Hm as [-> Hr1].
    unfold bind.
    destruct (mapM (enrich userId) msgs e r1) as [[hs'|err] r2] eqn:Hms;
      [|done].
    apply IH in Hms as [-> Hr2]. unfold ret. intros Heq. simplify_eq.
    by rewrite Hr1, Hr2.
Qed.

(** Whenever the route answers with a list, the list is the one computed
    from the store, and the viewer is a participant. *)
Lemma GET_conversation_json e s userId conversationId body :
  GET_conversation e s userId conversationId = res_json body ->
  is_participant (db s) userId conversationId = true
  /\ body = omap (history_entry (db s) userId)
              (conversation_messages (db s) conversationId).
Proof.
  unfold GET_conversation, get_conversation, bind, is_participant.
  destruct (await_query_cases
    (fun d => Collection.findOne (participant_q conversationId userId)
                (conversation_participants d)) e
    {| server := s; trips := 0; outbox := [] |}) as [-> | ->]; [done|].
  simpl. destruct (Collection.findOne _ _) as [p|]; [|done].
  match goal with
  | |- context [await_db (query ?f) e ?r1] =>
      destruct (await_query_cases f e r1) as [-> | ->]; [done|]
  end.
  simpl.
  destruct (mapM _ _ e _) as [[hs|err] r2] eqn:Hms; [|done].
  apply mapM_enrich_Ok in Hms as [-> _]. cbv [ret]. simpl.
  intros Heq. split; [done|]. simplify_eq. by rewrite omap_id_map.
Qed.

(** X16. The history of a conversation is never sent to a user who is not a
    participant of it: the answer is the 403, or the 500 when the driver
    fails on the membership query. *)
Theorem history_is_refused_to_non_participants e s userId conversationId :
  is_participant (db s) userId conversationId = false ->
  (forall body,
     GET_conversation e s userId conversationId <> res_json body)
  /\ (fault e <> Some 0 ->
      GET_conversation e s userId conversationId =
        res_status 403 "Not a participant of this conversation")
  /\ (fault e = Some 0 ->
      GET_conversation e s userId conversationId =
        res_status 500 "Failed to fetch messages").
Proof.
  intros Hp. split_and!.
  - intros body Hbody. apply GET_conversation_json in Hbody as [Hyes _].
    congruence.
  - intros He. unfold GET_conversation, get_conversation, bind.
    rewrite (await_query_ok _ 1);
      [|unfold no_fault_before; destruct (fault e) as [[|i]|]; done
       |simpl; lia].
    simpl. by rewrite (is_participant_false _ _ _ Hp).
  - intros He. unfold GET_conversation, get_conversation, bind.
    by rewrite await_db_fault.
Qed.

#[local] Instance created_at_le_trans : Transitive created_at_le.
Proof. unfold created_at_le. intros a b c. lia. Qed.

#[local] Instance created_at_le_total : Total created_at_le.
Proof. unfold created_at_le. intros a b. lia. Qed.

Lemma history_entry_facts d userId m h :
  history_entry d userId m = Some h ->
  hm_id h = msg_id m
  /\ hm_conversation_id h = msg_conversation_id m
  /\ hm_created_at h = msg_created_at m
  /\ hm_reactions h =
       reaction_list
         (Collection.find (reactions_of_q (msg_id m)) (message_reactions d))
  /\ (if hm_deleted_for_everyone h then hm_content h = placeholder
      else hm_content h = msg_content m).
Proof.
  unfold history_entry, materialize.
  destruct (Collection.findOne (visible_deletion_q _ _) _) as [x|].
  - destruct (negb _ && _); [done|]. intros Heq. simplify_eq. simpl.
    split_and!; [done..|]. by destruct (deleted_for_everyone x).
  - intros Heq. by simplify_eq.
Qed.

Lemma omap_StronglySorted {A B} (R : relation A) (R' : relation B)
    (f : A -> option B) (l : list A) :
  (forall x y x' y', R x y -> f x = Some x' -> f y = Some y' -> R' x' y') ->
  StronglySorted R l -> StronglySorted R' (omap f l).
Proof.
  intros Hf Hl. induction Hl as [|x l Hl IH Hx]; csimpl; [constructor|].
  destruct (f x) as [x'|] eqn:Hfx; [|done].
  constructor; [done|]. apply Forall_forall. intros y' Hy'.
  apply list_elem_of_omap in Hy' as (y & Hy & Hfy).
  rewrite Forall_forall in Hx. by eapply Hf; [apply Hx| |].
Qed.

(** X17. A history answer lists messages of the conversation asked for
    only, in the order of their creation time. *)
Theorem history_is_in_creation_order e s userId conversationId body :
  GET_conversation e s userId conversationId = res_json body ->
  StronglySorted (fun a b => hm_created_at a <= hm_created_at b) body
  /\ forall h, h ∈ body -> hm_conversation_id h = conversationId.
Proof.
  intros Hbody. apply GET_conversation_json in Hbody as [_ ->]. split.
  - apply (omap_StronglySorted created_at_le).
    + intros m1 m2 h1 h2 Hle H1 H2.
      apply history_entry_facts in H1 as (_ & _ & -> & _).
      by apply history_entry_facts in H2 as (_ & _ & -> & _).
    + unfold conversation_messages. apply StronglySorted_merge_sort; apply _.
  - intros h Hh. apply history_lists in Hh as (m & _ & Hc & Hentry).
    by apply history_entry_facts in Hentry as (_ & -> & _).
Qed.

(** X18. A history answer is faithful to the store. Each entry is a message
    of the store, with the reactions the store holds for it and with either
    its content as sent or, flagged deleted for everyone, the placeholder;
    and every message of the conversation that bears no deletion marker is
    listed, with its content as sent. *)
Theorem history_is_faithful e s userId conversationId body :
  GET_conversation e s userId conversationId = res_json body ->
  (forall h, h ∈ body ->
     exists m, m ∈ messages (db s) /\ hm_id h = msg_id m
       /\ hm_reactions h =
            reaction_list
              (Collection.find (reactions_of_q (msg_id m))
                 (message_reactions (db s)))
       /\ (if hm_deleted_for_everyone h then hm_content h = placeholder
           else hm_content h = msg_content m))
  /\ (forall m, m ∈ messages (db s) ->
        msg_conversation_id m = conversationId ->
        (forall x, x ∈ message_deletions (db s) ->
           d_message_id x <> msg_id m) ->
        exists h, h ∈ body /\ hm_id h = msg_id m
          /\ hm_content h = msg_content m
          /\ hm_deleted_for_everyone h = false).
Proof.
  intros Hbody. apply GET_conversation_json in Hbody as [_ ->]. split.
  - intros h Hh. apply history_lists in Hh as (m & Hm & _ & Hentry).
    exists m. split; [done|].
    by apply history_entry_facts in Hentry as (? & _ & _ & ? & ?).
  - intros m Hm Hc Hnone.
    eexists. split; [apply history_lists; exists m; split_and!; [done..|]|].
    + unfold history_entry. rewrite findOne_none; [done|].
      intros x Hx. unfold visible_deletion_q.
      by rewrite (bool_decide_eq_false_2 _ (Hnone x Hx)).
    + done.
Qed.

End HistoryAnswer.

(** * The routes beside the channel *)

Section RouteFacts.
Context `{Driver}.

Lemma POST_message_reaction_ok e s userId id reaction :
  no_fault_before 1 e = true ->
  POST_message_reaction e s userId id reaction =
    (reply_ok "Reaction updated",
     set_db
       (set_message_reactions
          (reactions_after userId id reaction (now e)
             (message_reactions (db s))) (db s)) s).
Proof.
  intros Hn. unfold POST_message_reaction, route, post_message_reaction.
  cbv [bind ask]. unfold reactions_after.
  destruct (truthy reaction) as [k|];
    by rewrite (await_db_ok _ 1) by (done || simpl; lia).
Qed.

(** X19. For a participant, reacting over [POST /message/:id/reaction] and
    reacting over the channel leave the same store; the route answers
    "Reaction updated" and, unlike the channel, emits nothing: nobody is
    told. *)
Theorem route_and_channel_react_alike e sid s c messageId conversationId
    kind :
  socket_of sid (sockets s) = Some c ->
  is_participant (db s) (data_userId c) conversationId = true ->
  no_fault_before 3 e = true ->
  let '(reply, s') :=
    POST_message_reaction e s (data_userId c) messageId kind in
  reply = reply_ok "Reaction updated"
  /\ s' = (dispatch e sid (react messageId conversationId kind) s).1
  /\ route_emits (post_message_reaction (data_userId c) messageId kind) e s
     = [].
Proof.
  intros Hc Hp Hn.
  assert (no_fault_before 1 e = true) as Hn1
    by (unfold no_fault_before in *; destruct (fault e) as [[|[|[|i]]]|];
        done).
  rewrite POST_message_reaction_ok by done.
  rewrite (dispatch_react e sid s c) by done.
  split_and!; [done|done|].
  unfold route_emits, post_message_reaction. cbv [bind ask].
  destruct (truthy kind) as [k|];
    by rewrite (await_db_ok _ 1) by (done || simpl; lia).
Qed.

(** X20. [POST /message/:id/reaction] checks neither the membership of
    the user nor the existence of the message: whoever the user is and
    whatever the message id, the route answers "Reaction updated", a record
    of (message id, user) with the non-empty kind is in the store, and every
    history answer that lists a message of that id from then on shows the
    user with that kind among its reactions. *)
Theorem route_reaction_shows_in_history e s userId messageId k :
  no_fault_before 1 e = true -> k <> "" ->
  let '(reply, s') := POST_message_reaction e s userId messageId (Some k) in
  reply = reply_ok "Reaction updated"
  /\ (exists r, r ∈ message_reactions (db s')
        /\ r_message_id r = messageId /\ r_user_id r = userId
        /\ r_reaction r = k)
  /\ forall e' viewer conversationId body h,
       GET_conversation e' s' viewer conversationId = res_json body ->
       h ∈ body -> hm_id h = messageId ->
       (userId, k) ∈ hm_reactions h.
Proof.
  intros Hn Hk. rewrite POST_message_reaction_ok by done.
  split_and!; [done|by apply set_reaction_elem_of|].
  intros e' viewer conversationId body h Hbody Hh Hid.
  apply GET_conversation_json in Hbody as [_ ->].
  apply history_lists in Hh as (m & _ & _ & Hentry).
  apply history_entry_facts in Hentry as (Hm & _ & _ & -> & _).
  rewrite <- Hm, Hid. simpl. apply elem_of_reaction_list.
  by apply set_reaction_elem_of.
Qed.

Lemma DELETE_message_for_me e s userId id :
  no_fault_before 1 e = true ->
  DELETE_message e s userId id false =
    (reply_ok "Message deleted",
     set_db
       (set_message_deletions
          (marked id userId false (message_deletions (db s))) (db s)) s).
Proof.
  intros Hn. unfold DELETE_message, route, delete_message_route, bind.
  by rewrite (upsert_deletion_ok 1) by (done || simpl; lia).
Qed.

Lemma DELETE_message_for_everyone e s userId id m :
  no_fault_before 2 e = true ->
  message_named (db s) id = Some m -> msg_sender_id m = userId ->
  DELETE_message e s userId id true =
    (reply_ok "Message deleted",
     set_db
       (set_message_deletions
          (marked id userId true (message_deletions (db s))) (db s)) s).
Proof.
  intros Hn Hm Hsender.
  unfold DELETE_message, route, delete_message_route, bind, ObjectId.
  unfold message_named in Hm.
  destruct (new_ObjectId id) as [oid|]; [|done]. cbv [ret]. simpl in *.
  rewrite (await_query_ok _ 2) by (done || simpl; lia).
  simpl. rewrite Hm. simpl. rewrite Hsender, bool_decide_eq_true_2 by done.
  simpl. by rewrite (upsert_deletion_ok 2) by (done || simpl; lia).
Qed.

Lemma DELETE_message_not_sender e s userId id :
  msg_sender_id <$> message_named (db s) id <> Some userId ->
  (DELETE_message e s userId id true).2 = s.
Proof.
  intros Hmsg.
  unfold DELETE_message, route, delete_message_route, bind, ObjectId.
  unfold message_named in Hmsg.
  destruct (new_ObjectId id) as [oid|]; cbv [ret throw]; simpl in *; [|done].
  destruct (await_query_cases
    (fun d => Collection.findOne (message_q oid) (messages d)) e
    {| server := s; trips := 0; outbox := [] |}) as [-> | ->]; [done|].
  simpl. by rewrite bool_decide_eq_false_2.
Qed.

(** X21. [DELETE /message/:id] with [forEveryone] from a user who is not the
    sender of the message (or for a message the store does not have) writes
    nothing, whatever the driver does; when the id is well formed and the
    driver answers, the reply is the 403. *)
Theorem route_delete_for_everyone_is_for_the_sender e s userId id :
  msg_sender_id <$> message_named (db s) id <> Some userId ->
  (DELETE_message e s userId id true).2 = s
  /\ (is_Some (new_ObjectId id) -> fault e <> Some 0 ->
      (DELETE_message e s userId id true).1 =
        reply_error 403 "Can only delete your own messages for everyone").
Proof.
  intros Hmsg. split; [by apply DELETE_message_not_sender|].
  intros [oid Hoid] He.
  unfold DELETE_message, route, delete_message_route, bind, ObjectId.
  unfold message_named in Hmsg. rewrite Hoid in *. cbv [ret]. simpl in *.
  rewrite (await_query_ok _ 1);
    [|unfold no_fault_before; destruct (fault e) as [[|i]|]; done
     |simpl; lia].
  simpl. by rewrite bool_decide_eq_false_2.
Qed.

(** X22. For a participant, deleting over [DELETE /message/:id] and
    deleting over the channel leave the same store, for either value of
    [forEveryone] and whoever sent the message. *)
Theorem route_and_channel_delete_alike e sid s c data :
  socket_of sid (sockets s) = Some c ->
  is_participant (db s) (data_userId c) (dm_conversationId data) = true ->
  no_fault_before 3 e = true ->
  (DELETE_message e s (data_userId c) (dm_messageId data)
     (dm_forEveryone data)).2 =
  (dispatch e sid (delete_message data) s).1.
Proof.
  intros Hc Hp Hn.
  assert (no_fault_before 1 e = true /\ no_fault_before 2 e = true)
    as [Hn1 Hn2]
    by (unfold no_fault_before in *; destruct (fault e) as [[|[|[|i]]]|];
        done).
  destruct (dm_forEveryone data) eqn:Hall.
  - destruct (decide (msg_sender_id <$>
                        message_named (db s) (dm_messageId data)
                      = Some (data_userId c))) as [Hyes|Hno].
    + destruct (message_named (db s) (dm_messageId data)) as [m|] eqn:Hm;
        [|done].
      injection Hyes as Hsender.
      rewrite (DELETE_message_for_everyone _ _ _ _ m) by done.
      by rewrite (dispatch_delete_everyone e sid s c data m).
    + rewrite (DELETE_message_not_sender e s _ _ Hno).
      by rewrite (delete_for_everyone_dropped e sid s c data).
  - rewrite DELETE_message_for_me by done.
    by rewrite (dispatch_delete_me e sid s c data).
Qed.

End RouteFacts.

(** ** Membership over the routes *)

Section Members.
Context `{Driver}.

Lemma findOne_upsert_other {A} (q q' : A -> bool) set fresh (c : list A) :
  q' fresh = false ->
  (forall d, q d = true -> q' d = false /\ q' (set d) = false) ->
  Collection.findOne q' (Collection.updateOne_upsert q set fresh c) =
    Collection.findOne q' c.
Proof.
  intros Hfresh Hq. unfold Collection.findOne.
  induction c as [|d c IH]; simpl; [by rewrite Hfresh|].
  destruct (q d) eqn:Hd; simpl.
  - destruct (Hq d Hd) as [-> ->]. done.
  - by rewrite IH.
Qed.

Lemma findOne_deleteOne_other {A} (q q' : A -> bool) (c : list A) :
  (forall d, q d = true -> q' d = false) ->
  Collection.findOne q' (Collection.deleteOne q c) = Collection.findOne q' c.
Proof.
  intros Hq. unfold Collection.findOne.
  induction c as [|d c IH]; simpl; [done|].
  destruct (q d) eqn:Hd; simpl; [by rewrite (Hq d Hd)|by rewrite IH].
Qed.

Lemma findOne_deleteOne_unique {A K} (key : A -> K) (k : K) (q : A -> bool)
    (c : list A) :
  (forall x, q x = true -> key x = k) ->
  NoDup (map key c) ->
  Collection.findOne q (Collection.deleteOne q c) = None.
Proof.
  intros Hq. induction c as [|d c IH]; simpl; [done|]. intros Hnd.
  apply NoDup_cons in Hnd as [Hd Hnd]. destruct (q d) eqn:Hqd.
  - apply findOne_none. intros x Hx.
    destruct (q x) eqn:Hqx; [|done]. exfalso. apply Hd.
    apply list_elem_of_fmap. exists x.
    by rewrite (Hq d Hqd), (Hq x Hqx).
  - unfold Collection.findOne. simpl. rewrite Hqd. by apply IH.
Qed.

Lemma upsert_idemp {A} (q : A -> bool) (x : A) (c : list A) :
  q x = true ->
  Collection.updateOne_upsert q (fun _ => x) x
    (Collection.updateOne_upsert q (fun _ => x) x c) =
  Collection.updateOne_upsert q (fun _ => x) x c.
Proof.
  intros Hx. induction c as [|d c IH]; simpl.
  - by rewrite Hx.
  - destruct (q d) eqn:Hd; simpl; [by rewrite Hx|]. by rewrite Hd, IH.
Qed.

Lemma participant_q_other conversationId userId conversationId' userId' p :
  (conversationId', userId') <> (conversationId, userId) ->
  participant_q conversationId userId p = true ->
  participant_q conversationId' userId' p = false.
Proof.
  unfold participant_q. intros Hne Hq.
  apply andb_true_iff in Hq
    as [Hc%bool_decide_eq_true_1 Hu%bool_decide_eq_true_1].
  apply andb_false_iff.
  destruct (decide (cp_conversation_id p = conversationId')) as [Hc'|Hc'];
    [|left; by apply bool_decide_eq_false_2].
  right. apply bool_decide_eq_false_2. intros Hu'. apply Hne. congruence.
Qed.

Lemma upsert_upsert {A} (q : A -> bool) set1 fresh1 set2 fresh2
    (c : list A) :
  q fresh1 = true -> (forall d, q d = true -> q (set1 d) = true) ->
  set2 fresh1 = fresh2 -> (forall d, set2 (set1 d) = set2 d) ->
  Collection.updateOne_upsert q set2 fresh2
    (Collection.updateOne_upsert q set1 fresh1 c) =
  Collection.updateOne_upsert q set2 fresh2 c.
Proof.
  intros Hfresh Hset Hf Hs. induction c as [|d c IH]; simpl.
  - by rewrite Hfresh, Hf.
  - destruct (q d) eqn:Hd; simpl.
    + by rewrite (Hset d Hd), Hs.
    + by rewrite Hd, IH.
Qed.

Lemma POST_members_ok e s id userId :
  no_fault_before 1 e = true ->
  POST_members e s id userId =
    (reply_ok "Member added",
     set_db
       (set_conversation_participants
          (members_after id userId (now e)
             (conversation_participants (db s))) (db s)) s).
Proof.
  intros Hn. unfold POST_members, route, post_members. cbv [bind ask].
  by rewrite (await_db_ok _ 1) by (done || simpl; lia).
Qed.

Lemma participant_never_403 e s userId conversationId :
  is_participant (db s) userId conversationId = true ->
  GET_conversation e s userId conversationId <>
    res_status 403 "Not a participant of this conversation".
Proof.
  intros Hp. unfold GET_conversation, get_conversation, bind.
  unfold is_participant in Hp.
  destruct (await_query_cases
    (fun d => Collection.findOne (participant_q conversationId userId)
                (conversation_participants d)) e
    {| server := s; trips := 0; outbox := [] |}) as [-> | ->]; [done|].
  simpl. destruct (Collection.findOne _ _) as [p|]; [|done].
  match goal with
  | |- context [await_db (query ?f) e ?r1] =>
      destruct (await_query_cases f e r1) as [-> | ->]; [done|]
  end.
  simpl. by destruct (mapM _ _ e _) as [[hs|err] r2].
Qed.

(** X23. [POST /conversation/:id/members] asks nothing about the caller:
    whoever calls it, the user named in the body is a participant of the
    conversation afterwards, and the history route no longer answers that
    user with the 403. The record of (conversation, user) is then no admin,
    not muted and joined at the time of the call, also when the user was a
    member before; only the nickname of an earlier record is kept. No other
    membership changes. A later call overwrites an earlier one: after two
    calls the server is as after the second alone. *)
Theorem members_route_admits_anyone e s id userId :
  no_fault_before 1 e = true ->
  let '(reply, s') := POST_members e s id userId in
  reply = reply_ok "Member added"
  /\ is_participant (db s') userId id = true
  /\ Collection.findOne (participant_q id userId)
       (conversation_participants (db s')) =
     Some {| cp_conversation_id := id; cp_user_id := userId;
             cp_is_admin := false; cp_is_muted := false;
             cp_joined_at := now e;
             cp_nickname :=
               Collection.findOne (participant_q id userId)
                 (conversation_participants (db s)) ≫= cp_nickname |}
  /\ (forall userId' id', (id', userId') <> (id, userId) ->
        Collection.findOne (participant_q id' userId')
          (conversation_participants (db s')) =
        Collection.findOne (participant_q id' userId')
          (conversation_participants (db s)))
  /\ (forall e2, no_fault_before 1 e2 = true ->
        POST_members e2 s' id userId = POST_members e2 s id userId)
  /\ forall e', GET_conversation e' s' userId id <>
       res_status 403 "Not a participant of this conversation".
Proof.
  intros Hn. rewrite POST_members_ok by done.
  assert (forall t nick,
            participant_q id userId
              {| cp_conversation_id := id; cp_user_id := userId;
                 cp_is_admin := false; cp_is_muted := false;
                 cp_joined_at := t; cp_nickname := nick |} = true)
    as Hmember.
  { intros t nick. unfold participant_q. simpl.
    by rewrite !bool_decide_eq_true_2. }
  assert (Collection.findOne (participant_q id userId)
            (members_after id userId (now e)
               (conversation_participants (db s))) =
          Some {| cp_conversation_id := id; cp_user_id := userId;
                  cp_is_admin := false; cp_is_muted := false;
                  cp_joined_at := now e;
                  cp_nickname :=
                    Collection.findOne (participant_q id userId)
                      (conversation_participants (db s)) ≫= cp_nickname |})
    as Hfound.
  { unfold members_after. rewrite findOne_upsert;
      [|apply Hmember|intros; apply Hmember].
    by destruct (Collection.findOne _ _). }
  split_and!; [done| |exact Hfound| | |].
  - unfold is_participant. simpl. by rewrite Hfound.
  - intros userId' id' Hne. simpl. unfold members_after.
    rewrite findOne_upsert_other; [done| |].
    + exact (participant_q_other _ _ _ _ _ Hne (Hmember (now e) None)).
    + intros d Hd. split; [by eapply participant_q_other|].
      exact (participant_q_other _ _ _ _ _ Hne
               (Hmember (now e) (cp_nickname d))).
  - intros e2 Hn2. rewrite !POST_members_ok by done. simpl.
    unfold members_after, set_db, set_conversation_participants. simpl.
    rewrite upsert_upsert; [done|apply Hmember|intros; apply Hmember|done
                           |done].
  - intros e'. apply participant_never_403.
    unfold is_participant. simpl. by rewrite Hfound.
Qed.

Lemma POST_leave_ok e s userId id :
  no_fault_before 1 e = true ->
  POST_leave e s userId id =
    (reply_ok "Left group",
     set_db
       (set_conversation_participants
          (Collection.deleteOne (participant_q id userId)
             (conversation_participants (db s))) (db s)) s).
Proof.
  intros Hn. unfold POST_leave, route, post_leave, bind.
  by rewrite (await_db_ok _ 1) by (done || simpl; lia).
Qed.

(** X24. Leaving a conversation over [POST /conversation/:id/leave] does
    not take the user's socket out of the room. With one membership record
    per (conversation, user), the user is no participant afterwards and the
    user's own [send_message] is dropped, yet the socket that had joined is
    still sent the [new_message] of the others. *)
Theorem leaving_does_not_leave_the_room e eA s sidA cA sidB cB data oid :
  let C := sm_conversationId data in
  socket_of sidB (sockets s) = Some cB ->
  conversation_room C ∈ rooms cB ->
  NoDup (map participant_key (conversation_participants (db s))) ->
  no_fault_before 1 e = true ->
  socket_of sidA (sockets s) = Some cA ->
  is_participant (db s) (data_userId cA) C = true ->
  data_userId cA <> data_userId cB ->
  no_fault_before 3 eA = true ->
  new_ObjectId (data_userId cA) = Some oid ->
  let s' := (POST_leave e s (data_userId cB) C).2 in
  is_participant (db s') (data_userId cB) C = false
  /\ (forall eB dataB, sm_conversationId dataB = C ->
        dispatch eB sidB (send_message dataB) s' = (s', []))
  /\ exists m,
       {| dl_to := sidB; dl_event := new_message m |}
         ∈ (dispatch eA sidA (send_message data) s').2
       /\ nm_content m = sm_content data.
Proof.
  intros C HcB Hroom Hnd Hn HcA HpA Hne HnA Hoid. cbv zeta.
  rewrite POST_leave_ok by done. cbn [snd].
  set (s' := set_db _ s).
  assert (is_participant (db s') (data_userId cB) C = false) as HpB.
  { unfold is_participant. simpl.
    rewrite (findOne_deleteOne_unique participant_key (C, data_userId cB));
      [done| |done].
    intros p Hq. unfold participant_q in Hq.
    apply andb_true_iff in Hq
      as [Hc%bool_decide_eq_true_1 Hu%bool_decide_eq_true_1].
    unfold participant_key. by rewrite Hc, Hu. }
  split_and!; [done| |].
  - intros eB dataB HC. unfold dispatch.
    replace (socket_of sidB (sockets s')) with (Some cB) by done.
    cbv [run handler on_send_message bind].
    destruct (participant_check_cases (data_userId cB)
                (sm_conversationId dataB) eB s') as [-> | ->]; [done|].
    by rewrite HC, HpB.
  - rewrite (dispatch_send eA sidA s' cA data oid); [|done| |done|done].
    + cbn [snd]. eexists. split.
      * destruct (socket_of_Some _ _ _ HcB) as [Hin <-].
        by apply elem_of_io_to_emit.
      * done.
    + unfold is_participant. simpl.
      rewrite findOne_deleteOne_other; [done|].
      intros p Hq. eapply participant_q_other; [|done]. congruence.
Qed.

End Members.

(** ** Starting a direct conversation *)

Section StartFacts.
Context `{Driver}.

Lemma await_chats_ok {A} (op : Chats -> A * Chats) e v :
  fault e = None ->
  await_chats op e v =
    (Ok (op (chats v)).1,
     {| chats := (op (chats v)).2; calls := S (calls v) |}).
Proof.
  intros He. unfold await_chats. rewrite He.
  rewrite bool_decide_eq_false_2 by done. by destruct (op (chats v)).
Qed.








Lemma find_none {A} (q : A -> bool) (l : list A) :
  (forall x, x ∈ l -> q x = false) -> Collection.find q l = [].
Proof.
  unfold Collection.find. induction l as [|x l IH]; intros Hq; simpl; [done|].
  rewrite (Hq x) by apply list_elem_of_here. apply IH.
  intros y Hy. apply Hq. by apply list_elem_of_further.
Qed.







End StartFacts.

(** ** Creating a group *)

Section GroupFacts.
Context `{Driver}.

Lemma add_participants_twice ps1 ps2 c :
  add_participants ps2 (add_participants ps1 c) =
    add_participants (ps1 ++ ps2) c.
Proof. unfold add_participants. simpl. by rewrite app_assoc. Qed.

Lemma add_listed_ok e convId creator userIds : forall n v,
  fault e = None ->
  exists k,
    add_listed convId creator n userIds e v =
      (Ok tt,
       {| chats :=
            add_participants
              (imap (fun i u =>
                       new_participant convId u false (clock e (n + i)))
                 (filter (fun u => u <> creator) userIds)) (chats v);
          calls := k |}).
Proof.
  induction userIds as [|u userIds IH]; intros n v He.
  - exists (calls v). simpl. unfold rret, add_participants. simpl.
    rewrite app_nil_r. by destruct v as [[[] ?] ?].
  - simpl. case_bool_decide as Hu.
    + unfold rbind at 1, rask. unfold rbind at 1.
      rewrite await_chats_ok by done. simpl.
      destruct (IH (S n)
                  {| chats := add_participants
                       [new_participant convId u false (clock e n)]
                       (chats v);
                     calls := S (calls v) |} He) as [k ->].
      exists k. simpl. rewrite add_participants_twice.
      rewrite (filter_cons_True (fun u0 => u0 <> creator) u userIds Hu).
      rewrite imap_cons, Nat.add_0_r. simpl. do 4 f_equal.
      apply imap_ext. intros i x _. simpl. do 2 f_equal. lia.
    + destruct (IH n v He) as [k ->]. exists k.
      by rewrite (filter_cons_False (fun u0 => u0 <> creator) u userIds
                    (fun Hne => Hne Hu)).
Qed.

(** X27. [POST /conversation/group] answers with the id of a new group
    conversation and appends its participant records: the creator once, as
    an admin, also when listed, then every listed user in order, repetitions
    kept, none of them an admin, each with the reading of the clock at its
    insert. The creator and every listed user are participants of the group
    afterwards. *)
Theorem group_has_the_creator_and_the_listed e c userId name userIds :
  fault e = None ->
  fresh_id c (insertedId e) ->
  let '(reply, c') := POST_conversation_group e c userId name userIds in
  reply = start_ok (insertedId e)
  /\ conversations c' =
       conversations c ++
         [{| conv_id := insertedId e; is_group := true;
             conv_name := Some (default "Group Chat" (truthy name));
             conv_photo_url := None; conv_created_at := now e |}]
  /\ conversation_participants (chat_db c') =
       conversation_participants (chat_db c) ++
         group_members e userId userIds
  /\ (forall u, u = userId \/ u ∈ userIds ->
        is_participant (chat_db c') u (insertedId e) = true)
  /\ (forall u, is_participant (chat_db c') u (insertedId e) = true ->
        u = userId \/ u ∈ userIds).
Proof.
  intros He (_ & _ & Hps).
  unfold POST_conversation_group, start_route, post_conversation_group.
  unfold rbind at 1, rask. unfold rbind at 1.
  rewrite await_chats_ok by done. simpl.
  unfold rbind at 1. rewrite await_chats_ok by done. simpl.
  unfold rbind at 1.
  match goal with
  | |- context [add_listed ?i ?u ?n ?ids e ?v] =>
      destruct (add_listed_ok e i u ids n v He) as [k ->]
  end.
  unfold rret. cbv beta iota zeta delta [chats].
  assert (forall u,
    (exists p, p ∈ group_members e userId userIds /\ cp_user_id p = u) <->
    u = userId \/ u ∈ userIds) as Hmembers.
  { intros u. unfold group_members. split.
    - intros (p & Hp & <-).
      apply elem_of_cons in Hp as [-> | Hp]; [by left|].
      apply elem_of_lookup_imap in Hp as (i & u' & -> & Hu').
      apply list_elem_of_lookup_2, list_elem_of_filter in Hu' as [_ Hu'].
      by right.
    - intros [-> | Hu]; [eexists; split; [apply list_elem_of_here|done]|].
      destruct (decide (u = userId)) as [->|Hne];
        [eexists; split; [apply list_elem_of_here|done]|].
      assert (u ∈ filter (fun u => u <> userId) userIds) as Hin
        by (by apply list_elem_of_filter).
      apply list_elem_of_lookup in Hin as [i Hi].
      exists (new_participant (insertedId e) u false (clock e (2 + i))).
      split; [|done]. apply list_elem_of_further.
      by apply (elem_of_lookup_imap_2
                  (fun k u => new_participant (insertedId e) u false
                                (clock e (2 + k)))). }
  assert (forall p, p ∈ group_members e userId userIds ->
            cp_conversation_id p = insertedId e) as Hconv.
  { intros p Hin. unfold group_members in Hin.
    apply elem_of_cons in Hin as [-> | Hin]; [done|].
    by apply elem_of_lookup_imap in Hin as (i & u' & -> & _). }
  set (c' := add_participants _ (add_participants _ _)).
  assert (conversation_participants (chat_db c') =
            conversation_participants (chat_db c) ++
              group_members e userId userIds) as Hall.
  { subst c'. unfold group_members. simpl. by rewrite <- app_assoc. }
  assert (forall u,
    is_participant (chat_db c') u (insertedId e) = true <->
    exists p, p ∈ group_members e userId userIds /\ cp_user_id p = u)
    as Hpart.
  { intros u. unfold is_participant. rewrite Hall.
    destruct (Collection.findOne _ _) as [p|] eqn:Hp.
    - split; [intros _|done]. unfold Collection.findOne in Hp.
      apply List.find_some in Hp as [Hin Hq].
      unfold participant_q in Hq. apply andb_true_iff in Hq
        as [Hc%bool_decide_eq_true_1 Hu%bool_decide_eq_true_1].
      apply list_elem_of_In, elem_of_app in Hin as [Hin|Hin];
        [by destruct (Hps p Hin)|].
      by exists p.
    - split; [done|]. intros (p & Hin & Hu). exfalso.
      unfold Collection.findOne in Hp.
      assert (List.In p
                (conversation_participants (chat_db c) ++
                 group_members e userId userIds)) as Hin'
        by (apply list_elem_of_In, elem_of_app; by right).
      pose proof (List.find_none _ _ Hp p Hin') as Hq.
      unfold participant_q in Hq.
      by rewrite (Hconv p Hin), Hu, !bool_decide_eq_true_2 in Hq. }
  split_and!; [done|done|done| |].
  - intros u Hu. by apply Hpart, Hmembers.
  - intros u Hu. by apply Hmembers, Hpart.
Qed.

(** X28. [POST /conversation/group] is not atomic: when the insert of the
    creator's record fails, the caller is sent the 500 and the group
    conversation stays in the store, without any participant. *)
Theorem group_creation_can_leave_an_empty_group e c userId name userIds :
  fault e = Some 1 ->
  let '(reply, c') := POST_conversation_group e c userId name userIds in
  reply = start_error 500 "Failed to create group"
  /\ conversations c' =
       conversations c ++
         [{| conv_id := insertedId e; is_group := true;
             conv_name := Some (default "Group Chat" (truthy name));
             conv_photo_url := None; conv_created_at := now e |}]
  /\ chat_db c' = chat_db c.
Proof.
  intros He.
  unfold POST_conversation_group, start_route, post_conversation_group.
  unfold rbind at 1, rask. unfold rbind at 1.
  unfold await_chats at 1. rewrite He. simpl.
  unfold rbind at 1. unfold await_chats at 1. rewrite He. simpl. done.
Qed.

End GroupFacts.

(** ** The unique index, over the channel and the route *)

Section UniqueEverywhere.
Context `{Driver}.

(** X29. With at most one reaction per (message, user) in the store, as the
    index of [mongodb.ts] has it, there is at most one after every run of
    the channel and after [POST /message/:id/reaction], whatever arrives
    and whatever fails. *)
Theorem reactions_stay_unique trace s e userId id reaction :
  reactions_unique (db s) ->
  reactions_unique (db (steps trace s))
  /\ reactions_unique
       (db (POST_message_reaction e (steps trace s) userId id reaction).2).
Proof.
  intros Hu. pose proof (steps_keep_reactions_unique trace s Hu) as Hsteps.
  split; [done|].
  unfold POST_message_reaction, route, post_message_reaction.
  cbv [bind ask]. unfold await_db.
  destruct (truthy reaction) as [k|]; case_bool_decide; simpl; try done.
  - apply updateOne_upsert_unique; [done| |done].
    intros r Hk. unfold reaction_key in Hk. simpl in Hk.
    unfold reaction_q. inversion Hk. by rewrite !bool_decide_eq_true_2.
  - by apply deleteOne_unique.
Qed.

End UniqueEverywhere.

(** ** The further properties at work on the scenarios *)

Section MoreScenarios.
Import Scenario Cases.
#[local] Existing Instance driver.

Lemma non_participant_event_is_dropped_witness :
  dispatch env0 "sC" (send_message hello) srv_carol = (srv_carol, [])
  /\ dispatch env_query_fails "sC" (join_conversation c1) srv_carol =
       (set_unhandledRejection (Some "MongoError") srv_carol, []).
Proof.
  split.
  - destruct (non_participant_event_is_dropped env0 "sC" srv_carol sockC
                (send_message hello) c1 eq_refl eq_refl eq_refl)
      as [Hdrop _].
    apply Hdrop. left. intros C. discriminate.
  - destruct (non_participant_event_is_dropped env_query_fails "sC"
                srv_carol sockC (join_conversation c1) c1
                eq_refl eq_refl eq_refl) as [_ Hreject].
    apply Hreject; [by exists c1|reflexivity].
Defined.

Lemma join_adds_only_the_room_witness :
  let '(s', out) :=
    dispatch env0 "sA2" (join_conversation c1) srv_two_devices in
  out = [] /\ db s' = db0
  /\ dispatch env0 "sA2" (join_conversation c1) s' = (s', []).
Proof.
  pose proof (join_adds_only_the_room env0 "sA2" srv_two_devices sockA2 c1
                eq_refl eq_refl eq_refl) as Hthm.
  destruct (dispatch env0 "sA2" (join_conversation c1) srv_two_devices)
    as [s' out].
  cbv zeta in Hthm. destruct Hthm as (Hout & Hdb & _ & _ & Hagain).
  split_and!; assumption.
Defined.

Lemma joined_socket_receives_new_message_witness :
  exists m,
    {| dl_to := "sA2"; dl_event := new_message m |}
      ∈ (dispatch env0 "sB" (send_message hello)
           (dispatch env0 "sA2" (join_conversation c1) srv_two_devices).1).2
    /\ nm_content m = "hello" /\ nm_sender_id m = bob /\ nm_reactions m = [].
Proof.
  apply (joined_socket_receives_new_message env0 env0 srv_two_devices
           "sB" sockB "sA2" sockA2 hello bob); reflexivity.
Defined.

Lemma typing_goes_to_the_others_in_the_room_witness :
  (dispatch env0 "sA" (typing c1) srv0).2 =
    [{| dl_to := "sB"; dl_event := user_typing alice c1 |}].
Proof.
  pose proof (typing_goes_to_the_others_in_the_room env0 "sA" srv0 sockA c1
                eq_refl) as Hthm.
  destruct (dispatch env0 "sA" (typing c1) srv0) as [s' out] eqn:Hrun.
  cbv zeta in Hthm. destruct Hthm as (_ & _ & _).
  vm_compute in Hrun. injection Hrun as _ <-. reflexivity.
Defined.

Lemma sender_tombstone_reaches_the_room_witness :
  let '(s', out) :=
    dispatch env0 "sA" (delete_message (delete_m1 true)) srv0 in
  Collection.findOne (deletion_q m1 alice) (message_deletions (db s')) =
    Some {| d_message_id := m1; d_user_id := alice;
            deleted_for_everyone := true |}
  /\ {| dl_to := "sB"; dl_event := message_deleted m1 true |} ∈ out.
Proof.
  pose proof (sender_tombstone_reaches_the_room env0 "sA" srv0 sockA
                (delete_m1 true) message1
                eq_refl eq_refl eq_refl eq_refl eq_refl eq_refl) as Hthm.
  destruct (dispatch env0 "sA" (delete_message (delete_m1 true)) srv0)
    as [s' out].
  cbv zeta in Hthm. destruct Hthm as (Hmarker & Hall & _).
  split; [assumption|].
  apply (Hall sockB).
  - simpl. rewrite !elem_of_cons. auto.
  - simpl. apply elem_of_union_r. by apply elem_of_singleton.
Defined.

Lemma db0_senders_well_formed m' :
  m' ∈ messages db0 -> msg_conversation_id m' = c1 ->
  is_Some (new_ObjectId (msg_sender_id m')).
Proof.
  intros Hm _. apply list_elem_of_singleton in Hm as ->.
  exists alice. reflexivity.
Defined.

Lemma db0_no_marker x : x ∈ message_deletions db0 -> d_message_id x <> m1.
Proof. intros Hx. by apply elem_of_nil in Hx. Defined.

Lemma tombstone_shows_in_history_witness :
  exists body h,
    GET_conversation env0
      (dispatch env0 "sA" (delete_message (delete_m1 true)) srv0).1 bob c1
      = res_json body
    /\ h ∈ body /\ hm_id h = m1
    /\ hm_content h = placeholder /\ hm_deleted_for_everyone h = true.
Proof.
  apply (tombstone_shows_in_history env0 env0 "sA" srv0 sockA
           (delete_m1 true) message1 bob);
    first [reflexivity | exact db0_senders_well_formed | idtac].
  intros Hin. by apply elem_of_nil in Hin.
Defined.

Lemma tombstone_under_another_spelling_is_not_shown_witness :
  let '(s', out) :=
    dispatch env0 "sA"
      (delete_message {| dm_messageId := m1_upper; dm_conversationId := c1;
                         dm_forEveryone := true |}) srv0 in
  out = io_to_emit (conversation_room c1) (message_deleted m1_upper true)
          (sockets srv0)
  /\ exists body h,
       GET_conversation env0 s' bob c1 = res_json body
       /\ h ∈ body /\ hm_id h = m1 /\ hm_content h = "hi"
       /\ hm_deleted_for_everyone h = false.
Proof.
  apply (tombstone_under_another_spelling_is_not_shown env0 env0 "sA" srv0
           sockA
           {| dm_messageId := m1_upper; dm_conversationId := c1;
              dm_forEveryone := true |} message1 bob);
    first [ reflexivity | exact db0_senders_well_formed
          | exact db0_no_marker | (vm_compute; discriminate) ].
Defined.

Lemma sender_delete_for_me_undoes_delete_for_everyone_witness :
  let s1 := (dispatch env0 "sA" (delete_message (delete_m1 true)) srv0).1 in
  let s2 := (dispatch env0 "sA" (delete_message (delete_m1 false)) s1).1 in
  exists body h,
    GET_conversation env0 s2 bob c1 = res_json body
    /\ h ∈ body /\ hm_id h = m1 /\ hm_content h = "hi"
    /\ hm_deleted_for_everyone h = false.
Proof.
  pose proof (sender_delete_for_me_undoes_delete_for_everyone
                env0 env0 env0 "sA" srv0 sockA message1 bob
                eq_refl eq_refl eq_refl eq_refl db0_no_marker
                eq_refl eq_refl eq_refl) as Hthm.
  destruct Hthm as [_ Hhistory];
    first [discriminate | reflexivity | exact db0_senders_well_formed
          | exact Hhistory].
Defined.

Lemma react_leaves_the_other_reactions_witness :
  let s' := (dispatch env0 "sA" (react m1 c1 (Some "heart")) srv_reacted).1 in
  {| r_message_id := m1; r_user_id := bob; r_reaction := "like";
     r_created_at := 15 |} ∈ message_reactions (db s')
  /\ messages (db s') = messages db0.
Proof.
  pose proof (react_leaves_the_other_reactions env0 "sA" srv_reacted sockA
                m1 c1 (Some "heart") eq_refl eq_refl eq_refl) as Hthm.
  cbv zeta in Hthm. destruct Hthm as (Hothers & Hmessages & _).
  split; [|exact Hmessages].
  apply Hothers; [discriminate|].
  simpl. rewrite elem_of_cons. auto.
Defined.

Lemma reaction_broadcast_is_the_full_set_witness :
  exists reactions,
    (dispatch env0 "sA" (react m1 c1 (Some "heart")) srv_reacted).2 =
      io_to_emit (conversation_room c1)
        (message_reaction_updated m1 reactions) (sockets srv_reacted)
    /\ (alice, "heart") ∈ reactions
    /\ (bob, "like") ∈ reactions.
Proof.
  destruct (reaction_broadcast_is_the_full_set env0 "sA" srv_reacted sockA
              m1 c1 "heart" eq_refl eq_refl eq_refl)
    as (reactions & Hout & Hmine & Hothers); [discriminate|].
  exists reactions. split_and!; [assumption|assumption|].
  apply Hothers; [discriminate|].
  eexists. split; [simpl; rewrite elem_of_cons; auto|].
  split_and!; reflexivity.
Defined.

Lemma connect_then_disconnect_witness :
  dispatch env0 "sC" disconnect (connect env0 "sC" carol_token srv0).2.1 =
    (srv0, io_emit (user_offline carol) (sockets srv0)).
Proof.
  pose proof (connect_then_disconnect env0 env0 "sC" carol_token srv0 carol
                eq_refl eq_refl) as Hthm.
  cbv zeta in Hthm.
  destruct (dispatch env0 "sC" disconnect
              (connect env0 "sC" carol_token srv0).2.1) as [s2 out].
  destruct Hthm as (_ & -> & Hback). rewrite Hback; reflexivity.
Defined.

Lemma srv0_rooms_authorized : rooms_authorized srv0.
Proof.
  intros c C Hc Hroom Hne. simpl in Hc. rewrite !elem_of_cons in Hc.
  destruct Hc as [-> | [-> | Hc]]; [| |by apply elem_of_nil in Hc];
    simpl in *;
    apply elem_of_union in Hroom as [Hroom|Hroom];
    apply elem_of_singleton in Hroom;
    first [ by destruct (Hne Hroom)
          | apply conversation_room_inj in Hroom; subst C; reflexivity ].
Defined.

Lemma srv0_channel_ok : channel_ok srv0.
Proof.
  split; [|exact srv0_rooms_authorized].
  simpl. apply NoDup_cons. split; [|apply NoDup_singleton].
  intros Hin. apply list_elem_of_singleton in Hin. discriminate Hin.
Defined.

Lemma rooms_stay_authorized_witness : channel_ok (steps trace0 srv0).
Proof.
  apply (rooms_stay_authorized trace0 srv0); [exact srv0_channel_ok|].
  simpl. split_and!; first [exact I | reflexivity].
Defined.

Lemma conversation_events_stay_among_participants_witness :
  Forall (to_requester_or_participant srv0 "sA" c1)
    (dispatch env0 "sA" (send_message hello) srv0).2.
Proof.
  apply Forall_forall.
  apply (conversation_events_stay_among_participants env0 "sA" srv0 sockA
           (send_message hello) c1);
    first [exact srv0_rooms_authorized | reflexivity].
Defined.

Lemma send_message_failure_is_never_broadcast_witness :
  let '(s', out) :=
    dispatch env_lookup_fails "sA" (send_message hello) srv0 in
  out = [] /\ length (messages (db s')) = 2.
Proof.
  pose proof (send_message_failure_is_never_broadcast env_lookup_fails "sA"
                srv0 sockA hello alice 2 eq_refl eq_refl eq_refl eq_refl)
    as Hthm.
  destruct (dispatch env_lookup_fails "sA" (send_message hello) srv0)
    as [s' out].
  destruct Hthm as (Hout & _ & Hstored); [lia|].
  split; [assumption|]. rewrite Hstored; reflexivity.
Defined.

Lemma history_is_refused_to_non_participants_witness :
  GET_conversation env0 srv0 carol c1 =
    res_status 403 "Not a participant of this conversation".
Proof.
  destruct (history_is_refused_to_non_participants env0 srv0 carol c1 eq_refl)
    as (_ & Hrefused & _).
  apply Hrefused. discriminate.
Defined.

Lemma history_is_in_creation_order_witness :
  exists body,
    GET_conversation env0 (dispatch env0 "sA" (send_message hello) srv0).1
      bob c1 = res_json body
    /\ length body = 2
    /\ StronglySorted (fun a b => hm_created_at a <= hm_created_at b) body.
Proof.
  assert (exists body,
            GET_conversation env0
              (dispatch env0 "sA" (send_message hello) srv0).1 bob c1
            = res_json body /\ length body = 2)
    as (body & Hbody & Hlen)
    by (eexists; split; [vm_compute; reflexivity|reflexivity]).
  exists body. split_and!; [exact Hbody|exact Hlen|].
  apply (history_is_in_creation_order env0
           (dispatch env0 "sA" (send_message hello) srv0).1 bob c1 body
           Hbody).
Defined.

Lemma history_is_faithful_witness :
  exists body h,
    GET_conversation env0 srv_reacted alice c1 = res_json body
    /\ h ∈ body /\ hm_id h = m1 /\ hm_content h = "hi"
    /\ hm_deleted_for_everyone h = false.
Proof.
  assert (exists body,
            GET_conversation env0 srv_reacted alice c1 = res_json body)
    as [body Hbody] by (eexists; vm_compute; reflexivity).
  destruct (history_is_faithful env0 srv_reacted alice c1 body Hbody)
    as [_ Hlisted].
  destruct (Hlisted message1) as (h & Hh);
    [simpl; rewrite elem_of_cons; auto|reflexivity
    |intros x Hx; by apply elem_of_nil in Hx|].
  exists body, h. split; [exact Hbody|exact Hh].
Defined.

Lemma route_and_channel_react_alike_witness :
  (POST_message_reaction env0 srv_reacted bob m1 (Some "heart")).2 =
    (dispatch env0 "sB" (react m1 c1 (Some "heart")) srv_reacted).1
  /\ route_emits (post_message_reaction bob m1 (Some "heart")) env0
       srv_reacted = [].
Proof.
  pose proof (route_and_channel_react_alike env0 "sB" srv_reacted sockB m1 c1
                (Some "heart") eq_refl eq_refl eq_refl) as Hthm.
  change bob with (data_userId sockB).
  destruct (POST_message_reaction env0 srv_reacted (data_userId sockB) m1
              (Some "heart")) as [reply s'].
  destruct Hthm as (_ & Hsame & Hquiet). split; [exact Hsame|exact Hquiet].
Defined.

Lemma route_reaction_shows_in_history_witness :
  let '(reply, s') :=
    POST_message_reaction env0 srv0 carol m1 (Some "heart") in
  reply = reply_ok "Reaction updated"
  /\ exists body h,
       GET_conversation env0 s' bob c1 = res_json body
       /\ body = [h] /\ (carol, "heart") ∈ hm_reactions h.
Proof.
  pose proof (route_reaction_shows_in_history env0 srv0 carol m1 "heart"
                eq_refl ltac:(discriminate)) as Hthm.
  destruct (POST_message_reaction env0 srv0 carol m1 (Some "heart"))
    as [reply s'] eqn:Hrun.
  destruct Hthm as (Hreply & _ & Hshown). split; [exact Hreply|].
  assert (exists body h,
            GET_conversation env0 s' bob c1 = res_json body
            /\ body = [h] /\ hm_id h = m1)
    as (body & h & Hbody & Hone & Hid).
  { vm_compute in Hrun. injection Hrun as _ <-.
    eexists _, _. split_and!; [vm_compute; reflexivity|reflexivity..]. }
  exists body, h. split_and!; [exact Hbody|exact Hone|].
  apply (Hshown env0 bob c1 body h Hbody); [|exact Hid].
  rewrite Hone. apply list_elem_of_here.
Defined.

Lemma route_delete_for_everyone_is_for_the_sender_witness :
  DELETE_message env0 srv0 bob m1 true =
    (reply_error 403 "Can only delete your own messages for everyone", srv0).
Proof.
  destruct (route_delete_for_everyone_is_for_the_sender env0 srv0 bob m1)
    as [Hsame Hreply]; [vm_compute; discriminate|].
  destruct (DELETE_message env0 srv0 bob m1 true) as [reply s'].
  simpl in *. rewrite Hsame, Hreply;
    first [reflexivity | discriminate | by exists m1].
Defined.

Lemma route_and_channel_delete_alike_witness :
  (DELETE_message env0 srv0 alice m1 true).2 =
    (dispatch env0 "sA" (delete_message (delete_m1 true)) srv0).1.
Proof.
  apply (route_and_channel_delete_alike env0 "sA" srv0 sockA (delete_m1 true));
    reflexivity.
Defined.

Lemma members_route_admits_anyone_witness :
  (let '(reply, s') := POST_members env0 srv0 c1 carol in
   is_participant (db s') carol c1 = true
   /\ GET_conversation env0 s' carol c1 <>
        res_status 403 "Not a participant of this conversation")
  /\ (let '(reply, s') := POST_members env0 srv0 c1 bob in
      Collection.findOne (participant_q c1 bob)
        (conversation_participants (db s')) =
      Some (new_participant c1 bob false 20)).
Proof.
  split.
  - pose proof (members_route_admits_anyone env0 srv0 c1 carol eq_refl)
      as Hthm.
    destruct (POST_members env0 srv0 c1 carol) as [reply s'].
    destruct Hthm as (_ & Hmember & _ & _ & _ & Hopen).
    split; [assumption|apply Hopen].
  - pose proof (members_route_admits_anyone env0 srv0 c1 bob eq_refl)
      as Hthm.
    destruct (POST_members env0 srv0 c1 bob) as [reply s'].
    destruct Hthm as (_ & _ & Hrecord & _). exact Hrecord.
Defined.

Lemma db0_participants_unique :
  NoDup (map participant_key (conversation_participants db0)).
Proof.
  simpl. apply NoDup_cons. split; [|apply NoDup_singleton].
  intros Hin. apply list_elem_of_singleton in Hin. discriminate Hin.
Defined.

Lemma leaving_does_not_leave_the_room_witness :
  let s' := (POST_leave env0 srv0 bob c1).2 in
  is_participant (db s') bob c1 = false
  /\ dispatch env0 "sB" (send_message hello) s' = (s', [])
  /\ exists m,
       {| dl_to := "sB"; dl_event := new_message m |}
         ∈ (dispatch env0 "sA" (send_message hello) s').2
       /\ nm_content m = "hello".
Proof.
  pose proof (leaving_does_not_leave_the_room env0 env0 srv0 "sA" sockA
                "sB" sockB hello alice eq_refl) as Hthm.
  cbv zeta in Hthm.
  destruct Hthm as (Hout & Hdropped & Hstill);
    first [ exact db0_participants_unique | reflexivity | discriminate
          | (simpl; apply elem_of_union_r; by apply elem_of_singleton)
          | idtac ].
  split_and!; [exact Hout|apply Hdropped; reflexivity|exact Hstill].
Defined.



Lemma chats0_fresh : fresh_id chats0 c2.
Proof.
  split_and!; [reflexivity| |].
  - intros x Hx. apply list_elem_of_singleton in Hx as ->. discriminate.
  - intros p Hp. simpl in Hp. rewrite !elem_of_cons in Hp.
    destruct Hp as [-> | [-> | Hp]]; [| |by apply elem_of_nil in Hp];
      split; discriminate.
Defined.



Lemma group_has_the_creator_and_the_listed_witness :
  let '(reply, c') :=
    POST_conversation_group env1 chats0 alice (Some "Team")
      [bob; alice; bob] in
  reply = start_ok c2
  /\ conversation_participants (chat_db c') =
       conversation_participants db0 ++
         [ new_participant c2 alice true 31;
           new_participant c2 bob false 32;
           new_participant c2 bob false 33 ]
  /\ is_participant (chat_db c') bob c2 = true.
Proof.
  pose proof (group_has_the_creator_and_the_listed env1 chats0 alice
                (Some "Team") [bob; alice; bob] eq_refl chats0_fresh)
    as Hthm.
  destruct (POST_conversation_group env1 chats0 alice (Some "Team")
              [bob; alice; bob]) as [reply c'].
  destruct Hthm as (Hreply & _ & Hrecords & Hmembers & _).
  split_and!; [exact Hreply|rewrite Hrecords; reflexivity|].
  apply Hmembers. right. apply list_elem_of_here.
Defined.

Lemma group_creation_can_leave_an_empty_group_witness :
  let '(reply, c') :=
    POST_conversation_group env_second_call_fails chats0 alice None [bob] in
  reply = start_error 500 "Failed to create group"
  /\ length (conversations c') = 2
  /\ chat_db c' = db0.
Proof.
  pose proof (group_creation_can_leave_an_empty_group env_second_call_fails
                chats0 alice None [bob] eq_refl) as Hthm.
  destruct (POST_conversation_group env_second_call_fails chats0 alice None
              [bob]) as [reply c'].
  destruct Hthm as (Hreply & Hconvs & Hdb).
  split_and!; [exact Hreply|rewrite Hconvs; reflexivity|exact Hdb].
Defined.

Lemma reactions_stay_unique_witness :
  reactions_unique (db (steps trace0 srv_reacted))
  /\ reactions_unique
       (db (POST_message_reaction env0 (steps trace0 srv_reacted) carol m1
              (Some "wow")).2).
Proof.
  apply (reactions_stay_unique trace0 srv_reacted env0 carol m1 (Some "wow")).
  exact srv_reacted_unique.
Defined.

End MoreScenarios.
